(** * KLlama: session lifecycle, sampler configuration and generation loop

    A shallow embedding of [native/library/src/lib/KLlama.h] and
    [native/library/src/lib/KLlama.cpp].

    - C++ [float] values are IEEE-754 binary32 values, modelled with the
      Standard Library's [spec_float] and its comparisons ([SFltb], [SFleb],
      [SFeqb]), so that NaN, infinities and signed zeros behave as in the
      compiled code.
    - [int32_t] values are [Z]; the increments of the generation loop are
      written with their wrap-around.
    - The inference engine (llama.cpp), the vision engine (mtmd) and the
      file system are external: their answers come from an [Engine] record
      of oracles, and every call made to them is appended to a trace.
    - Member functions of [KLlama] are computations in a state monad over
      the object's fields, the trace and the number of polls of the
      cancellation token made so far.
    - Exceptions are part of the results.  Two are thrown by the code as it
      stands: [std::filesystem_error], by the call of
      [std::filesystem::exists] in [checkFileExists] (KLlama.cpp:52), which
      nothing catches; and [std::length_error], by the string constructor
      of [tokenToString] (KLlama.cpp:23), which the catch-all handler of
      [generateResponseInternal] (KLlama.cpp:829-832) turns into
      [UnknownError].  A function that can let an exception out returns an
      [Outcome].
    - Where the behaviour of the C++ code is not defined (a read or a write
      outside a buffer) the model gives no result: [None].
    - Callbacks are observers: a call of an installed callback is recorded
      in the trace; callbacks neither call back into the object nor throw.
      Memory allocation does not fail.
    - The wall clock is not modelled: [updateGenerationStats] and the two
      statistics it computes are left out. *)

From Stdlib Require Import ZArith List String Bool Lia SpecFloat.
From Stdlib Require Import Strings.Byte.
Import ListNotations.

Local Open Scope string_scope.
Local Open Scope Z_scope.

(** ** Result / error model (KLlama.h) *)

Module KLlamaError.

Inductive t : Type :=
| None
| ModelNotFound
| ModelLoadFailed
| ModelInvalid
| MmprojNotFound
| MmprojLoadFailed
| MmprojInvalid
| ContextInitFailed
| InsufficientMemory
| TokenizationFailed
| EvaluationFailed
| SamplingFailed
| ImageProcessingFailed
| InvalidParameters
| NotInitialized
| AlreadyInitialized
| OperationCancelled
| UnknownError.

Definition code (e : t) : Z :=
  match e with
  | None => 0
  | ModelNotFound => 1
  | ModelLoadFailed => 2
  | ModelInvalid => 3
  | MmprojNotFound => 4
  | MmprojLoadFailed => 5
  | MmprojInvalid => 6
  | ContextInitFailed => 7
  | InsufficientMemory => 8
  | TokenizationFailed => 9
  | EvaluationFailed => 10
  | SamplingFailed => 11
  | ImageProcessingFailed => 12
  | InvalidParameters => 13
  | NotInitialized => 14
  | AlreadyInitialized => 15
  | OperationCancelled => 16
  | UnknownError => 99
  end.

Definition eqb (a b : t) : bool := Z.eqb (code a) (code b).

End KLlamaError.

(** [KLlamaResult<T>]: either a value (then [error == None]) or an error
    kind with its message.  [KLlamaResult<void>] is [KLlamaResult unit]. *)
Inductive KLlamaResult (T : Type) : Type :=
| Success (value : T)
| Failure (error : KLlamaError.t) (errorMessage : string).

Arguments Success {T} value.
Arguments Failure {T} error errorMessage.

Definition error_of {T} (r : KLlamaResult T) : KLlamaError.t :=
  match r with
  | Success _ => KLlamaError.None
  | Failure e _ => e
  end.

Definition errorMessage_of {T} (r : KLlamaResult T) : string :=
  match r with
  | Success _ => ""
  | Failure _ m => m
  end.

Definition isSuccess {T} (r : KLlamaResult T) : bool :=
  KLlamaError.eqb (error_of r) KLlamaError.None.

Definition isError {T} (r : KLlamaResult T) : bool :=
  negb (KLlamaError.eqb (error_of r) KLlamaError.None).

(** ** Exceptions *)

(** The exceptions that the code lets the C++ library throw. *)
Inductive Exception : Type :=
| filesystem_error (path : string)
| length_error.

(** What a call does when it ends: it returns a value, or an exception
    leaves it. *)
Inductive Outcome (T : Type) : Type :=
| Returns (value : T)
| Throws (e : Exception).

Arguments Returns {T} value.
Arguments Throws {T} e.

(** ** binary32 literals used by the source *)

Definition float := spec_float.

(** [is_binary32 x]: [x] is a well-formed IEEE single precision value. *)
Definition is_binary32 (x : float) : bool := valid_binary 24 128 x.

Definition f32_0_0 : float := S754_zero false.
Definition f32_1_0 : float := S754_finite false 8388608 (-23).
Definition f32_2_0 : float := S754_finite false 8388608 (-22).
(** [0.01f] is 0x3C23D70A. *)
Definition f32_0_01 : float := S754_finite false 10737418 (-30).
(** Defaults of [SamplingParams]: 0.7f, 0.9f, 0.05f, 1.1f. *)
Definition f32_0_7 : float := S754_finite false 11744051 (-24).
Definition f32_0_9 : float := S754_finite false 15099494 (-24).
Definition f32_0_05 : float := S754_finite false 13421773 (-28).
Definition f32_1_1 : float := S754_finite false 9227469 (-23).

(** C++ comparison operators on [float]. *)
Definition flt (a b : float) : bool := SFltb a b.
Definition fgt (a b : float) : bool := SFltb b a.
Definition fle (a b : float) : bool := SFleb a b.
Definition fne (a b : float) : bool := negb (SFeqb a b).

Definition is_nan (x : float) : bool :=
  match x with
  | S754_nan => true
  | _ => false
  end.

(** ** 32-bit signed integers *)

Definition INT32_MIN : Z := - 2 ^ 31.
Definition INT32_MAX : Z := 2 ^ 31 - 1.

Definition int32_range (z : Z) : Prop := INT32_MIN <= z <= INT32_MAX.

Definition wrap_int32 (z : Z) : Z := (z + 2 ^ 31) mod 2 ^ 32 - 2 ^ 31.

(** ** 64-bit integers *)

(** [static_cast<int64_t>] of a [uint64_t], and arithmetic on [size_t]. *)
Definition wrap_int64 (z : Z) : Z := (z + 2 ^ 63) mod 2 ^ 64 - 2 ^ 63.
Definition wrap_uint64 (z : Z) : Z := z mod 2 ^ 64.

(** ** Sampling parameters and their validation *)

Module SamplingParams.

Record t : Type := mk {
  temperature : float;
  topP : float;
  topK : Z;
  minP : float;
  typicalP : float;
  repeatPenalty : float;
  repeatLastN : Z;
  frequencyPenalty : float;
  presencePenalty : float;
  nPredict : Z
}.

(** The default member initialisers of the struct. *)
Definition default : t :=
  {| temperature := f32_0_7;
     topP := f32_0_9;
     topK := 40;
     minP := f32_0_05;
     typicalP := f32_1_0;
     repeatPenalty := f32_1_1;
     repeatLastN := 64;
     frequencyPenalty := f32_0_0;
     presencePenalty := f32_0_0;
     nPredict := -1 |}.

Definition set_temperature (x : float) (p : t) : t :=
  mk x (topP p) (topK p) (minP p) (typicalP p) (repeatPenalty p)
     (repeatLastN p) (frequencyPenalty p) (presencePenalty p) (nPredict p).

Definition set_typicalP (x : float) (p : t) : t :=
  mk (temperature p) (topP p) (topK p) (minP p) x (repeatPenalty p)
     (repeatLastN p) (frequencyPenalty p) (presencePenalty p) (nPredict p).

Definition set_nPredict (n : Z) (p : t) : t :=
  mk (temperature p) (topP p) (topK p) (minP p) (typicalP p) (repeatPenalty p)
     (repeatLastN p) (frequencyPenalty p) (presencePenalty p) n.

(** [SamplingParams::validate] (KLlama.cpp:66-86). *)
Definition validate (p : t) : KLlamaResult unit :=
  if flt (temperature p) f32_0_0 || fgt (temperature p) f32_2_0 then
    Failure KLlamaError.InvalidParameters "Temperature must be between 0.0 and 2.0"
  else if flt (topP p) f32_0_0 || fgt (topP p) f32_1_0 then
    Failure KLlamaError.InvalidParameters "top_p must be between 0.0 and 1.0"
  else if topK p <? 0 then
    Failure KLlamaError.InvalidParameters "top_k must be non-negative"
  else if flt (minP p) f32_0_0 || fgt (minP p) f32_1_0 then
    Failure KLlamaError.InvalidParameters "min_p must be between 0.0 and 1.0"
  else if flt (repeatPenalty p) f32_0_0 then
    Failure KLlamaError.InvalidParameters "repeat_penalty must be non-negative"
  else if repeatLastN p <? 0 then
    Failure KLlamaError.InvalidParameters "repeat_last_n must be non-negative"
  else Success tt.

End SamplingParams.

(** ** Image payloads and their validation *)

Record ImageData : Type := { data : list byte }.

(** [data[i]] of a [std::vector<uint8_t>]; every use below is guarded by a
    size test, as in the source. *)
Definition byte_at (d : list byte) (i : nat) : byte := nth i d x00.

Definition size (d : list byte) : Z := Z.of_nat (List.length d).

(** [KLlama::validateImageData] (KLlama.cpp:394-426). *)
Definition validateImageData (imageData : ImageData) : KLlamaResult (list byte) :=
  if match data imageData with [] => true | _ => false end then
    Failure KLlamaError.ImageProcessingFailed "Image data is empty"
  else if size (data imageData) <? 8 then
    Failure KLlamaError.ImageProcessingFailed "Image data too small"
  else
    let d := data imageData in
    let validFormat :=
      if (8 <=? size d) && Byte.eqb (byte_at d 0) x89 && Byte.eqb (byte_at d 1) x50
         && Byte.eqb (byte_at d 2) x4e && Byte.eqb (byte_at d 3) x47 then true
      else if (2 <=? size d) && Byte.eqb (byte_at d 0) xff && Byte.eqb (byte_at d 1) xd8 then true
      else if (2 <=? size d) && Byte.eqb (byte_at d 0) x42 && Byte.eqb (byte_at d 1) x4d then true
      else false in
    if negb validFormat then
      Failure KLlamaError.ImageProcessingFailed "Unsupported image format"
    else Success (data imageData).

(** ** Conversations *)

Inductive MessageRole : Type := User | Assistant | System.

Record MultimodalMessage : Type := {
  role : MessageRole;
  content : string;
  images : list ImageData
}.

(** [KLlama::extractAllImages] (KLlama.cpp:836-846). *)
Fixpoint extractAllImages (conversation : list MultimodalMessage) : list ImageData :=
  match conversation with
  | [] => []
  | message :: rest => images message ++ extractAllImages rest
  end.

(** ** Session parameters *)

(** [KLlama::checkFileExists] (KLlama.cpp:51-56).  [fs_exists] stands for
    [std::filesystem::exists(path)], the overload without an error code:
    it throws when the status of the path cannot be determined, and the
    function does not catch. *)
Definition checkFileExists (fs_exists : string -> Outcome bool) (path : string)
  : Outcome (KLlamaResult unit) :=
  match fs_exists path with
  | Throws e => Throws e
  | Returns found =>
      if negb found then
        Returns (Failure KLlamaError.ModelNotFound ("File not found: " ++ path))
      else Returns (Success tt)
  end.

Definition empty (s : string) : bool := String.eqb s "".

Definition newline : string := String (Ascii.ascii_of_nat 10) "".

Module SessionParams.

Record t : Type := mk {
  modelPath : string;
  mmprojPath : string;
  contextSize : Z;
  batch : Z;
  gpuLayers : Z;
  mmprojUseGpu : bool;
  threads : Z;
  verbosity : Z;
  sampling : SamplingParams.t
}.

Definition default : t :=
  {| modelPath := "";
     mmprojPath := "";
     contextSize := 16000;
     batch := 4096;
     gpuLayers := 0;
     mmprojUseGpu := false;
     threads := 6;
     verbosity := 1;
     sampling := SamplingParams.default |}.

(** [SessionParams::validate] (KLlama.cpp:88-117).  An exception thrown by
    one of the two calls of [checkFileExists] leaves the function; the
    second call is made only for a projector path that is not empty. *)
Definition validate (fs_exists : string -> Outcome bool) (p : t)
  : Outcome (KLlamaResult unit) :=
  if empty (modelPath p) then
    Returns (Failure KLlamaError.InvalidParameters "Model path cannot be empty")
  else
    match checkFileExists fs_exists (modelPath p) with
    | Throws e => Throws e
    | Returns fileCheck =>
        if isError fileCheck then Returns fileCheck
        else
          match (if negb (empty (mmprojPath p))
                 then checkFileExists fs_exists (mmprojPath p)
                 else Returns (Success tt)) with
          | Throws e => Throws e
          | Returns mmprojCheck =>
              if negb (empty (mmprojPath p)) && isError mmprojCheck then
                Returns (Failure KLlamaError.MmprojNotFound
                           ("Multimodal projector file not found: " ++ mmprojPath p))
              else if contextSize p <=? 0 then
                Returns (Failure KLlamaError.InvalidParameters
                           "Context size must be positive")
              else if batch p <=? 0 then
                Returns (Failure KLlamaError.InvalidParameters
                           "Batch size must be positive")
              else if threads p <=? 0 then
                Returns (Failure KLlamaError.InvalidParameters
                           "Thread count must be positive")
              else Returns (SamplingParams.validate (sampling p))
          end
    end.

End SessionParams.

(** ** Generation state and statistics *)

Module GenerationState.

Inductive t : Type :=
| Idle
| Initializing
| TokenizingPrompt
| ProcessingImages
| Generating
| Finished
| Cancelled
| Error.

Definition code (s : t) : Z :=
  match s with
  | Idle => 0
  | Initializing => 1
  | TokenizingPrompt => 2
  | ProcessingImages => 3
  | Generating => 4
  | Finished => 5
  | Cancelled => 6
  | Error => 7
  end.

Definition eqb (a b : t) : bool := Z.eqb (code a) (code b).

End GenerationState.

(** [GenerationStats].  The two fields derived from the wall clock
    ([timeElapsed], [tokensPerSecond]) are left out; [sampling] is the field
    that [generateResponseInternal] assigns at KLlama.cpp:555. *)
Record GenerationStats : Type := {
  tokensGenerated : Z;
  state : GenerationState.t;
  stats_sampling : SamplingParams.t
}.

(** [GenerationStats{}]. *)
Definition GenerationStats_zero : GenerationStats :=
  {| tokensGenerated := 0;
     state := GenerationState.Idle;
     stats_sampling := SamplingParams.default |}.

(** ** Engine handles, sampler chains and the decode batch *)

Definition Handle := nat.

(** One stage of a [llama_sampler] chain, with the arguments of its
    [llama_sampler_init_*] call. *)
Inductive SamplerStage : Type :=
| Penalties (lastN : Z) (repeat freq present : float)
| Greedy
| TopK (k : Z)
| Typical (p : float) (min_keep : Z)
| TopP (p : float) (min_keep : Z)
| MinP (p : float) (min_keep : Z)
| Temp (t : float)
| Dist (seed : Z).

(** The fields of [llama_batch] that the class reads or writes.  [token] is
    [None] for a null buffer and [Some id] for the one-slot buffer allocated
    by [llama_batch_init(1, 0, 1)]. *)
Record llama_batch : Type := {
  n_tokens : Z;
  token : option Z;
  pos : Z
}.

Definition llama_batch_zero : llama_batch :=
  {| n_tokens := 0; token := None; pos := 0 |}.

(** ** The object *)

Record KLlama : Type := mkKLlama {
  initialized : bool;
  params : SessionParams.t;
  generationState : GenerationState.t;
  visionContext : option Handle;
  model : option Handle;
  llamaContext : option Handle;
  sampler : option (list SamplerStage);
  batch : llama_batch;
  currentStats : GenerationStats
}.

(** [KLlama() = default]: the default member initialisers. *)
Definition KLlama_new : KLlama :=
  {| initialized := false;
     params := SessionParams.default;
     generationState := GenerationState.Idle;
     visionContext := None;
     model := None;
     llamaContext := None;
     sampler := None;
     batch := llama_batch_zero;
     currentStats := GenerationStats_zero |}.

Definition set_initialized (b : bool) (k : KLlama) : KLlama :=
  mkKLlama b (params k) (generationState k) (visionContext k) (model k)
           (llamaContext k) (sampler k) (batch k) (currentStats k).
Definition set_params (p : SessionParams.t) (k : KLlama) : KLlama :=
  mkKLlama (initialized k) p (generationState k) (visionContext k) (model k)
           (llamaContext k) (sampler k) (batch k) (currentStats k).
Definition set_generationState (g : GenerationState.t) (k : KLlama) : KLlama :=
  mkKLlama (initialized k) (params k) g (visionContext k) (model k)
           (llamaContext k) (sampler k) (batch k) (currentStats k).
Definition set_visionContext (h : option Handle) (k : KLlama) : KLlama :=
  mkKLlama (initialized k) (params k) (generationState k) h (model k)
           (llamaContext k) (sampler k) (batch k) (currentStats k).
Definition set_model (h : option Handle) (k : KLlama) : KLlama :=
  mkKLlama (initialized k) (params k) (generationState k) (visionContext k) h
           (llamaContext k) (sampler k) (batch k) (currentStats k).
Definition set_llamaContext (h : option Handle) (k : KLlama) : KLlama :=
  mkKLlama (initialized k) (params k) (generationState k) (visionContext k) (model k)
           h (sampler k) (batch k) (currentStats k).
Definition set_sampler (s : option (list SamplerStage)) (k : KLlama) : KLlama :=
  mkKLlama (initialized k) (params k) (generationState k) (visionContext k) (model k)
           (llamaContext k) s (batch k) (currentStats k).
Definition set_batch (b : llama_batch) (k : KLlama) : KLlama :=
  mkKLlama (initialized k) (params k) (generationState k) (visionContext k) (model k)
           (llamaContext k) (sampler k) b (currentStats k).
Definition set_currentStats (s : GenerationStats) (k : KLlama) : KLlama :=
  mkKLlama (initialized k) (params k) (generationState k) (visionContext k) (model k)
           (llamaContext k) (sampler k) (batch k) s.

(** ** [tokenToString] and its buffer *)

(** Writing [bytes] at the start of [buf], as [llama_token_to_piece] does
    with the buffer it is given: never more than the buffer holds. *)
Definition write_into (buf bytes : list byte) : list byte :=
  (firstn (List.length buf) bytes ++ skipn (List.length bytes) buf)%list.

(** [buf.resize(n)] of a [std::vector<char>]. *)
Definition resize (buf : list byte) (n : nat) : list byte :=
  (firstn n buf ++ repeat x00 (n - List.length buf))%list.

(** The static [tokenToString] (KLlama.cpp:15-24).  [to_piece token size]
    stands for [llama_token_to_piece] with a buffer of [size] bytes: the
    value it returns and the bytes it writes.  The string is built from
    [static_cast<size_t>(n)] bytes of the buffer.  For a negative [n] this
    count is at least 2^64 - 2^31, more than any string can hold, and the
    constructor throws [std::length_error]; for a count within the buffer
    the result is the bytes; for any other count the constructor reads
    past the end of the buffer and there is no result. *)
Definition tokenToString (to_piece : Z -> Z -> Z * list byte) (token : Z)
  : option (Outcome (list byte)) :=
  let buf := repeat x00 32 in
  let n := fst (to_piece token 32) in
  let buf := write_into buf (snd (to_piece token 32)) in
  let buf :=
    if n <? 0 then
      let buf := resize buf (Z.to_nat (- n)) in
      write_into buf (snd (to_piece token (Z.of_nat (List.length buf))))
    else buf in
  let count := wrap_uint64 n in
  if n <? 0 then Some (Throws length_error)
  else if count <=? Z.of_nat (List.length buf) then
    Some (Returns (firstn (Z.to_nat count) buf))
  else None.

(** ** The outside world *)

(** Calls that leave the class: to the inference engine, to the vision
    engine, to the caller's callbacks and to the cancellation token. *)
Inductive Event : Type :=
| Call_backend_init
| Call_backend_free
| Call_batch_init (n : Z)
| Call_batch_free
| Call_model_load (path : string)
| Call_model_free (h : Handle)
| Call_init_from_model (h : Handle)
| Call_free (h : Handle)
| Call_sampler_chain_init
| Call_sampler_free
| Call_mtmd_init (path : string)
| Call_mtmd_free (h : Handle)
| Call_memory_seq_rm
| Call_chat_apply_template
| Call_bitmap_init (bytes : list byte)
| Call_mtmd_tokenize
| Call_eval_chunks
| Call_tokenize
| Call_decode (ntokens : Z) (first_pos : Z)
| Call_sampler_sample
| Call_sampler_accept (id : Z)
| Call_isCancelled (answer : bool)
| Progress (stage : string)
| Token (piece : string).

(** What the engines, the file system and the C++ library answer.  Calls
    that the class makes once per generated token are indexed by the
    iteration of the generation loop.

    - [file_exists path]: a file of that name exists.
    - [status_fails path]: the status of the path cannot be determined (a
      name longer than the file system allows, a directory on the way that
      may not be searched, too many symbolic links, ...).
    - [llama_chat_apply_template messages size]: the value returned for a
      buffer of [size] bytes and what the buffer then holds.
    - [token_piece id]: the text of the token [id].
    - [what e]: the text that the C++ library gives to the exception [e]. *)
Record Engine : Type := {
  file_exists : string -> bool;
  status_fails : string -> bool;
  llama_model_load_from_file : string -> option Handle;
  llama_init_from_model : Handle -> option Handle;
  mtmd_init_from_file : string -> option Handle;
  llama_sampler_chain_init : bool;
  LLAMA_DEFAULT_SEED : Z;
  LLAMA_TOKEN_NULL : Z;
  llama_chat_apply_template : list (string * string) -> Z -> Z * string;
  mtmd_default_marker : string;
  mtmd_helper_bitmap_init_from_buf : list byte -> bool;
  mtmd_tokenize : string -> list ImageData -> Z;
  mtmd_helper_eval_chunks : Z -> Z -> Z * Z;
  llama_tokenize : string -> Z -> Z;
  llama_decode_prompt : Z -> Z;
  llama_sampler_sample : nat -> Z;
  llama_vocab_is_eog : Z -> bool;
  token_piece : Z -> string;
  llama_decode : nat -> Z;
  what : Exception -> string
}.

(** [std::filesystem::exists(path)], the overload that reports a failure
    of the status query by throwing [std::filesystem::filesystem_error]. *)
Definition fs_exists (eng : Engine) (path : string) : Outcome bool :=
  if status_fails eng path then Throws (filesystem_error path)
  else Returns (file_exists eng path).

(** [llama_token_to_piece(vocab, token, buf, size, 0, true)]: the text of
    the token is copied into the buffer when it fits, and its length is
    returned; otherwise nothing is written and minus the length is
    returned. *)
Definition llama_token_to_piece (eng : Engine) (token size : Z) : Z * list byte :=
  let piece := list_byte_of_string (token_piece eng token) in
  if Z.of_nat (List.length piece) <=? size then (Z.of_nat (List.length piece), piece)
  else (- Z.of_nat (List.length piece), []).

(** [CancellationToken]: the value that the n-th call of [isCancelled()]
    reads from the atomic flag, which other threads may set or reset at any
    time.  A null pointer is [None]. *)
Definition CancellationToken := nat -> bool.

(** A [std::function] callback is either empty ([false]) or installed
    ([true]); an installed callback is an observer: the call is recorded in
    the trace, it does not call back into the object and does not throw. *)
Definition ProgressCallback := bool.
Definition TokenCallback := bool.

Record World : Type := mkWorld {
  self : KLlama;
  trace : list Event;
  polls : nat
}.

(** ** A state monad over [World] *)

Definition M (A : Type) : Type := World -> A * World.

Definition ret {A} (a : A) : M A := fun w => (a, w).

Definition bind {A B} (m : M A) (k : A -> M B) : M B :=
  fun w => let (a, w') := m w in k a w'.

Notation "x <- m ;; k" := (bind m (fun x => k))
  (at level 61, m at next level, right associativity).
Notation "m ;; k" := (bind m (fun _ => k))
  (at level 61, right associativity).

Definition get {A} (f : KLlama -> A) : M A := fun w => (f (self w), w).

Definition modify (f : KLlama -> KLlama) : M unit :=
  fun w => (tt, mkWorld (f (self w)) (trace w) (polls w)).

Definition emit (e : Event) : M unit :=
  fun w => (tt, mkWorld (self w) (trace w ++ [e]) (polls w)).

Definition when (b : bool) (m : M unit) : M unit :=
  if b then m else ret tt.

(** [cancellationToken && cancellationToken->isCancelled()]. *)
Definition poll (cancellationToken : option CancellationToken) : M bool :=
  match cancellationToken with
  | None => ret false
  | Some tok => fun w =>
      (tok (polls w),
       mkWorld (self w) (trace w ++ [Call_isCancelled (tok (polls w))]) (S (polls w)))
  end.

(** [if (progressCallback) progressCallback(fraction, stage)]; the fraction
    is not recorded. *)
Definition report (progressCallback : ProgressCallback) (stage : string) : M unit :=
  when progressCallback (emit (Progress stage)).

Definition is_null {A} (p : option A) : bool :=
  match p with
  | Some _ => false
  | None => true
  end.

(** ** Member functions of [KLlama] *)

Section Members.

Variable eng : Engine.

(** [KLlama::checkInitialized] (KLlama.cpp:58-63). *)
Definition checkInitialized : M (KLlamaResult unit) :=
  init <- get initialized ;;
  if negb init then
    ret (Failure KLlamaError.NotInitialized "KLlama must be initialized before use")
  else ret (Success tt).

(** [KLlama::setGenerationState] (KLlama.cpp:857-860). *)
Definition setGenerationState (st : GenerationState.t) : M unit :=
  modify (set_generationState st) ;;
  modify (fun k =>
    set_currentStats
      {| tokensGenerated := tokensGenerated (currentStats k);
         state := st;
         stats_sampling := stats_sampling (currentStats k) |} k).

(** [KLlama::freeMemory] (KLlama.cpp:126-152). *)
Definition freeMemory : M (KLlamaResult unit) :=
  b <- get batch ;;
  when (negb (is_null (token b)))
       (emit Call_batch_free ;; modify (set_batch llama_batch_zero)) ;;
  s <- get sampler ;;
  when (negb (is_null s))
       (emit Call_sampler_free ;; modify (set_sampler None)) ;;
  c <- get llamaContext ;;
  match c with
  | Some h => emit (Call_free h) ;; modify (set_llamaContext None)
  | None => ret tt
  end ;;
  m <- get model ;;
  match m with
  | Some h => emit (Call_model_free h) ;; modify (set_model None)
  | None => ret tt
  end ;;
  init <- get initialized ;;
  when init (emit Call_backend_free ;; modify (set_initialized false)) ;;
  v <- get visionContext ;;
  match v with
  | Some h => emit (Call_mtmd_free h) ;; modify (set_visionContext None)
  | None => ret tt
  end ;;
  setGenerationState GenerationState.Idle ;;
  ret (Success tt).

(** [KLlama::~KLlama] (KLlama.cpp:120-124). *)
Definition destroy : M unit :=
  init <- get initialized ;;
  when init (freeMemory ;; ret tt).

(** [KLlama::initializeModel] (KLlama.cpp:210-248). *)
Definition initializeModel (progressCallback : ProgressCallback)
    (cancellationToken : option CancellationToken) : M (KLlamaResult unit) :=
  report progressCallback "Loading model" ;;
  p <- get params ;;
  emit (Call_model_load (SessionParams.modelPath p)) ;;
  modify (set_model (llama_model_load_from_file eng (SessionParams.modelPath p))) ;;
  m <- get model ;;
  match m with
  | None =>
      ret (Failure KLlamaError.ModelLoadFailed
                   ("Failed to load model from: " ++ SessionParams.modelPath p))
  | Some mh =>
      cancelled <- poll cancellationToken ;;
      if cancelled then ret (Failure KLlamaError.OperationCancelled "")
      else
        report progressCallback "Initializing context" ;;
        emit (Call_init_from_model mh) ;;
        modify (set_llamaContext (llama_init_from_model eng mh)) ;;
        c <- get llamaContext ;;
        if is_null c then
          ret (Failure KLlamaError.ContextInitFailed "Failed to initialize llama context")
        else
          report progressCallback "Model loaded successfully" ;;
          ret (Success tt)
  end.

(** [KLlama::initializeVision] (KLlama.cpp:250-278).  [reset] on the owning
    pointer releases the handle it held. *)
Definition initializeVision (progressCallback : ProgressCallback)
    (cancellationToken : option CancellationToken) : M (KLlamaResult unit) :=
  report progressCallback "Loading vision model" ;;
  p <- get params ;;
  emit (Call_mtmd_init (SessionParams.mmprojPath p)) ;;
  old <- get visionContext ;;
  match old with
  | Some h => emit (Call_mtmd_free h)
  | None => ret tt
  end ;;
  modify (set_visionContext (mtmd_init_from_file eng (SessionParams.mmprojPath p))) ;;
  v <- get visionContext ;;
  if is_null v then
    ret (Failure KLlamaError.MmprojLoadFailed
                 ("Failed to load vision model from: " ++ SessionParams.mmprojPath p))
  else
    cancelled <- poll cancellationToken ;;
    if cancelled then ret (Failure KLlamaError.OperationCancelled "")
    else
      report progressCallback "Vision model loaded successfully" ;;
      ret (Success tt).

(** [KLlama::initialize] (KLlama.cpp:155-208).  An exception thrown by
    the validation of the parameters leaves the function: nothing catches
    it, and nothing has been touched yet. *)
Definition initialize (sessionParams : SessionParams.t)
    (progressCallback : ProgressCallback)
    (cancellationToken : option CancellationToken) : M (Outcome (KLlamaResult unit)) :=
  init <- get initialized ;;
  if init then ret (Returns (Failure KLlamaError.AlreadyInitialized ""))
  else
    match SessionParams.validate (fs_exists eng) sessionParams with
    | Throws e => ret (Throws e)
    | Returns validation =>
        if isError validation then ret (Returns validation)
        else
          modify (set_params sessionParams) ;;
          setGenerationState GenerationState.Initializing ;;
          report progressCallback "Initializing backend" ;;
          cancelled <- poll cancellationToken ;;
          if cancelled then
            setGenerationState GenerationState.Cancelled ;;
            ret (Returns (Failure KLlamaError.OperationCancelled ""))
          else
            emit Call_backend_init ;;
            emit (Call_batch_init 1) ;;
            modify (set_batch {| n_tokens := 0; token := Some 0; pos := 0 |}) ;;
            modelResult <- initializeModel progressCallback cancellationToken ;;
            if isError modelResult then
              freeMemory ;; ret (Returns modelResult)
            else
              p <- get params ;;
              visionResult <-
                (if negb (empty (SessionParams.mmprojPath p)) then
                   initializeVision progressCallback cancellationToken
                 else ret (Success tt)) ;;
              if isError visionResult then
                freeMemory ;; ret (Returns visionResult)
              else
                modify (set_initialized true) ;;
                setGenerationState GenerationState.Idle ;;
                report progressCallback "Initialization complete" ;;
                ret (Returns (Success tt))
    end.

(** [llama_sampler_chain_add(sampler, stage)]. *)
Definition chain_add (stage : SamplerStage) : M unit :=
  modify (fun k =>
    match sampler k with
    | Some chain => set_sampler (Some (chain ++ [stage])%list) k
    | None => k
    end).

(** [KLlama::configureSampler] (KLlama.cpp:429-490). *)
Definition configureSampler (samplingParams : SamplingParams.t) : M (KLlamaResult unit) :=
  let validation := SamplingParams.validate samplingParams in
  if isError validation then ret validation
  else
    old <- get sampler ;;
    when (negb (is_null old))
         (emit Call_sampler_free ;; modify (set_sampler None)) ;;
    emit Call_sampler_chain_init ;;
    modify (set_sampler (if llama_sampler_chain_init eng then Some [] else None)) ;;
    s <- get sampler ;;
    if is_null s then
      ret (Failure KLlamaError.SamplingFailed "Failed to create sampler chain")
    else
      when (fne (SamplingParams.repeatPenalty samplingParams) f32_1_0)
           (chain_add (Penalties (SamplingParams.repeatLastN samplingParams)
                                 (SamplingParams.repeatPenalty samplingParams)
                                 (SamplingParams.frequencyPenalty samplingParams)
                                 (SamplingParams.presencePenalty samplingParams))) ;;
      if fle (SamplingParams.temperature samplingParams) f32_0_01 then
        chain_add Greedy ;;
        ret (Success tt)
      else
        when (0 <? SamplingParams.topK samplingParams)
             (chain_add (TopK (SamplingParams.topK samplingParams))) ;;
        when (flt (SamplingParams.typicalP samplingParams) f32_1_0
              && fgt (SamplingParams.typicalP samplingParams) f32_0_0)
             (chain_add (Typical (SamplingParams.typicalP samplingParams) 1)) ;;
        when (flt (SamplingParams.topP samplingParams) f32_1_0
              && fgt (SamplingParams.topP samplingParams) f32_0_0)
             (chain_add (TopP (SamplingParams.topP samplingParams) 1)) ;;
        when (fgt (SamplingParams.minP samplingParams) f32_0_0)
             (chain_add (MinP (SamplingParams.minP samplingParams) 1)) ;;
        chain_add (Temp (SamplingParams.temperature samplingParams)) ;;
        chain_add (Dist (LLAMA_DEFAULT_SEED eng)) ;;
        ret (Success tt).

(** [KLlama::reset] (KLlama.cpp:848-855). *)
Definition reset : M (KLlamaResult unit) :=
  initCheck <- checkInitialized ;;
  if isError initCheck then ret initCheck
  else emit Call_memory_seq_rm ;; ret (Success tt).

(** *** Generation *)

Definition role_str (r : MessageRole) : string :=
  match r with
  | User => "user"
  | Assistant => "assistant"
  | System => "system"
  end.

(** The image validation loop of [generateResponseInternal]
    (KLlama.cpp:534-538): the first failing image, if any, ends the call. *)
Fixpoint validate_images (allImages : list ImageData)
  : option (KLlamaError.t * string) :=
  match allImages with
  | [] => None
  | image :: rest =>
      let imageValidation := validateImageData image in
      if isError imageValidation then
        Some (error_of imageValidation, errorMessage_of imageValidation)
      else validate_images rest
  end.

(** The bitmap loop (KLlama.cpp:629-641); [false] when a bitmap could not
    be created. *)
Fixpoint create_bitmaps (allImages : list ImageData) : M bool :=
  match allImages with
  | [] => ret true
  | imageData :: rest =>
      emit (Call_bitmap_init (data imageData)) ;;
      if negb (mtmd_helper_bitmap_init_from_buf eng (data imageData)) then ret false
      else create_bitmaps rest
  end.

Fixpoint image_markers (n : nat) : string :=
  match n with
  | O => ""
  | S n' => image_markers n' ++ mtmd_default_marker eng
  end.

(** The multimodal branch (KLlama.cpp:613-694).  [Success past] continues
    the call with the new position; [Failure] is the result that the call
    returns from inside the branch. *)
Definition evaluate_multimodal_prompt (allImages : list ImageData) (fullPrompt : string)
    (past : Z) (progressCallback : ProgressCallback)
    (cancellationToken : option CancellationToken) : M (KLlamaResult Z) :=
  setGenerationState GenerationState.ProcessingImages ;;
  report progressCallback "Processing images" ;;
  let fullPrompt := image_markers (List.length allImages) ++ newline ++ fullPrompt in
  ok <- create_bitmaps allImages ;;
  if negb ok then
    setGenerationState GenerationState.Error ;;
    ret (Failure KLlamaError.ImageProcessingFailed "Failed to create bitmap from image data")
  else
    setGenerationState GenerationState.TokenizingPrompt ;;
    report progressCallback "Tokenizing multimodal prompt" ;;
    emit Call_mtmd_tokenize ;;
    if negb (mtmd_tokenize eng fullPrompt allImages =? 0) then
      setGenerationState GenerationState.Error ;;
      ret (Failure KLlamaError.TokenizationFailed "Failed to tokenize multimodal input")
    else
      cancelled <- poll cancellationToken ;;
      if cancelled then
        setGenerationState GenerationState.Cancelled ;;
        ret (Failure KLlamaError.OperationCancelled "")
      else
        report progressCallback "Evaluating multimodal prompt" ;;
        p <- get params ;;
        emit Call_eval_chunks ;;
        let r := mtmd_helper_eval_chunks eng past (SessionParams.batch p) in
        if negb (fst r =? 0) then
          setGenerationState GenerationState.Error ;;
          ret (Failure KLlamaError.EvaluationFailed "Failed to evaluate multimodal prompt")
        else ret (Success (snd r)).

(** The text-only branch (KLlama.cpp:696-748).  When the prompt has no
    token, [textBatch.logits[textBatch.n_tokens - 1]] (KLlama.cpp:738) is
    [logits[-1]], a write before the start of the array: the behaviour is
    not defined and the result is [None]. *)
Definition evaluate_text_prompt (fullPrompt : string) (past : Z)
    (progressCallback : ProgressCallback) : M (option (KLlamaResult Z)) :=
  setGenerationState GenerationState.TokenizingPrompt ;;
  report progressCallback "Tokenizing text prompt" ;;
  emit Call_tokenize ;;
  let tokensNumber :=
    llama_tokenize eng fullPrompt (Z.of_nat (String.length fullPrompt) + 2) in
  if tokensNumber <? 0 then
    setGenerationState GenerationState.Error ;;
    ret (Some (Failure KLlamaError.TokenizationFailed
                       "Failed to tokenize text prompt: prompt too long"))
  else
    report progressCallback "Evaluating text prompt" ;;
    emit (Call_batch_init tokensNumber) ;;
    if tokensNumber =? 0 then ret None
    else
      emit (Call_decode tokensNumber past) ;;
      if negb (llama_decode_prompt eng tokensNumber =? 0) then
        emit Call_batch_free ;;
        setGenerationState GenerationState.Error ;;
        ret (Some (Failure KLlamaError.EvaluationFailed "Failed to evaluate text prompt"))
      else
        emit Call_batch_free ;;
        ret (Some (Success (wrap_int32 (past + tokensNumber)))).

(** The local variables of the per-token loop; [iterations] is a ghost
    counter of the executions of the loop body. *)
Record LoopVars : Type := {
  response_text : string;
  tokenCount : Z;
  past : Z;
  iterations : nat
}.

(** How the per-token loop is left: by its condition or by [break], by a
    [return], or by an exception on its way to the handler of the function. *)
Inductive LoopExit : Type :=
| Exit_loop
| Return_from_loop (r : KLlamaResult string)
| Throw_from_loop (e : Exception).

(** [int32_t maxTokens = samplingParams.nPredict > 0 ? samplingParams.nPredict : 4096]
    (KLlama.cpp:765). *)
Definition maxTokens_of (samplingParams : SamplingParams.t) : Z :=
  if 0 <? SamplingParams.nPredict samplingParams
  then SamplingParams.nPredict samplingParams
  else 4096.

(** The per-token loop (KLlama.cpp:767-821).  [fuel] bounds the number of
    executions of the body that the model follows; [None] means that the
    fuel ran out before the loop ended (or that [tokenToString] has no
    result, which does not happen with [llama_token_to_piece]).  When
    [tokenToString] throws, the token has been accepted by the sampler but
    neither appended to the text nor handed to the callback. *)
Fixpoint generation_loop (fuel : nat) (samplingParams : SamplingParams.t)
    (tokenCallback : TokenCallback) (progressCallback : ProgressCallback)
    (cancellationToken : option CancellationToken) (maxTokens : Z)
    (v : LoopVars) : M (option (LoopExit * LoopVars)) :=
  st <- get generationState ;;
  if negb (GenerationState.eqb st GenerationState.Generating
           && (tokenCount v <? maxTokens)) then
    ret (Some (Exit_loop, v))
  else
    match fuel with
    | O => ret None
    | S fuel' =>
        let i := iterations v in
        let v1 := {| response_text := response_text v; tokenCount := tokenCount v;
                     past := past v; iterations := S i |} in
        cancelled <- poll cancellationToken ;;
        if cancelled then
          setGenerationState GenerationState.Cancelled ;;
          ret (Some (Return_from_loop (Failure KLlamaError.OperationCancelled ""), v1))
        else
          emit Call_sampler_sample ;;
          let id := llama_sampler_sample eng i in
          if id =? LLAMA_TOKEN_NULL eng then
            setGenerationState GenerationState.Error ;;
            ret (Some (Return_from_loop
                         (Failure KLlamaError.SamplingFailed "Sampler returned null token"),
                       v1))
          else
            emit (Call_sampler_accept id) ;;
            if llama_vocab_is_eog eng id then ret (Some (Exit_loop, v1))
            else
              match tokenToString (llama_token_to_piece eng) id with
              | None => ret None
              | Some (Throws e) => ret (Some (Throw_from_loop e, v1))
              | Some (Returns bytes) =>
                  let token_str := string_of_list_byte bytes in
                  when tokenCallback (emit (Token token_str)) ;;
                  (* currentStats.tokensGenerated = tokenCount + 1 *)
                  modify (fun k =>
                    set_currentStats
                      {| tokensGenerated := wrap_int32 (tokenCount v + 1);
                         state := state (currentStats k);
                         stats_sampling := stats_sampling (currentStats k) |} k) ;;
                  modify (fun k =>
                    set_batch
                      {| n_tokens := 1;
                         token := match token (batch k) with
                                  | Some _ => Some id
                                  | None => None
                                  end;
                         pos := past v |} k) ;;
                  let v2 := {| response_text := response_text v ++ token_str;
                               tokenCount := wrap_int32 (tokenCount v + 1);
                               past := wrap_int32 (past v + 1);
                               iterations := S i |} in
                  emit (Call_decode 1 (past v)) ;;
                  if negb (llama_decode eng i =? 0) then
                    setGenerationState GenerationState.Error ;;
                    ret (Some (Return_from_loop
                                 (Failure KLlamaError.EvaluationFailed
                                          "Failed to decode token"),
                               v2))
                  else
                    when (progressCallback && (0 <? SamplingParams.nPredict samplingParams))
                         (emit (Progress "Generating tokens")) ;;
                    generation_loop fuel' samplingParams tokenCallback progressCallback
                                    cancellationToken maxTokens v2
              end
    end.

(** The first part of [generateResponseInternal] (KLlama.cpp:519-755): the
    precondition checks, the sampler, the chat template and the evaluation
    of the prompt.  [Some (Failure _ _)] is the result that the call
    returns from inside this part; [Some (Success past)] means that the
    call has reached "Start generation" with the position cursor at
    [past]; [None] means that the behaviour of the call is not defined.

    The prompt buffer has [params.contextSize] bytes (positive on every
    initialized object: the parameters have passed
    [SessionParams::validate]), and [llama_chat_apply_template] returns
    the length of the whole rendered prompt, of which it writes no more
    than the buffer holds.  [std::string fullPrompt(promptBuffer.data(),
    prompt_len)] (KLlama.cpp:603) then reads [prompt_len] bytes: past the
    end of the buffer when the prompt is longer than the context size. *)
Definition prepare_generation
    (conversation : list MultimodalMessage) (samplingParams : SamplingParams.t)
    (progressCallback : ProgressCallback)
    (cancellationToken : option CancellationToken) : M (option (KLlamaResult Z)) :=
  initCheck <- checkInitialized ;;
  if isError initCheck then
    ret (Some (Failure (error_of initCheck) (errorMessage_of initCheck)))
  else
    st <- get generationState ;;
    if negb (GenerationState.eqb st GenerationState.Idle) then
      ret (Some (Failure KLlamaError.InvalidParameters "Generation already in progress"))
    else if match conversation with [] => true | _ => false end then
      ret (Some (Failure KLlamaError.InvalidParameters "Conversation cannot be empty"))
    else
      let allImages := extractAllImages conversation in
      match validate_images allImages with
      | Some (e, msg) => ret (Some (Failure e msg))
      | None =>
          vc <- get visionContext ;;
          if negb (match allImages with [] => true | _ => false end) && is_null vc then
            ret (Some (Failure KLlamaError.InvalidParameters
                               "Images provided but multimodal projector not loaded"))
          else
            samplerResult <- configureSampler samplingParams ;;
            if isError samplerResult then
              ret (Some (Failure (error_of samplerResult) (errorMessage_of samplerResult)))
            else
              setGenerationState GenerationState.Initializing ;;
              modify (set_currentStats GenerationStats_zero) ;;
              modify (fun k =>
                set_currentStats
                  {| tokensGenerated := tokensGenerated (currentStats k);
                     state := state (currentStats k);
                     stats_sampling := samplingParams |} k) ;;
              resetResult <- reset ;;
              if isError resetResult then
                setGenerationState GenerationState.Error ;;
                ret (Some (Failure (error_of resetResult) (errorMessage_of resetResult)))
              else
                let chatMessages :=
                  map (fun msg => (role_str (role msg), content msg)) conversation in
                p <- get params ;;
                emit Call_chat_apply_template ;;
                let rendered :=
                  llama_chat_apply_template eng chatMessages (SessionParams.contextSize p) in
                let prompt_len := fst rendered in
                if prompt_len <? 0 then
                  ret (Some (Failure KLlamaError.TokenizationFailed
                    "Failed to apply chat template. Prompt may be too long or template invalid."))
                else if SessionParams.contextSize p <? prompt_len then ret None
                else
                  let fullPrompt := substring 0 (Z.to_nat prompt_len) (snd rendered) in
                  cancelled <- poll cancellationToken ;;
                  if cancelled then
                    setGenerationState GenerationState.Cancelled ;;
                    ret (Some (Failure KLlamaError.OperationCancelled ""))
                  else
                    evaluated <-
                      (if negb (match allImages with [] => true | _ => false end) then
                         r <- evaluate_multimodal_prompt allImages fullPrompt 0
                                progressCallback cancellationToken ;;
                         ret (Some r)
                       else evaluate_text_prompt fullPrompt 0 progressCallback) ;;
                    match evaluated with
                    | None => ret None
                    | Some (Failure e msg) => ret (Some (Failure e msg))
                    | Some (Success past0) =>
                        cancelled <- poll cancellationToken ;;
                        if cancelled then
                          setGenerationState GenerationState.Cancelled ;;
                          ret (Some (Failure KLlamaError.OperationCancelled ""))
                        else ret (Some (Success past0))
                    end
      end.

(** The state in which the per-token loop starts (KLlama.cpp:757-765). *)
Definition loop_entry (past0 : Z) : LoopVars :=
  {| response_text := ""; tokenCount := 0; past := past0; iterations := O |}.

(** [KLlama::generateResponseInternal] (KLlama.cpp:512-833).  An exception
    thrown inside the per-token loop is caught by the handler at the end of
    the function (KLlama.cpp:829-832), which sets the state to [Error] and
    returns [UnknownError] with the text of the exception.  The result is
    [None] when the behaviour of the call is not defined, and when [fuel]
    is too small for the per-token loop. *)
Definition generateResponseInternal (fuel : nat)
    (conversation : list MultimodalMessage) (samplingParams : SamplingParams.t)
    (tokenCallback : TokenCallback) (progressCallback : ProgressCallback)
    (cancellationToken : option CancellationToken) : M (option (KLlamaResult string)) :=
  prepared <- prepare_generation conversation samplingParams
                                 progressCallback cancellationToken ;;
  match prepared with
  | None => ret None
  | Some (Failure e msg) => ret (Some (Failure e msg))
  | Some (Success past0) =>
      setGenerationState GenerationState.Generating ;;
      report progressCallback "Generating response" ;;
      out <- generation_loop fuel samplingParams tokenCallback
               progressCallback cancellationToken
               (maxTokens_of samplingParams) (loop_entry past0) ;;
      match out with
      | None => ret None
      | Some (Return_from_loop r, _) => ret (Some r)
      | Some (Throw_from_loop e, _) =>
          setGenerationState GenerationState.Error ;;
          ret (Some (Failure KLlamaError.UnknownError (what eng e)))
      | Some (Exit_loop, v) =>
          setGenerationState GenerationState.Finished ;;
          report progressCallback "Generation complete" ;;
          ret (Some (Success (response_text v)))
      end
  end.

(** [KLlama::generateResponse] with the session's sampling parameters
    (KLlama.cpp:493-500). *)
Definition generateResponse (fuel : nat) (conversation : list MultimodalMessage)
    (tokenCallback : TokenCallback) (progressCallback : ProgressCallback)
    (cancellationToken : option CancellationToken) : M (option (KLlamaResult string)) :=
  p <- get params ;;
  generateResponseInternal fuel conversation (SessionParams.sampling p)
                           tokenCallback progressCallback cancellationToken.

(** [KLlama::generateResponse] with a sampling override (KLlama.cpp:502-510). *)
Definition generateResponse_with (fuel : nat) (conversation : list MultimodalMessage)
    (samplingOverride : SamplingParams.t)
    (tokenCallback : TokenCallback) (progressCallback : ProgressCallback)
    (cancellationToken : option CancellationToken) : M (option (KLlamaResult string)) :=
  generateResponseInternal fuel conversation samplingOverride
                           tokenCallback progressCallback cancellationToken.

End Members.

(** * Specification-side definitions *)

(** ** Sampling parameter ranges, in the words of the specification *)

Definition temperature_ok (p : SamplingParams.t) : bool :=
  fle f32_0_0 (SamplingParams.temperature p) && fle (SamplingParams.temperature p) f32_2_0.
Definition topP_ok (p : SamplingParams.t) : bool :=
  fle f32_0_0 (SamplingParams.topP p) && fle (SamplingParams.topP p) f32_1_0.
Definition topK_ok (p : SamplingParams.t) : bool := 0 <=? SamplingParams.topK p.
Definition minP_ok (p : SamplingParams.t) : bool :=
  fle f32_0_0 (SamplingParams.minP p) && fle (SamplingParams.minP p) f32_1_0.
Definition repeatPenalty_ok (p : SamplingParams.t) : bool :=
  fle f32_0_0 (SamplingParams.repeatPenalty p).
Definition repeatLastN_ok (p : SamplingParams.t) : bool :=
  0 <=? SamplingParams.repeatLastN p.

(** Every field named by the specification lies in its range; [typicalP]
    has no range. *)
Definition in_range (p : SamplingParams.t) : bool :=
  temperature_ok p && topP_ok p && topK_ok p && minP_ok p
  && repeatPenalty_ok p && repeatLastN_ok p.

(** The message for the first field, in declaration order, that is not in
    its range. *)
Definition first_violation (p : SamplingParams.t) : option string :=
  if negb (temperature_ok p) then Some "Temperature must be between 0.0 and 2.0"
  else if negb (topP_ok p) then Some "top_p must be between 0.0 and 1.0"
  else if negb (topK_ok p) then Some "top_k must be non-negative"
  else if negb (minP_ok p) then Some "min_p must be between 0.0 and 1.0"
  else if negb (repeatPenalty_ok p) then Some "repeat_penalty must be non-negative"
  else if negb (repeatLastN_ok p) then Some "repeat_last_n must be non-negative"
  else None.

(** None of the float fields that [validate] examines is a NaN. *)
Definition no_nan (p : SamplingParams.t) : bool :=
  negb (is_nan (SamplingParams.temperature p)) && negb (is_nan (SamplingParams.topP p))
  && negb (is_nan (SamplingParams.minP p)) && negb (is_nan (SamplingParams.repeatPenalty p)).

(** ** The sampler chain, in the words of the specification *)

Definition spec_pipeline (seed : Z) (p : SamplingParams.t) : list SamplerStage :=
  ((if fne (SamplingParams.repeatPenalty p) f32_1_0
    then [Penalties (SamplingParams.repeatLastN p) (SamplingParams.repeatPenalty p)
                    (SamplingParams.frequencyPenalty p) (SamplingParams.presencePenalty p)]
    else [])
   ++
   (if fle (SamplingParams.temperature p) f32_0_01 then [Greedy]
    else
      (if 0 <? SamplingParams.topK p then [TopK (SamplingParams.topK p)] else [])
      ++ (if fgt (SamplingParams.typicalP p) f32_0_0 && flt (SamplingParams.typicalP p) f32_1_0
          then [Typical (SamplingParams.typicalP p) 1] else [])
      ++ (if fgt (SamplingParams.topP p) f32_0_0 && flt (SamplingParams.topP p) f32_1_0
          then [TopP (SamplingParams.topP p) 1] else [])
      ++ (if fgt (SamplingParams.minP p) f32_0_0
          then [MinP (SamplingParams.minP p) 1] else [])
      ++ [Temp (SamplingParams.temperature p); Dist seed]))%list.

Definition is_typical (st : SamplerStage) : bool :=
  match st with
  | Typical _ _ => true
  | _ => false
  end.

(** ** Image signatures, in the words of the specification *)

Definition PNG_signature : list byte := [x89; x50; x4e; x47].
Definition JPEG_signature : list byte := [xff; xd8].
Definition BMP_signature : list byte := [x42; x4d].

Definition begins_with (signature d : list byte) : Prop :=
  exists rest, d = (signature ++ rest)%list.

(** The payloads that the specification accepts. *)
Definition accepted (d : list byte) : Prop :=
  (8 <= List.length d)%nat
  /\ (begins_with PNG_signature d \/ begins_with JPEG_signature d
      \/ begins_with BMP_signature d).

(** ** Session states, in the words of the specification *)

(** No engine handle is held: the batch buffer, the sampler chain, the
    context, the model and the vision handle are all null. *)
Definition holds_no_resource (k : KLlama) : Prop :=
  token (batch k) = None /\ sampler k = None /\ llamaContext k = None
  /\ model k = None /\ visionContext k = None.

(** The [Uninitialized]/[Idle] state of the session state machine. *)
Definition uninitialized_idle (k : KLlama) : Prop :=
  initialized k = false /\ generationState k = GenerationState.Idle
  /\ state (currentStats k) = GenerationState.Idle /\ holds_no_resource k.

(** The [Ready] state: initialized and no generation under way. *)
Definition ready (k : KLlama) : Prop :=
  initialized k = true /\ generationState k = GenerationState.Idle.

(** The text fragments handed to the token callback, in order. *)
Fixpoint tokens_delivered (tr : list Event) : list string :=
  match tr with
  | [] => []
  | Token piece :: rest => piece :: tokens_delivered rest
  | _ :: rest => tokens_delivered rest
  end.

(** The engine calls that acquire a resource. *)
Definition acquires (e : Event) : bool :=
  match e with
  | Call_backend_init | Call_batch_init _ | Call_model_load _
  | Call_init_from_model _ | Call_mtmd_init _ | Call_sampler_chain_init => true
  | _ => false
  end.

(** ** A small engine, used to run the code on concrete inputs *)

(** Two files exist; the status of a path can be determined unless it is
    longer than 255 characters; the model loads; the sampler yields two
    ordinary tokens and then the end-of-generation token 2. *)
Definition demo_engine : Engine :=
  {| file_exists := fun path => String.eqb path "model.gguf" || String.eqb path "mmproj.gguf";
     status_fails := fun path => (255 <? String.length path)%nat;
     llama_model_load_from_file :=
       fun path => if String.eqb path "model.gguf" then Some 1%nat else None;
     llama_init_from_model := fun _ => Some 2%nat;
     mtmd_init_from_file := fun _ => Some 3%nat;
     llama_sampler_chain_init := true;
     LLAMA_DEFAULT_SEED := 4294967295;
     LLAMA_TOKEN_NULL := -1;
     llama_chat_apply_template := fun _ _ => (6, "prompt");
     mtmd_default_marker := "<__media__>";
     mtmd_helper_bitmap_init_from_buf := fun _ => true;
     mtmd_tokenize := fun _ _ => 0;
     mtmd_helper_eval_chunks := fun past _ => (0, past + 10);
     llama_tokenize := fun _ _ => 3;
     llama_decode_prompt := fun _ => 0;
     llama_sampler_sample := fun i => if (i <? 2)%nat then 100 + Z.of_nat i else 2;
     llama_vocab_is_eog := fun id => id =? 2;
     token_piece := fun id => if id =? 100 then "Hel" else "lo";
     llama_decode := fun _ => 0;
     what := fun e =>
       match e with
       | filesystem_error _ => "filesystem error: cannot get file status"
       | length_error => "basic_string::_M_create"
       end |}.

(** The same engine with a model that never emits an end-of-generation
    token. *)
Definition endless_engine : Engine :=
  {| file_exists := file_exists demo_engine;
     status_fails := status_fails demo_engine;
     llama_model_load_from_file := llama_model_load_from_file demo_engine;
     llama_init_from_model := llama_init_from_model demo_engine;
     mtmd_init_from_file := mtmd_init_from_file demo_engine;
     llama_sampler_chain_init := true;
     LLAMA_DEFAULT_SEED := 4294967295;
     LLAMA_TOKEN_NULL := -1;
     llama_chat_apply_template := llama_chat_apply_template demo_engine;
     mtmd_default_marker := mtmd_default_marker demo_engine;
     mtmd_helper_bitmap_init_from_buf := fun _ => true;
     mtmd_tokenize := fun _ _ => 0;
     mtmd_helper_eval_chunks := mtmd_helper_eval_chunks demo_engine;
     llama_tokenize := fun _ _ => 3;
     llama_decode_prompt := fun _ => 0;
     llama_sampler_sample := fun _ => 7;
     llama_vocab_is_eog := fun _ => false;
     token_piece := fun _ => "a";
     llama_decode := fun _ => 0;
     what := what demo_engine |}.

Definition demo_params : SessionParams.t :=
  SessionParams.mk "model.gguf" "" 16000 4096 0 false 6 1 SamplingParams.default.

Definition vision_params : SessionParams.t :=
  SessionParams.mk "model.gguf" "mmproj.gguf" 16000 4096 0 false 6 1 SamplingParams.default.

Definition missing_params : SessionParams.t :=
  SessionParams.mk "missing.gguf" "" 16000 4096 0 false 6 1 SamplingParams.default.

(** A model path of 300 characters.  No file has such a name, and the
    status of the path cannot be determined: the name is longer than the
    file system allows. *)
Definition long_name : string := string_of_list_byte (repeat x61 300).

Definition long_name_params : SessionParams.t :=
  SessionParams.mk long_name "" 16000 4096 0 false 6 1 SamplingParams.default.

(** What the specification promises for a model path that names no file:
    the call returns [ModelNotFound]. *)
Definition reports_missing_model (eng : Engine) (sp : SessionParams.t)
    (cb : ProgressCallback) (tok : option CancellationToken) (w : World) : Prop :=
  exists msg,
    fst (initialize eng sp cb tok w) = Returns (Failure KLlamaError.ModelNotFound msg).

Definition hello_message : MultimodalMessage :=
  {| role := User; content := "Hello"; images := [] |}.

Definition hello : list MultimodalMessage := [hello_message].

(** [-1.0f] and [5.0f], two values outside [0,1]. *)
Definition f32_minus_1_0 : float := S754_finite true 8388608 (-23).
Definition f32_5_0 : float := S754_finite false 10485760 (-21).

(** The default sampling parameters with the token budget left unlimited
    ([nPredict = -1]) or set to 5. *)
Definition unlimited : SamplingParams.t := SamplingParams.default.
Definition five_tokens : SamplingParams.t :=
  SamplingParams.set_nPredict 5 SamplingParams.default.

(** A freshly constructed object, nothing called yet. *)
Definition fresh : World := mkWorld KLlama_new [] O.

(** The flag is set from the start / set right after the first poll. *)
Definition already_cancelled : CancellationToken := fun _ => true.
Definition cancelled_after_first_poll : CancellationToken :=
  fun n => negb (Nat.eqb n 0).

(** The flag is set after the second poll. *)
Definition cancelled_after_second_poll : CancellationToken :=
  fun n => Nat.leb 2 n.

(** The session after a successful [initialize]. *)
Definition demo_ready : World :=
  snd (initialize demo_engine demo_params false None fresh).

(** The session after [initialize] and one completed generation. *)
Definition demo_finished : World :=
  snd (generateResponse demo_engine 8 hello true false None demo_ready).

(** The ready session with the generation state of a call that is under
    way: what a second caller finds while a generation runs. *)
Definition demo_generating : World :=
  mkWorld (set_generationState GenerationState.Generating (self demo_ready))
          (trace demo_ready) (polls demo_ready).

(** ** Cancellation of [initialize], in the words of the specification *)

(** The flag is first seen set by the poll that follows the model load. *)
Definition cancel_seen_after_model_load (eng : Engine) (sp : SessionParams.t)
    (tok : CancellationToken) (n : nat) : Prop :=
  tok n = false
  /\ (exists mh, llama_model_load_from_file eng (SessionParams.modelPath sp) = Some mh)
  /\ tok (S n) = true.

(** The flag is first seen set by the poll that follows the vision load. *)
Definition cancel_seen_after_vision_load (eng : Engine) (sp : SessionParams.t)
    (tok : CancellationToken) (n : nat) : Prop :=
  tok n = false /\ tok (S n) = false /\ tok (S (S n)) = true
  /\ empty (SessionParams.mmprojPath sp) = false
  /\ (exists mh ch vh,
        llama_model_load_from_file eng (SessionParams.modelPath sp) = Some mh
        /\ llama_init_from_model eng mh = Some ch
        /\ mtmd_init_from_file eng (SessionParams.mmprojPath sp) = Some vh).

(** What the specification promises for such a call: [OperationCancelled],
    the [Cancelled] state, and the batch and the model acquired so far
    still held. *)
Definition cancelled_with_resources_in_place (eng : Engine) (sp : SessionParams.t)
    (cb : ProgressCallback) (tok : CancellationToken) (w : World) : Prop :=
  fst (initialize eng sp cb (Some tok) w)
    = Returns (Failure KLlamaError.OperationCancelled "")
  /\ generationState (self (snd (initialize eng sp cb (Some tok) w)))
     = GenerationState.Cancelled
  /\ token (batch (self (snd (initialize eng sp cb (Some tok) w)))) <> None
  /\ model (self (snd (initialize eng sp cb (Some tok) w))) <> None.

(** ** The pre-cancelled generation scenario, in the words of the specification *)

(** What the specification promises for a call made with the flag already
    set: [OperationCancelled], the [Cancelled] state, and nothing handed
    to the token callback during the call. *)
Definition cancelled_before_any_token (eng : Engine) (fuel : nat)
    (conversation : list MultimodalMessage) (sp : SamplingParams.t)
    (tcb : TokenCallback) (pcb : ProgressCallback)
    (tok : CancellationToken) (w : World) : Prop :=
  fst (generateResponseInternal eng fuel conversation sp tcb pcb (Some tok) w)
    = Some (Failure KLlamaError.OperationCancelled "")
  /\ generationState
       (self (snd (generateResponseInternal eng fuel conversation sp tcb pcb (Some tok) w)))
     = GenerationState.Cancelled
  /\ tokens_delivered
       (trace (snd (generateResponseInternal eng fuel conversation sp tcb pcb (Some tok) w)))
     = tokens_delivered (trace w).

(** A one-message conversation that the precondition checks accept on the
    session [k]: every image passes [validateImageData], images come with
    a loaded vision engine, and the chat template renders a prompt that
    fits the buffer of [contextSize] bytes. *)
Definition valid_message (eng : Engine) (k : KLlama) (msg : MultimodalMessage) : Prop :=
  validate_images (images msg) = None
  /\ (images msg = [] \/ visionContext k <> None)
  /\ 0 <= fst (llama_chat_apply_template eng [(role_str (role msg), content msg)]
                                          (SessionParams.contextSize (params k)))
       <= SessionParams.contextSize (params k).

(** What happens instead when the engine hands out no sampler chain: the
    call fails before the flag is looked at, and the state stays [Idle]. *)
Definition fails_without_sampler_chain (eng : Engine) (fuel : nat)
    (conversation : list MultimodalMessage) (sp : SamplingParams.t)
    (tcb : TokenCallback) (pcb : ProgressCallback)
    (tok : CancellationToken) (w : World) : Prop :=
  fst (generateResponseInternal eng fuel conversation sp tcb pcb (Some tok) w)
    = Some (Failure KLlamaError.SamplingFailed "Failed to create sampler chain")
  /\ generationState
       (self (snd (generateResponseInternal eng fuel conversation sp tcb pcb (Some tok) w)))
     = GenerationState.Idle
  /\ polls (snd (generateResponseInternal eng fuel conversation sp tcb pcb (Some tok) w))
     = polls w
  /\ tokens_delivered
       (trace (snd (generateResponseInternal eng fuel conversation sp tcb pcb (Some tok) w)))
     = tokens_delivered (trace w).

(** ** The token budget, in the words of the specification *)

(** [nPredict] when it is positive, the fallback ceiling 4096 otherwise. *)
Definition token_budget (sp : SamplingParams.t) : Z :=
  if 0 <? SamplingParams.nPredict sp then SamplingParams.nPredict sp else 4096.

(** The world in which the per-token loop starts, for a call whose first
    part ended in the world [w0]: the state has been set to [Generating]
    and the progress callback has been told "Generating response"
    (KLlama.cpp:757-761). *)
Definition loop_start_world (pcb : ProgressCallback) (w0 : World) : World :=
  snd (report pcb "Generating response"
         (snd (setGenerationState GenerationState.Generating w0))).

(** ** Invariants *)

(** [preserves J m]: running [m] keeps the property [J] of the object. *)
Definition preserves (J : KLlama -> Prop) {A} (m : M A) : Prop :=
  forall w, J (self w) -> J (self (snd (m w))).

(** The token counter of the statistics is 0. *)
Definition count_is_zero (k : KLlama) : Prop := tokensGenerated (currentStats k) = 0.

Definition is_initialized (k : KLlama) : Prop := initialized k = true.

(** [reaches m]: when [m] ends with [Success], the token counter is 0. *)
Definition reaches (m : M (option (KLlamaResult Z))) : Prop :=
  forall w past0, fst (m w) = Some (Success past0) -> count_is_zero (self (snd (m w))).

(** While the session is not initialized it holds no engine resource and
    the state of the statistics is the generation state. *)
Definition session_invariant (k : KLlama) : Prop :=
  initialized k = false ->
  holds_no_resource k /\ state (currentStats k) = generationState k.

(** The public operations of the class. *)
Inductive PublicCall : Type :=
| Do_initialize (sp : SessionParams.t) (pcb : ProgressCallback)
                (tok : option CancellationToken)
| Do_freeMemory
| Do_reset
| Do_generateResponse (fuel : nat) (conversation : list MultimodalMessage)
                      (tcb : TokenCallback) (pcb : ProgressCallback)
                      (tok : option CancellationToken)
| Do_generateResponse_with (fuel : nat) (conversation : list MultimodalMessage)
                           (sp : SamplingParams.t)
                           (tcb : TokenCallback) (pcb : ProgressCallback)
                           (tok : option CancellationToken).

Definition perform (eng : Engine) (c : PublicCall) (w : World) : World :=
  match c with
  | Do_initialize sp pcb tok => snd (initialize eng sp pcb tok w)
  | Do_freeMemory => snd (freeMemory w)
  | Do_reset => snd (reset w)
  | Do_generateResponse fuel conversation tcb pcb tok =>
      snd (generateResponse eng fuel conversation tcb pcb tok w)
  | Do_generateResponse_with fuel conversation sp tcb pcb tok =>
      snd (generateResponse_with eng fuel conversation sp tcb pcb tok w)
  end.

(** The worlds that a sequence of public calls produces from a freshly
    constructed object.  A call that an exception leaves, or that has no
    result, contributes the world in which it stopped. *)
Inductive reachable (eng : Engine) : World -> Prop :=
| reachable_fresh (tr : list Event) (n : nat) : reachable eng (mkWorld KLlama_new tr n)
| reachable_step (c : PublicCall) (w : World) :
    reachable eng w -> reachable eng (perform eng c w).

(** * The rest of the class *)

(** [KLlama::errorToString] (KLlama.cpp:27-49). *)
Definition errorToString (error : KLlamaError.t) : string :=
  match error with
  | KLlamaError.None => "Success"
  | KLlamaError.ModelNotFound => "Model file not found"
  | KLlamaError.ModelLoadFailed => "Failed to load model"
  | KLlamaError.ModelInvalid => "Invalid model format"
  | KLlamaError.MmprojNotFound => "Multimodal projector file not found"
  | KLlamaError.MmprojLoadFailed => "Failed to load multimodal projector"
  | KLlamaError.MmprojInvalid => "Invalid multimodal projector format"
  | KLlamaError.ContextInitFailed => "Failed to initialize context"
  | KLlamaError.InsufficientMemory => "Insufficient memory"
  | KLlamaError.TokenizationFailed => "Text tokenization failed"
  | KLlamaError.EvaluationFailed => "Model evaluation failed"
  | KLlamaError.SamplingFailed => "Token sampling failed"
  | KLlamaError.ImageProcessingFailed => "Image processing failed"
  | KLlamaError.InvalidParameters => "Invalid parameters"
  | KLlamaError.NotInitialized => "KLlama not initialized"
  | KLlamaError.AlreadyInitialized => "KLlama already initialized"
  | KLlamaError.OperationCancelled => "Operation was cancelled"
  | KLlamaError.UnknownError => "Unknown error"
  end.

(** ** Model and memory information *)

Module ModelInfo.

Record t : Type := mk {
  name : string;
  architecture : string;
  parameterCount : Z;
  contextSize : Z;
  supportsVision : bool;
  capabilities : list string
}.

End ModelInfo.

Module MemoryInfo.

Record t : Type := mk {
  modelMemoryMB : Z;
  contextMemoryMB : Z;
  totalMemoryMB : Z;
  availableMemoryMB : Z
}.

End MemoryInfo.

(** The read-only queries of the engine.  [llama_model_desc h size] gives
    the value returned for a buffer of [size] bytes and the text the buffer
    then holds. *)
Record ModelQueries : Type := {
  llama_model_desc : Handle -> Z -> Z * string;
  llama_model_n_params : Handle -> Z;
  llama_model_n_ctx_train : Handle -> Z;
  llama_model_size : Handle -> Z;
  llama_state_get_size : Handle -> Z
}.

(** Files as [std::ifstream] sees them: [open_binary path] is the content
    of the file, or [None] when it cannot be opened; [stack_bytes] is what
    the four bytes of an uninitialised [char header[4]] happen to hold. *)
Record Files : Type := {
  open_binary : string -> option (list byte);
  stack_bytes : list byte
}.

Definition GGUF_magic : list byte := [x47; x47; x55; x46].

Definition bytes_eqb (a b : list byte) : bool :=
  if list_eq_dec byte_eq_dec a b then true else false.

Section Queries.

Variable eng : Engine.
Variable queries : ModelQueries.
Variable files : Files.

(** The name that [validateModel] and [getModelInfo] read (KLlama.cpp:298-304,
    347-353): [None] when [descLen] exceeds the 256 bytes of
    [desc_buffer], so that [std::string(desc_buffer, descLen)] reads past
    its end. *)
Definition model_name (h : Handle) : option string :=
  let described := llama_model_desc queries h 256 in
  let descLen := fst described in
  if 0 <? descLen then
    if descLen <=? 256 then Some (substring 0 (Z.to_nat descLen) (snd described))
    else None
  else Some "Unknown Model".

(** [KLlama::validateModel] (KLlama.cpp:281-314).  A static function: it
    reads and writes no field of any object.  [None]: the name is read
    past the buffer. *)
Definition validateModel (modelPath : string)
  : M (option (Outcome (KLlamaResult ModelInfo.t))) :=
  match checkFileExists (fs_exists eng) modelPath with
  | Throws e => ret (Some (Throws e))
  | Returns fileCheck =>
      if isError fileCheck then
        ret (Some (Returns (Failure (error_of fileCheck) (errorMessage_of fileCheck))))
      else
        emit Call_backend_init ;;
        emit (Call_model_load modelPath) ;;
        match llama_model_load_from_file eng modelPath with
        | None =>
            emit Call_backend_free ;;
            ret (Some (Returns (Failure KLlamaError.ModelInvalid "Invalid model format")))
        | Some tempModel =>
            match model_name tempModel with
            | None => ret None
            | Some name =>
                emit (Call_model_free tempModel) ;;
                emit Call_backend_free ;;
                ret (Some (Returns (Success
                  {| ModelInfo.name := name;
                     ModelInfo.architecture := "";
                     ModelInfo.parameterCount :=
                       wrap_int64 (llama_model_n_params queries tempModel);
                     ModelInfo.contextSize := llama_model_n_ctx_train queries tempModel;
                     ModelInfo.supportsVision := false;
                     ModelInfo.capabilities := [] |})))
            end
        end
  end.

(** [char header[4]; file.read(header, 4)]: the bytes read, then what the
    array held before. *)
Definition read_header (content : list byte) : list byte :=
  write_into (firstn 4 (stack_bytes files ++ repeat x00 4)) (firstn 4 content).

(** [KLlama::validateMmproj] (KLlama.cpp:316-337). *)
Definition validateMmproj (mmprojPath : string) : Outcome (KLlamaResult unit) :=
  match checkFileExists (fs_exists eng) mmprojPath with
  | Throws e => Throws e
  | Returns fileCheck =>
      if isError fileCheck then
        Returns (Failure KLlamaError.MmprojNotFound (errorMessage_of fileCheck))
      else
        match open_binary files mmprojPath with
        | None => Returns (Failure KLlamaError.MmprojInvalid "Cannot open mmproj file")
        | Some content =>
            if negb (bytes_eqb (read_header content) GGUF_magic) then
              Returns (Failure KLlamaError.MmprojInvalid
                               "Invalid mmproj format - not a GGUF file")
            else Returns (Success tt)
        end
  end.

(** [KLlama::getModelInfo] (KLlama.cpp:340-367).  [None]: the engine is
    handed a null model, or the name is read past the buffer. *)
Definition getModelInfo : M (option (KLlamaResult ModelInfo.t)) :=
  initCheck <- checkInitialized ;;
  if isError initCheck then
    ret (Some (Failure (error_of initCheck) (errorMessage_of initCheck)))
  else
    m <- get model ;;
    v <- get visionContext ;;
    match m with
    | None => ret None
    | Some h =>
        match model_name h with
        | None => ret None
        | Some name =>
            let supportsVision := negb (is_null v) in
            ret (Some (Success
              {| ModelInfo.name := name;
                 ModelInfo.architecture := "";
                 ModelInfo.parameterCount := wrap_int64 (llama_model_n_params queries h);
                 ModelInfo.contextSize := llama_model_n_ctx_train queries h;
                 ModelInfo.supportsVision := supportsVision;
                 ModelInfo.capabilities :=
                   ("text_generation"
                    :: (if supportsVision then ["vision"; "multimodal"] else []))%list |}))
        end
    end.

(** [KLlama::getMemoryInfo] (KLlama.cpp:369-383); sizes are [uint64_t] and
    [size_t] values.  [None]: the engine is handed a null model or
    context. *)
Definition getMemoryInfo : M (option (KLlamaResult MemoryInfo.t)) :=
  initCheck <- checkInitialized ;;
  if isError initCheck then
    ret (Some (Failure (error_of initCheck) (errorMessage_of initCheck)))
  else
    m <- get model ;;
    c <- get llamaContext ;;
    match m, c with
    | Some mh, Some ch =>
        let modelMemoryMB := wrap_uint64 (llama_model_size queries mh) / (1024 * 1024) in
        let contextMemoryMB := wrap_uint64 (llama_state_get_size queries ch) / (1024 * 1024) in
        ret (Some (Success
          {| MemoryInfo.modelMemoryMB := modelMemoryMB;
             MemoryInfo.contextMemoryMB := contextMemoryMB;
             MemoryInfo.totalMemoryMB := wrap_uint64 (modelMemoryMB + contextMemoryMB);
             MemoryInfo.availableMemoryMB := 0 |}))
    | _, _ => ret None
    end.

(** [KLlama::getGenerationStats] (KLlama.cpp:385-391). *)
Definition getGenerationStats : M (KLlamaResult GenerationStats) :=
  initCheck <- checkInitialized ;;
  if isError initCheck then
    ret (Failure (error_of initCheck) (errorMessage_of initCheck))
  else
    stats <- get currentStats ;;
    ret (Success stats).

End Queries.

(** * Specification-side definitions for the rest of the class *)

(** [std::filesystem::exists] returns [true]. *)
Definition found (answer : Outcome bool) : bool :=
  match answer with
  | Returns present => present
  | Throws _ => false
  end.

(** The error kind of the result of a call that returns ([None] is the
    kind of a success); nothing for a call that throws. *)
Definition returned_error {T} (outcome : Outcome (KLlamaResult T))
  : option KLlamaError.t :=
  match outcome with
  | Returns r => Some (error_of r)
  | Throws _ => None
  end.

(** What [SessionParams::validate] asks for. *)
Definition session_params_ok (fs : string -> Outcome bool) (sp : SessionParams.t) : bool :=
  negb (empty (SessionParams.modelPath sp))
  && found (fs (SessionParams.modelPath sp))
  && (empty (SessionParams.mmprojPath sp) || found (fs (SessionParams.mmprojPath sp)))
  && (0 <? SessionParams.contextSize sp)
  && (0 <? SessionParams.batch sp)
  && (0 <? SessionParams.threads sp)
  && negb (isError (SamplingParams.validate (SessionParams.sampling sp))).

(** An image that [validateImageData] accepts. *)
Definition accepted_image (image : ImageData) : Prop := accepted (data image).

(** The stages that pick the token: the chain must end with one. *)
Definition selects (st : SamplerStage) : bool :=
  match st with
  | Greedy | Dist _ => true
  | _ => false
  end.

(** Two parameter sets that agree on the temperature and on the penalty
    fields. *)
Definition same_penalties_and_temperature (p q : SamplingParams.t) : Prop :=
  SamplingParams.temperature p = SamplingParams.temperature q
  /\ SamplingParams.repeatPenalty p = SamplingParams.repeatPenalty q
  /\ SamplingParams.repeatLastN p = SamplingParams.repeatLastN q
  /\ SamplingParams.frequencyPenalty p = SamplingParams.frequencyPenalty q
  /\ SamplingParams.presencePenalty p = SamplingParams.presencePenalty q.

(** A piece of twelve bytes fits the buffer; one of forty does not, and
    the engine answers with minus its length. *)
Definition short_piece : list byte := repeat x61 12.
Definition long_piece : list byte := repeat x62 40.
Definition demo_to_piece (token size : Z) : Z * list byte :=
  if token =? 1 then (12, short_piece)
  else if size <? 40 then (-40, []) else (40, long_piece).

Definition demo_queries : ModelQueries :=
  {| llama_model_desc := fun _ _ => (13, "llama 7B Q4_0");
     llama_model_n_params := fun _ => 6738415616;
     llama_model_n_ctx_train := fun _ => 4096;
     llama_model_size := fun _ => 3825065984;
     llama_state_get_size := fun _ => 1572864 |}.

(** A projector file with the magic, a model file, and a file cut after
    three bytes; the stack happens to hold an [F] in the fourth place. *)
Definition demo_files : Files :=
  {| open_binary := fun path =>
       if String.eqb path "mmproj.gguf" then Some [x47; x47; x55; x46; x03; x00; x00; x00]
       else if String.eqb path "model.gguf" then Some [x47; x47; x55; x46; x03; x00; x00; x00]
       else if String.eqb path "cut.gguf" then Some [x47; x47; x55]
       else None;
     stack_bytes := [x00; x00; x00; x46] |}.

Definition cut_engine : Engine :=
  {| file_exists := fun path => String.eqb path "cut.gguf";
     status_fails := status_fails demo_engine;
     llama_model_load_from_file := llama_model_load_from_file demo_engine;
     llama_init_from_model := llama_init_from_model demo_engine;
     mtmd_init_from_file := mtmd_init_from_file demo_engine;
     llama_sampler_chain_init := llama_sampler_chain_init demo_engine;
     LLAMA_DEFAULT_SEED := LLAMA_DEFAULT_SEED demo_engine;
     LLAMA_TOKEN_NULL := LLAMA_TOKEN_NULL demo_engine;
     llama_chat_apply_template := llama_chat_apply_template demo_engine;
     mtmd_default_marker := mtmd_default_marker demo_engine;
     mtmd_helper_bitmap_init_from_buf := mtmd_helper_bitmap_init_from_buf demo_engine;
     mtmd_tokenize := mtmd_tokenize demo_engine;
     mtmd_helper_eval_chunks := mtmd_helper_eval_chunks demo_engine;
     llama_tokenize := llama_tokenize demo_engine;
     llama_decode_prompt := llama_decode_prompt demo_engine;
     llama_sampler_sample := llama_sampler_sample demo_engine;
     llama_vocab_is_eog := llama_vocab_is_eog demo_engine;
     token_piece := token_piece demo_engine;
     llama_decode := llama_decode demo_engine;
     what := what demo_engine |}.

(** Greedy parameters, and the same with every filter switched off. *)
Definition greedy_params : SamplingParams.t :=
  SamplingParams.set_temperature f32_0_0 SamplingParams.default.

Definition greedy_bare_params : SamplingParams.t :=
  SamplingParams.mk f32_0_0 f32_1_0 0 f32_0_0 f32_0_7 f32_1_1 64 f32_0_0 f32_0_0 7.

(** ** Counting engine calls *)

(** The engine calls that release a resource. *)
Definition releases (e : Event) : bool :=
  match e with
  | Call_backend_free | Call_batch_free | Call_model_free _
  | Call_free _ | Call_mtmd_free _ | Call_sampler_free => true
  | _ => false
  end.

Definition is_backend_init (e : Event) : bool :=
  match e with Call_backend_init => true | _ => false end.

Definition is_backend_free (e : Event) : bool :=
  match e with Call_backend_free => true | _ => false end.

Definition is_model_free (e : Event) : bool :=
  match e with Call_model_free _ => true | _ => false end.

Definition count (p : Event -> bool) (tr : list Event) : nat :=
  List.length (filter p tr).

(** ** What a cancelled [initialize] releases *)

(** The engine calls of an [initialize] that is cancelled at a poll that
    follows a step, from the world [w] to the world [w']: what it has
    acquired, and what it has released when it returns.  The backend is
    initialised and not freed. *)
Definition released_before_returning (eng : Engine) (sp : SessionParams.t)
    (tok : CancellationToken) (w w' : World) : Prop :=
  exists added,
    trace w' = (trace w ++ added)%list
    /\ (cancel_seen_after_model_load eng sp tok (polls w) ->
        forall mh,
          llama_model_load_from_file eng (SessionParams.modelPath sp) = Some mh ->
          filter acquires added
          = [Call_backend_init; Call_batch_init 1;
             Call_model_load (SessionParams.modelPath sp)]
          /\ filter releases added = [Call_batch_free; Call_model_free mh])
    /\ (cancel_seen_after_vision_load eng sp tok (polls w) ->
        forall mh ch vh,
          llama_model_load_from_file eng (SessionParams.modelPath sp) = Some mh ->
          llama_init_from_model eng mh = Some ch ->
          mtmd_init_from_file eng (SessionParams.mmprojPath sp) = Some vh ->
          filter acquires added
          = [Call_backend_init; Call_batch_init 1;
             Call_model_load (SessionParams.modelPath sp);
             Call_init_from_model mh; Call_mtmd_init (SessionParams.mmprojPath sp)]
          /\ filter releases added
             = [Call_batch_free; Call_free ch; Call_model_free mh; Call_mtmd_free vh]).

(** ** Sessions that are ready *)

(** What an initialized session holds: the model, the context and the
    one-slot batch buffer, and the vision engine exactly when a projector
    path is configured. *)
Definition session_loaded (k : KLlama) : Prop :=
  model k <> None /\ llamaContext k <> None /\ token (batch k) <> None
  /\ is_null (visionContext k) = empty (SessionParams.mmprojPath (params k)).

(** The error kinds that [initialize] reports on a session that is not
    initialized. *)
Definition initialize_errors : list KLlamaError.t :=
  [KLlamaError.InvalidParameters; KLlamaError.ModelNotFound; KLlamaError.MmprojNotFound;
   KLlamaError.OperationCancelled; KLlamaError.ModelLoadFailed;
   KLlamaError.ContextInitFailed; KLlamaError.MmprojLoadFailed].

(** The error kinds of [SessionParams::validate]. *)
Definition validation_errors : list KLlamaError.t :=
  [KLlamaError.InvalidParameters; KLlamaError.ModelNotFound; KLlamaError.MmprojNotFound].

(** The acquiring calls of a successful [initialize], in order. *)
Definition acquisition_order (sp : SessionParams.t) (mh : Handle) : list Event :=
  [Call_backend_init; Call_batch_init 1; Call_model_load (SessionParams.modelPath sp);
   Call_init_from_model mh]
  ++ (if empty (SessionParams.mmprojPath sp) then []
      else [Call_mtmd_init (SessionParams.mmprojPath sp)]).

(** The releasing calls of [freeMemory] on a session that holds a model
    [mh], a context [ch], the batch buffer and, with a projector, the
    vision engine [vh], in order. *)
Definition release_order (mh ch : Handle) (vh : option Handle) : list Event :=
  [Call_batch_free; Call_free ch; Call_model_free mh; Call_backend_free]
  ++ match vh with
     | Some h => [Call_mtmd_free h]
     | None => []
     end.

(** The outcomes of [initialize] on a session that is not initialized and
    holds nothing: success, failure, and an exception thrown by the
    validation of the parameters. *)
Definition initialize_succeeded (eng : Engine) (sp : SessionParams.t) (w w' : World)
  : Prop :=
  exists mh ch,
    llama_model_load_from_file eng (SessionParams.modelPath sp) = Some mh
    /\ llama_init_from_model eng mh = Some ch
    /\ self w'
       = mkKLlama true sp GenerationState.Idle
           (if empty (SessionParams.mmprojPath sp) then None
            else mtmd_init_from_file eng (SessionParams.mmprojPath sp))
           (Some mh) (Some ch) None
           {| n_tokens := 0; token := Some 0; pos := 0 |}
           {| tokensGenerated := tokensGenerated (currentStats (self w));
              state := GenerationState.Idle;
              stats_sampling := stats_sampling (currentStats (self w)) |}
    /\ (empty (SessionParams.mmprojPath sp) = false ->
        mtmd_init_from_file eng (SessionParams.mmprojPath sp) <> None)
    /\ session_params_ok (fs_exists eng) sp = true
    /\ exists added,
         trace w' = (trace w ++ added)%list
         /\ filter acquires added = acquisition_order sp mh
         /\ filter releases added = [].

Definition initialize_failed (w w' : World) (r : KLlamaResult unit) : Prop :=
  isError r = true
  /\ In (error_of r) initialize_errors
  /\ initialized (self w') = false
  /\ holds_no_resource (self w')
  /\ exists added,
       trace w' = (trace w ++ added)%list
       /\ count is_backend_free added = 0%nat
       /\ (In (error_of r) [KLlamaError.ModelLoadFailed; KLlamaError.ContextInitFailed;
                            KLlamaError.MmprojLoadFailed] ->
           count is_backend_init added = 1%nat).

(** [SessionParams::validate] throws exactly when a file check is made on
    a path whose status cannot be determined: the model path when it is
    not empty, and the projector path when the model file has been found
    and the projector path is not empty. *)
Definition validation_throws (eng : Engine) (sp : SessionParams.t) : option Exception :=
  if empty (SessionParams.modelPath sp) then None
  else if status_fails eng (SessionParams.modelPath sp) then
    Some (filesystem_error (SessionParams.modelPath sp))
  else if negb (file_exists eng (SessionParams.modelPath sp)) then None
  else if empty (SessionParams.mmprojPath sp) then None
  else if status_fails eng (SessionParams.mmprojPath sp) then
    Some (filesystem_error (SessionParams.mmprojPath sp))
  else None.

Definition initialize_threw (eng : Engine) (sp : SessionParams.t) (w w' : World)
    (e : Exception) : Prop :=
  validation_throws eng sp = Some e /\ w' = w.

(** Session parameters that name an existing file which the engine cannot
    load as a model. *)
Definition unloadable_params : SessionParams.t :=
  SessionParams.mk "mmproj.gguf" "" 16000 4096 0 false 6 1 SamplingParams.default.

(** The session after a successful [initialize] with a projector. *)
Definition vision_ready : World :=
  snd (initialize demo_engine vision_params false None fresh).

(** An initialized session with everything it needs. *)
Definition session_ready (fs : string -> Outcome bool) (k : KLlama) : Prop :=
  initialized k = true /\ session_loaded k /\ session_params_ok fs (params k) = true.

(** The capabilities that [getModelInfo] lists. *)
Definition capabilities_of (supportsVision : bool) : list string :=
  "text_generation" :: (if supportsVision then ["vision"; "multimodal"] else []).

(** ** Assertions on computations *)

(** [hoare P m Q]: run from a world that satisfies [P], the computation
    [m] returns a value and a world that satisfy [Q]. *)
Definition hoare {A} (P : World -> Prop) (m : M A) (Q : A -> World -> Prop) : Prop :=
  forall w, P w -> Q (fst (m w)) (snd (m w)).

Definition anything : World -> Prop := fun _ => True.

(** The generation state and the state kept in the statistics are both
    [st]: what [setGenerationState st] establishes. *)
Definition in_state (st : GenerationState.t) (w : World) : Prop :=
  generationState (self w) = st /\ state (currentStats (self w)) = st.

(** What a failure says about the state in which the session is left. *)
Definition failure_matches {T} (r : KLlamaResult T) (w : World) : Prop :=
  (error_of r = KLlamaError.OperationCancelled -> in_state GenerationState.Cancelled w)
  /\ (error_of r = KLlamaError.EvaluationFailed -> in_state GenerationState.Error w)
  /\ (error_of r = KLlamaError.UnknownError -> in_state GenerationState.Error w).

(** The same for the first part of a generation, when it has a result. *)
Definition part_matches (r : option (KLlamaResult Z)) (w : World) : Prop :=
  match r with
  | Some r => failure_matches r w
  | None => True
  end.

(** What the result of a generation says about the state. *)
Definition outcome_matches (r : option (KLlamaResult string)) (w : World) : Prop :=
  match r with
  | None => True
  | Some (Success _) => in_state GenerationState.Finished w
  | Some (Failure e msg) =>
      failure_matches (Failure e msg : KLlamaResult string) w
  end.

Definition loop_outcome_matches (out : option (LoopExit * LoopVars)) (w : World) : Prop :=
  match out with
  | Some (Return_from_loop r, _) => outcome_matches (Some r) w
  | _ => True
  end.

(** The results that stop every later generation: success, cancellation,
    evaluation failure and a caught exception. *)
Definition ends_the_session (r : KLlamaResult string) : Prop :=
  (exists text, r = Success text)
  \/ error_of r = KLlamaError.OperationCancelled
  \/ error_of r = KLlamaError.EvaluationFailed
  \/ error_of r = KLlamaError.UnknownError.

(** ** Calls that the precondition checks reject *)

(** What the checks at the head of [generateResponseInternal] reject on a
    session [k] that is initialized and idle. *)
Definition rejected_by_checks (k : KLlama) (conversation : list MultimodalMessage)
    (sp : SamplingParams.t) : Prop :=
  conversation = []
  \/ ~ Forall (fun message => Forall accepted_image (images message)) conversation
  \/ (extractAllImages conversation <> [] /\ visionContext k = None)
  \/ isError (SamplingParams.validate sp) = true.

(** A conversation with one image of four bytes, which is too short. *)
Definition short_image_message : MultimodalMessage :=
  {| role := User; content := "Look"; images := [{| data := [x89; x50; x4e; x47] |}] |}.

(** The chat messages handed to [llama_chat_apply_template]
    (KLlama.cpp:563-583). *)
Definition chat_messages (conversation : list MultimodalMessage) : list (string * string) :=
  map (fun msg => (role_str (role msg), content msg)) conversation.

(** [demo_engine] with a model whose chat template cannot be applied. *)
Definition template_failing_engine : Engine :=
  {| file_exists := file_exists demo_engine;
     status_fails := status_fails demo_engine;
     llama_model_load_from_file := llama_model_load_from_file demo_engine;
     llama_init_from_model := llama_init_from_model demo_engine;
     mtmd_init_from_file := mtmd_init_from_file demo_engine;
     llama_sampler_chain_init := llama_sampler_chain_init demo_engine;
     LLAMA_DEFAULT_SEED := LLAMA_DEFAULT_SEED demo_engine;
     LLAMA_TOKEN_NULL := LLAMA_TOKEN_NULL demo_engine;
     llama_chat_apply_template := fun _ _ => (-1, "");
     mtmd_default_marker := mtmd_default_marker demo_engine;
     mtmd_helper_bitmap_init_from_buf := mtmd_helper_bitmap_init_from_buf demo_engine;
     mtmd_tokenize := mtmd_tokenize demo_engine;
     mtmd_helper_eval_chunks := mtmd_helper_eval_chunks demo_engine;
     llama_tokenize := llama_tokenize demo_engine;
     llama_decode_prompt := llama_decode_prompt demo_engine;
     llama_sampler_sample := llama_sampler_sample demo_engine;
     llama_vocab_is_eog := llama_vocab_is_eog demo_engine;
     token_piece := token_piece demo_engine;
     llama_decode := llama_decode demo_engine;
     what := what demo_engine |}.

(** ** What the token callback receives *)

(** [quiet m]: the computation [m] hands nothing to the token callback. *)
Definition quiet {A} (m : M A) : Prop :=
  forall w, tokens_delivered (trace (snd (m w))) = tokens_delivered (trace w).

(** The fragments put end to end. *)
Definition join (pieces : list string) : string := fold_right append "" pieces.

(** What the per-token loop does to the text, the callback and the
    counters, from the variables [v] and the world [w] it starts with to
    the variables [v'] and the world [w'] it ends with: [pieces] are the
    fragments produced. *)
Definition streams (tcb : TokenCallback) (v : LoopVars) (w : World)
    (v' : LoopVars) (w' : World) (pieces : list string) : Prop :=
  response_text v' = (response_text v ++ join pieces)%string
  /\ tokens_delivered (trace w')
     = (tokens_delivered (trace w) ++ (if tcb then pieces else []))%list
  /\ tokenCount v' = wrap_int32 (tokenCount v + Z.of_nat (List.length pieces))
  /\ (pieces = [] ->
      tokensGenerated (currentStats (self w')) = tokensGenerated (currentStats (self w)))
  /\ (pieces <> [] -> tokensGenerated (currentStats (self w')) = tokenCount v').

(** The per-token loop leaves early only with a failure. *)
Definition leaves_with_failure (out : option (LoopExit * LoopVars)) (w : World) : Prop :=
  match out with
  | Some (Return_from_loop (Success _), _) => False
  | _ => True
  end.

(** ** What a computation can return *)

(** [returns R m]: whatever the world, the value that [m] returns
    satisfies [R]. *)
Definition returns {A} (R : A -> Prop) (m : M A) : Prop :=
  forall w, R (fst (m w)).

Definition not_cancelled {T} (r : KLlamaResult T) : Prop :=
  error_of r <> KLlamaError.OperationCancelled.

Definition loop_not_cancelled (out : option (LoopExit * LoopVars)) : Prop :=
  match out with
  | Some (Return_from_loop r, _) => not_cancelled r
  | _ => True
  end.

Definition answer_not_cancelled {T} (r : option (KLlamaResult T)) : Prop :=
  match r with
  | Some r => not_cancelled r
  | None => True
  end.

Definition outcome_not_cancelled {T} (r : Outcome (KLlamaResult T)) : Prop :=
  match r with
  | Returns r => not_cancelled r
  | Throws _ => True
  end.

(** * The JNI layer

    A model of [native/library/src/jni/kllama_jni.cpp]: the functions
    behind the [external] methods of the Kotlin class, up to the
    conversion of arguments and results between Java and C++. *)

Module Jni.

(** The Java object as the native code sees it: the [nativeHandle] field
    (null, or the address of a [KLlama] object, here the object itself),
    the [KLlama] objects that were allocated with [new], never deleted,
    and to which no handle points any more, and the engine calls made and
    polls counted so far. *)
Record Peer : Type := mkPeer {
  nativeHandle : option KLlama;
  orphans : list KLlama;
  jtrace : list Event;
  jpolls : nat
}.

Definition peer_new (tr : list Event) (n : nat) : Peer := mkPeer None [] tr n.

(** The token that the class receives from this layer.
    [JniCancellationToken] derives from [CancellationToken] and declares
    its own [isCancelled], which asks the Java token; but the method of
    the base class is not virtual (kllama_jni.cpp:152-183, KLlama.h:75-81),
    so the calls that [KLlama] makes through a [CancellationToken *] read
    the flag of the base class, which nothing sets. *)
Definition base_flag : CancellationToken := fun _ => false.

(** [set_handle] overwrites the field; the object it pointed to, if any,
    is not deleted. *)
Definition dropped (p : Peer) : list KLlama :=
  match nativeHandle p with
  | Some old => old :: orphans p
  | None => orphans p
  end.

Section Natives.

Variable eng : Engine.
Variable queries : ModelQueries.

(** [initializeNative] (kllama_jni.cpp:301-325).  [j_cancel_token] is the
    Java token, [None] for null.  The function catches nothing: when
    [initialize] throws, the exception leaves it before [set_handle] is
    reached, so that the handle is as before and the object made by [new]
    is not deleted. *)
Definition initializeNative (j_params : SessionParams.t)
    (j_progress_cb : ProgressCallback) (j_cancel_token : option CancellationToken)
    (p : Peer) : Outcome (KLlamaResult unit) * Peer :=
  let kllama := mkWorld KLlama_new (jtrace p) (jpolls p) in
  let (outcome, w) := initialize eng j_params j_progress_cb (Some base_flag) kllama in
  match outcome with
  | Throws e =>
      (Throws e, mkPeer (nativeHandle p) (self w :: orphans p) (trace w) (polls w))
  | Returns result =>
      if isSuccess result then
        (Returns result, mkPeer (Some (self w)) (dropped p) (trace w) (polls w))
      else
        let (_, w') := destroy w in
        (Returns result, mkPeer None (dropped p) (trace w') (polls w'))
  end.

Definition not_init_res {T} : KLlamaResult T :=
  Failure KLlamaError.NotInitialized "KLlama not initialized".

(** [generateResponseNative] (kllama_jni.cpp:327-356). *)
Definition generateResponseNative (fuel : nat)
    (j_conversation : list MultimodalMessage) (j_sampling : SamplingParams.t)
    (j_token_cb : TokenCallback) (j_progress_cb : ProgressCallback)
    (j_cancel_token : option CancellationToken)
    (p : Peer) : option (KLlamaResult string) * Peer :=
  match nativeHandle p with
  | None => (Some not_init_res, p)
  | Some kllama =>
      let (result, w) :=
        generateResponse_with eng fuel j_conversation j_sampling j_token_cb j_progress_cb
                              (Some base_flag) (mkWorld kllama (jtrace p) (jpolls p)) in
      (result, mkPeer (Some (self w)) (orphans p) (trace w) (polls w))
  end.

(** [getModelInfoNative] (kllama_jni.cpp:358-369). *)
Definition getModelInfoNative (p : Peer) : option (KLlamaResult ModelInfo.t) :=
  match nativeHandle p with
  | None => Some not_init_res
  | Some kllama => fst (getModelInfo queries (mkWorld kllama (jtrace p) (jpolls p)))
  end.

(** [getMemoryInfoNative] (kllama_jni.cpp:371-383). *)
Definition getMemoryInfoNative (p : Peer) : option (KLlamaResult MemoryInfo.t) :=
  match nativeHandle p with
  | None => Some not_init_res
  | Some kllama => fst (getMemoryInfo queries (mkWorld kllama (jtrace p) (jpolls p)))
  end.

(** [getGenerationStatsNative] (kllama_jni.cpp:385-397). *)
Definition getGenerationStatsNative (p : Peer) : KLlamaResult GenerationStats :=
  match nativeHandle p with
  | None => not_init_res
  | Some kllama => fst (getGenerationStats (mkWorld kllama (jtrace p) (jpolls p)))
  end.

(** The native [freeMemory] (kllama_jni.cpp:399-406): [delete kllama]
    runs the destructor. *)
Definition freeMemory (p : Peer) : Peer :=
  match nativeHandle p with
  | Some kllama =>
      let (_, w) := destroy (mkWorld kllama (jtrace p) (jpolls p)) in
      mkPeer None (orphans p) (trace w) (polls w)
  | None => p
  end.

(** The calls that change the peer. *)
Inductive NativeCall : Type :=
| Do_initializeNative (j_params : SessionParams.t) (j_progress_cb : ProgressCallback)
                      (j_cancel_token : option CancellationToken)
| Do_generateResponseNative (fuel : nat) (j_conversation : list MultimodalMessage)
                            (j_sampling : SamplingParams.t)
                            (j_token_cb : TokenCallback) (j_progress_cb : ProgressCallback)
                            (j_cancel_token : option CancellationToken)
| Do_freeMemoryNative.

Definition perform (c : NativeCall) (p : Peer) : Peer :=
  match c with
  | Do_initializeNative j_params j_progress_cb j_cancel_token =>
      snd (initializeNative j_params j_progress_cb j_cancel_token p)
  | Do_generateResponseNative fuel j_conversation j_sampling j_token_cb j_progress_cb
                              j_cancel_token =>
      snd (generateResponseNative fuel j_conversation j_sampling j_token_cb j_progress_cb
                                  j_cancel_token p)
  | Do_freeMemoryNative => freeMemory p
  end.

(** The peers that a sequence of native calls produces from a new Java
    object. *)
Inductive reachable : Peer -> Prop :=
| reachable_new (tr : list Event) (n : nat) : reachable (peer_new tr n)
| reachable_step (c : NativeCall) (p : Peer) : reachable p -> reachable (perform c p).

End Natives.

End Jni.

(** A Java token that is cancelled from the start. *)
Definition java_cancelled : CancellationToken := fun _ => true.

(** The peer after a successful [initializeNative]. *)
Definition demo_peer : Jni.Peer :=
  snd (Jni.initializeNative demo_engine demo_params false None (Jni.peer_new [] O)).

(** ** Sessions that can generate again *)

Definition not_idle (k : KLlama) : Prop := generationState k <> GenerationState.Idle.

(** The failure of [configureSampler] when the engine hands out no
    sampler chain. *)
Definition no_sampler_chain {T} (eng : Engine) (r : KLlamaResult T) : Prop :=
  llama_sampler_chain_init eng = false
  /\ error_of r = KLlamaError.SamplingFailed
  /\ errorMessage_of r = "Failed to create sampler chain".

(** What a generation that started in the world [w0] leaves: the world
    as it was, or a session that is not idle, or the failure of the
    sampler chain. *)
Definition unchanged_or_busy {T} (eng : Engine) (w0 : World) (r : KLlamaResult T)
    (w : World) : Prop :=
  w = w0 \/ not_idle (self w) \/ no_sampler_chain eng r.

Definition answer_unchanged_or_busy {T} (eng : Engine) (w0 : World)
    (r : option (KLlamaResult T)) (w : World) : Prop :=
  match r with
  | Some r => unchanged_or_busy eng w0 r w
  | None => True
  end.

(** [demo_engine] with an engine that refuses to hand out a sampler
    chain. *)
Definition chainless_engine : Engine :=
  {| file_exists := file_exists demo_engine;
     status_fails := status_fails demo_engine;
     llama_model_load_from_file := llama_model_load_from_file demo_engine;
     llama_init_from_model := llama_init_from_model demo_engine;
     mtmd_init_from_file := mtmd_init_from_file demo_engine;
     llama_sampler_chain_init := false;
     LLAMA_DEFAULT_SEED := LLAMA_DEFAULT_SEED demo_engine;
     LLAMA_TOKEN_NULL := LLAMA_TOKEN_NULL demo_engine;
     llama_chat_apply_template := llama_chat_apply_template demo_engine;
     mtmd_default_marker := mtmd_default_marker demo_engine;
     mtmd_helper_bitmap_init_from_buf := mtmd_helper_bitmap_init_from_buf demo_engine;
     mtmd_tokenize := mtmd_tokenize demo_engine;
     mtmd_helper_eval_chunks := mtmd_helper_eval_chunks demo_engine;
     llama_tokenize := llama_tokenize demo_engine;
     llama_decode_prompt := llama_decode_prompt demo_engine;
     llama_sampler_sample := llama_sampler_sample demo_engine;
     llama_vocab_is_eog := llama_vocab_is_eog demo_engine;
     token_piece := token_piece demo_engine;
     llama_decode := llama_decode demo_engine;
     what := what demo_engine |}.

(** [demo_engine] with a vocabulary whose pieces are 40 bytes long,
    more than the 32 bytes that [tokenToString] offers first. *)
Definition long_piece_engine : Engine :=
  {| file_exists := file_exists demo_engine;
     status_fails := status_fails demo_engine;
     llama_model_load_from_file := llama_model_load_from_file demo_engine;
     llama_init_from_model := llama_init_from_model demo_engine;
     mtmd_init_from_file := mtmd_init_from_file demo_engine;
     llama_sampler_chain_init := llama_sampler_chain_init demo_engine;
     LLAMA_DEFAULT_SEED := LLAMA_DEFAULT_SEED demo_engine;
     LLAMA_TOKEN_NULL := LLAMA_TOKEN_NULL demo_engine;
     llama_chat_apply_template := llama_chat_apply_template demo_engine;
     mtmd_default_marker := mtmd_default_marker demo_engine;
     mtmd_helper_bitmap_init_from_buf := mtmd_helper_bitmap_init_from_buf demo_engine;
     mtmd_tokenize := mtmd_tokenize demo_engine;
     mtmd_helper_eval_chunks := mtmd_helper_eval_chunks demo_engine;
     llama_tokenize := llama_tokenize demo_engine;
     llama_decode_prompt := llama_decode_prompt demo_engine;
     llama_sampler_sample := llama_sampler_sample demo_engine;
     llama_vocab_is_eog := llama_vocab_is_eog demo_engine;
     token_piece := fun _ => string_of_list_byte (repeat x61 40);
     llama_decode := llama_decode demo_engine;
     what := what demo_engine |}.

(** * Properties *)

(** ** The binary32 literals *)

Lemma literals_are_binary32 :
  forallb is_binary32
    [f32_0_0; f32_1_0; f32_2_0; f32_0_01; f32_0_7; f32_0_9; f32_0_05; f32_1_1;
     f32_minus_1_0; f32_5_0] = true.
Proof. vm_compute. reflexivity. Qed.

(** [f32_0_01] is the binary32 value nearest to 1/100: it differs from it
    by less than half a unit in the last place (2^-31). *)
Lemma f32_0_01_nearest :
  Z.abs (10737418 * 100 - 2 ^ 30) * 2 < 100.
Proof. vm_compute. reflexivity. Qed.

(** ** IEEE comparisons *)

Lemma SFcompare_antisym (a b : float) (c : comparison) :
  SFcompare a b = Some c -> SFcompare b a = Some (CompOpp c).
Proof.
  destruct a as [sa|sa| |sa ma ea], b as [sb|sb| |sb mb eb]; simpl;
    try discriminate;
    try (destruct sa); try (destruct sb); simpl;
    try (intros H; injection H as <-; reflexivity).
  all: intros H; injection H as <-; f_equal;
    change (Pos.compare_cont Eq mb ma) with (Pos.compare mb ma);
    change (Pos.compare_cont Eq ma mb) with (Pos.compare ma mb);
    rewrite (Z.compare_antisym ea eb), (Pos.compare_antisym ma mb);
    destruct (ea ?= eb)%Z; simpl; try reflexivity;
    destruct (ma ?= mb)%positive; reflexivity.
Qed.

Lemma SFcompare_total (a b : float) :
  is_nan a = false -> is_nan b = false -> exists c, SFcompare a b = Some c.
Proof.
  destruct a, b; simpl; try discriminate; intros _ _; eexists; reflexivity.
Qed.

Lemma fle_not_fgt (a b : float) : fle a b = true -> fgt a b = false.
Proof.
  unfold fle, fgt, SFleb, SFltb. intros H.
  destruct (SFcompare a b) as [c|] eqn:E; [|discriminate].
  rewrite (SFcompare_antisym _ _ _ E). destruct c; simpl; try reflexivity; discriminate.
Qed.

Lemma fle_not_flt (a b : float) : fle a b = true -> flt b a = false.
Proof. exact (fle_not_fgt a b). Qed.

Lemma not_fle_fgt (a b : float) :
  is_nan a = false -> is_nan b = false -> fle a b = false -> fgt a b = true.
Proof.
  unfold fle, fgt, SFleb, SFltb. intros Ha Hb H.
  destruct (SFcompare_total a b Ha Hb) as [c E]. rewrite E in H.
  rewrite (SFcompare_antisym _ _ _ E). destruct c; simpl; try reflexivity; discriminate.
Qed.

Lemma not_fle_flt (a b : float) :
  is_nan a = false -> is_nan b = false -> fle a b = false -> flt b a = true.
Proof. exact (not_fle_fgt a b). Qed.

(** A NaN compares false with everything. *)
Lemma nan_compares_false (b : float) :
  flt S754_nan b = false /\ fgt S754_nan b = false /\
  fle S754_nan b = false /\ fle b S754_nan = false.
Proof. destruct b; repeat split; reflexivity. Qed.

Lemma range_check (lo hi x : float) :
  is_nan lo = false -> is_nan hi = false -> is_nan x = false ->
  flt x lo || fgt x hi = negb (fle lo x && fle x hi).
Proof.
  intros Hlo Hhi Hx.
  destruct (fle lo x) eqn:E1; simpl.
  - rewrite (fle_not_flt _ _ E1). simpl.
    destruct (fle x hi) eqn:E2; simpl.
    + apply fle_not_fgt; assumption.
    + apply not_fle_fgt; assumption.
  - rewrite (not_fle_flt _ _ Hlo Hx E1). reflexivity.
Qed.

Lemma lower_check (lo x : float) :
  is_nan lo = false -> is_nan x = false -> flt x lo = negb (fle lo x).
Proof.
  intros Hlo Hx. destruct (fle lo x) eqn:E; simpl.
  - apply fle_not_flt; assumption.
  - apply not_fle_flt; assumption.
Qed.

Lemma validate_in_range (p : SamplingParams.t) :
  in_range p = true -> SamplingParams.validate p = Success tt.
Proof.
  unfold in_range, temperature_ok, topP_ok, topK_ok, minP_ok, repeatPenalty_ok,
    repeatLastN_ok.
  rewrite !andb_true_iff.
  intros [[[[[[T1 T2] [P1 P2]] K] [M1 M2]] R] N].
  unfold SamplingParams.validate.
  rewrite (fle_not_flt _ _ T1), (fle_not_fgt _ _ T2), (fle_not_flt _ _ P1),
    (fle_not_fgt _ _ P2), (fle_not_flt _ _ M1), (fle_not_fgt _ _ M2),
    (fle_not_flt _ _ R).
  simpl.
  apply Z.leb_le in K, N.
  replace (SamplingParams.topK p <? 0) with false by (symmetry; apply Z.ltb_ge; lia).
  replace (SamplingParams.repeatLastN p <? 0) with false by (symmetry; apply Z.ltb_ge; lia).
  reflexivity.
Qed.

(** On values without NaN, [validate] reports exactly the first field, in
    declaration order, that is outside its range. *)
Lemma validate_first_violation (p : SamplingParams.t) :
  no_nan p = true ->
  SamplingParams.validate p =
    match first_violation p with
    | None => Success tt
    | Some msg => Failure KLlamaError.InvalidParameters msg
    end.
Proof.
  unfold no_nan. intros H.
  repeat (apply andb_prop in H; destruct H as [H ?]).
  repeat match goal with
         | E : negb _ = true |- _ => apply negb_true_iff in E
         end.
  unfold SamplingParams.validate, first_violation,
    temperature_ok, topP_ok, topK_ok, minP_ok, repeatPenalty_ok, repeatLastN_ok.
  rewrite !range_check, !lower_check by (assumption || reflexivity).
  rewrite !Z.ltb_antisym.
  repeat match goal with
         | |- context [if negb ?c then _ else _] => destruct c; simpl; try reflexivity
         end.
Qed.

(** C4 (defect).  The claim asks [validate] to reject every value with a
    field outside its range.  A NaN temperature is not in [0,2], yet both
    comparisons of the temperature check are false on it, so [validate]
    succeeds: evaluated on the default parameters with the temperature
    replaced by NaN.  ([validate_in_range] and [validate_first_violation]
    show that the claim holds on all values without NaN.) *)
Theorem validate_accepts_nan_temperature :
  temperature_ok (SamplingParams.set_temperature S754_nan SamplingParams.default) = false
  /\ in_range (SamplingParams.set_temperature S754_nan SamplingParams.default) = false
  /\ SamplingParams.validate
       (SamplingParams.set_temperature S754_nan SamplingParams.default) = Success tt.
Proof. repeat split; vm_compute; reflexivity. Qed.

(** What [configureSampler] does on validated parameters when the engine
    hands out a chain: the old chain is freed, the new one is built. *)
Lemma configureSampler_run (eng : Engine) (p : SamplingParams.t) (w : World) :
  SamplingParams.validate p = Success tt ->
  llama_sampler_chain_init eng = true ->
  configureSampler eng p w =
    (Success tt,
     mkWorld (set_sampler (Some (spec_pipeline (LLAMA_DEFAULT_SEED eng) p)) (self w))
             ((if is_null (sampler (self w)) then trace w
               else trace w ++ [Call_sampler_free]) ++ [Call_sampler_chain_init])
             (polls w)).
Proof.
  intros Hv Hi.
  destruct w as [k tr n]. destruct k as [i ps g vc m c s b st].
  unfold configureSampler, spec_pipeline. rewrite Hv. simpl.
  unfold bind, get, when, modify, emit, ret, chain_add. simpl.
  rewrite Hi.
  destruct s as [old|]; simpl;
    destruct (fne (SamplingParams.repeatPenalty p) f32_1_0); simpl;
    destruct (fle (SamplingParams.temperature p) f32_0_01); simpl; try reflexivity;
    destruct (0 <? SamplingParams.topK p); simpl;
    rewrite (andb_comm (flt (SamplingParams.typicalP p) f32_1_0)),
            (andb_comm (flt (SamplingParams.topP p) f32_1_0));
    destruct (fgt (SamplingParams.typicalP p) f32_0_0
              && flt (SamplingParams.typicalP p) f32_1_0); simpl;
    destruct (fgt (SamplingParams.topP p) f32_0_0
              && flt (SamplingParams.topP p) f32_1_0); simpl;
    destruct (fgt (SamplingParams.minP p) f32_0_0); simpl; reflexivity.
Qed.

(** The same when the engine hands out no chain: the old chain is freed
    and the call fails. *)
Lemma configureSampler_without_chain (eng : Engine) (p : SamplingParams.t) (w : World) :
  SamplingParams.validate p = Success tt ->
  llama_sampler_chain_init eng = false ->
  configureSampler eng p w =
    (Failure KLlamaError.SamplingFailed "Failed to create sampler chain",
     mkWorld (set_sampler None (self w))
             ((if is_null (sampler (self w)) then trace w
               else trace w ++ [Call_sampler_free]) ++ [Call_sampler_chain_init])
             (polls w)).
Proof.
  intros Hv Hi.
  destruct w as [k tr n]. destruct k as [i ps g vc m c s b st].
  unfold configureSampler. rewrite Hv. simpl.
  unfold bind, get, when, modify, emit, ret. simpl.
  rewrite Hi.
  destruct s as [old|]; reflexivity.
Qed.

(** C2.  On validated parameters (and a sampler chain handed out by the
    engine) [configureSampler] succeeds and leaves in [sampler] exactly the
    chain of the specification: penalties first iff repeatPenalty != 1.0;
    then greedy alone when temperature <= 0.01; otherwise top-k iff
    topK > 0, typical iff 0 < typicalP < 1, top-p iff 0 < topP < 1, min-p
    iff minP > 0, temperature, and the final draw. *)
Theorem configureSampler_builds_spec_pipeline
    (eng : Engine) (p : SamplingParams.t) (w : World) :
  SamplingParams.validate p = Success tt ->
  llama_sampler_chain_init eng = true ->
  fst (configureSampler eng p w) = Success tt /\
  sampler (self (snd (configureSampler eng p w)))
    = Some (spec_pipeline (LLAMA_DEFAULT_SEED eng) p).
Proof.
  intros Hv Hi. rewrite (configureSampler_run eng p w Hv Hi).
  destruct w as [k tr n]. split; reflexivity.
Qed.

Lemma configureSampler_builds_spec_pipeline_witness :
  (SamplingParams.validate SamplingParams.default = Success tt
   /\ llama_sampler_chain_init demo_engine = true)
  /\ fst (configureSampler demo_engine SamplingParams.default demo_ready) = Success tt
  /\ sampler (self (snd (configureSampler demo_engine SamplingParams.default demo_ready)))
     = Some (spec_pipeline (LLAMA_DEFAULT_SEED demo_engine) SamplingParams.default).
Proof.
  split; [split; reflexivity|].
  apply (configureSampler_builds_spec_pipeline demo_engine SamplingParams.default demo_ready);
    reflexivity.
Defined.

Lemma validate_set_typicalP (x : float) (p : SamplingParams.t) :
  SamplingParams.validate (SamplingParams.set_typicalP x p) = SamplingParams.validate p.
Proof. reflexivity. Qed.

Lemma existsb_is_typical_spec_pipeline (seed : Z) (p : SamplingParams.t) :
  existsb is_typical (spec_pipeline seed p)
  = negb (fle (SamplingParams.temperature p) f32_0_01)
    && (fgt (SamplingParams.typicalP p) f32_0_0 && flt (SamplingParams.typicalP p) f32_1_0).
Proof.
  unfold spec_pipeline.
  destruct (fne (SamplingParams.repeatPenalty p) f32_1_0);
    destruct (fle (SamplingParams.temperature p) f32_0_01); simpl; try reflexivity;
    destruct (0 <? SamplingParams.topK p); simpl;
    destruct (fgt (SamplingParams.typicalP p) f32_0_0
              && flt (SamplingParams.typicalP p) f32_1_0); simpl; try reflexivity;
    destruct (fgt (SamplingParams.topP p) f32_0_0
              && flt (SamplingParams.topP p) f32_1_0); simpl;
    destruct (fgt (SamplingParams.minP p) f32_0_0); reflexivity.
Qed.

(** C10.  [validate] never looks at [typicalP]: replacing it by any value
    [x] leaves the result unchanged; in particular validation succeeds for
    every [x] (negative, above 1, NaN) as soon as the other fields are in
    range.  In the chain that [configureSampler] then builds, a typical
    stage is present exactly when the probabilistic branch is taken and
    0 < x < 1 holds: any other [x] is dropped by that guard alone. *)
Theorem validate_never_examines_typicalP (p : SamplingParams.t) (x : float) :
  SamplingParams.validate (SamplingParams.set_typicalP x p) = SamplingParams.validate p
  /\ (in_range p = true ->
      SamplingParams.validate (SamplingParams.set_typicalP x p) = Success tt)
  /\ (forall (eng : Engine) (w : World),
        SamplingParams.validate p = Success tt ->
        llama_sampler_chain_init eng = true ->
        exists chain,
          sampler (self (snd (configureSampler eng (SamplingParams.set_typicalP x p) w)))
            = Some chain
          /\ existsb is_typical chain
             = negb (fle (SamplingParams.temperature p) f32_0_01)
               && (fgt x f32_0_0 && flt x f32_1_0)).
Proof.
  split; [reflexivity|]. split.
  - intros H. rewrite validate_set_typicalP. apply validate_in_range, H.
  - intros eng w H Hi.
    assert (Hv : SamplingParams.validate (SamplingParams.set_typicalP x p) = Success tt)
      by (rewrite validate_set_typicalP; exact H).
    rewrite (configureSampler_run eng _ w Hv Hi).
    eexists. split; [destruct w; reflexivity|].
    apply existsb_is_typical_spec_pipeline.
Qed.

Lemma validate_never_examines_typicalP_witness :
  in_range SamplingParams.default = true
  /\ fle f32_0_0 f32_minus_1_0 = false
  /\ SamplingParams.validate (SamplingParams.set_typicalP f32_minus_1_0 SamplingParams.default)
     = Success tt
  /\ SamplingParams.validate (SamplingParams.set_typicalP f32_5_0 SamplingParams.default)
     = Success tt
  /\ SamplingParams.validate (SamplingParams.set_typicalP S754_nan SamplingParams.default)
     = Success tt.
Proof.
  assert (H : in_range SamplingParams.default = true) by reflexivity.
  split; [exact H|]. split; [reflexivity|].
  split; [|split].
  - apply (validate_never_examines_typicalP SamplingParams.default f32_minus_1_0), H.
  - apply (validate_never_examines_typicalP SamplingParams.default f32_5_0), H.
  - apply (validate_never_examines_typicalP SamplingParams.default S754_nan), H.
Defined.

(** ** Image validation *)

Lemma eqb_byte_iff (a b : byte) : Byte.eqb a b = true <-> a = b.
Proof. split; [apply byte_dec_bl | apply byte_dec_lb]. Qed.

Lemma validateImageData_cases (imageData : ImageData) :
  (validateImageData imageData = Success (data imageData) /\ accepted (data imageData))
  \/ ((exists msg, validateImageData imageData
                   = Failure KLlamaError.ImageProcessingFailed msg)
      /\ ~ accepted (data imageData)).
Proof.
  destruct imageData as [d]. unfold validateImageData, accepted. cbn [data].
  destruct d as [|b0 [|b1 [|b2 [|b3 [|b4 [|b5 [|b6 [|b7 rest]]]]]]]];
    try (right; split; [eexists; reflexivity | cbn; intros [H _]; lia]).
  replace (size (b0 :: b1 :: b2 :: b3 :: b4 :: b5 :: b6 :: b7 :: rest) <? 8)
    with false by (symmetry; apply Z.ltb_ge; unfold size; cbn [List.length]; lia).
  replace (8 <=? size (b0 :: b1 :: b2 :: b3 :: b4 :: b5 :: b6 :: b7 :: rest))
    with true by (symmetry; apply Z.leb_le; unfold size; cbn [List.length]; lia).
  replace (2 <=? size (b0 :: b1 :: b2 :: b3 :: b4 :: b5 :: b6 :: b7 :: rest))
    with true by (symmetry; apply Z.leb_le; unfold size; cbn [List.length]; lia).
  unfold byte_at, begins_with, PNG_signature, JPEG_signature, BMP_signature.
  cbn [nth andb List.length app].
  destruct (Byte.eqb b0 x89 && Byte.eqb b1 x50 && Byte.eqb b2 x4e && Byte.eqb b3 x47)
    eqn:Epng.
  { left. split; [reflexivity|]. split; [lia|]. left.
    rewrite !andb_true_iff, !eqb_byte_iff in Epng.
    destruct Epng as [[[-> ->] ->] ->]. eexists; reflexivity. }
  destruct (Byte.eqb b0 xff && Byte.eqb b1 xd8) eqn:Ejpg.
  { left. split; [reflexivity|]. split; [lia|]. right; left.
    rewrite !andb_true_iff, !eqb_byte_iff in Ejpg.
    destruct Ejpg as [-> ->]. eexists; reflexivity. }
  destruct (Byte.eqb b0 x42 && Byte.eqb b1 x4d) eqn:Ebmp.
  { left. split; [reflexivity|]. split; [lia|]. right; right.
    rewrite !andb_true_iff, !eqb_byte_iff in Ebmp.
    destruct Ebmp as [-> ->]. eexists; reflexivity. }
  right. split; [eexists; reflexivity|].
  intros [_ [[r H]|[[r H]|[r H]]]]; injection H as -> -> ;
    try (intros; subst); cbn in *; discriminate.
Qed.

(** C8.  [validateImageData] returns the bytes exactly when the buffer has
    at least 8 bytes and begins with the PNG, JPEG or BMP signature; every
    other buffer (empty, shorter than 8 bytes, other leading bytes) is
    rejected with [ImageProcessingFailed]. *)
Theorem validateImageData_accepts_iff (imageData : ImageData) :
  (validateImageData imageData = Success (data imageData) <-> accepted (data imageData))
  /\ (validateImageData imageData = Success (data imageData)
      \/ exists msg, validateImageData imageData
                     = Failure KLlamaError.ImageProcessingFailed msg).
Proof.
  destruct (validateImageData_cases imageData) as [[Hs Ha]|[[msg Hf] Hna]].
  - split; [split; intros _; assumption | left; assumption].
  - split; [|right; exists msg; assumption].
    split; intros H; [rewrite Hf in H; discriminate | contradiction].
Qed.

(** ** Running the monadic code *)

Ltac run :=
  unfold report, setGenerationState, checkInitialized;
  unfold bind, get, modify, emit, ret, when, poll; simpl.

Ltac open_world w :=
  destruct w as [[k_init k_params k_state k_vision k_model k_context k_sampler
                  [b_n b_token b_pos] [s_count s_state s_sampling]] w_trace w_polls];
  simpl in *.

Lemma bind_run {A B} (m : M A) (k : A -> M B) (w : World) :
  bind m k w = k (fst (m w)) (snd (m w)).
Proof. unfold bind. destruct (m w); reflexivity. Qed.

(** ** Properties of the object that a computation preserves *)

Lemma create_bitmaps_self (eng : Engine) (imgs : list ImageData) (w : World) :
  self (snd (create_bitmaps eng imgs w)) = self w.
Proof.
  revert w. induction imgs as [|i imgs IH]; intros w; [reflexivity|].
  simpl. run.
  destruct (mtmd_helper_bitmap_init_from_buf eng (data i)); simpl; [|reflexivity].
  rewrite IH. reflexivity.
Qed.

Section Preservation.

Variable J : KLlama -> Prop.

Lemma preserves_ret {A} (a : A) : preserves J (ret a).
Proof. intros w H. exact H. Qed.

Lemma preserves_bind {A B} (m : M A) (k : A -> M B) :
  preserves J m -> (forall a, preserves J (k a)) -> preserves J (bind m k).
Proof.
  intros Hm Hk w H. unfold bind. specialize (Hm w H).
  destruct (m w) as [a w1]. apply Hk, Hm.
Qed.

Lemma preserves_get {A} (f : KLlama -> A) : preserves J (get f).
Proof. intros w H. exact H. Qed.

Lemma preserves_emit (e : Event) : preserves J (emit e).
Proof. intros w H. exact H. Qed.

Lemma preserves_poll (tok : option CancellationToken) : preserves J (poll tok).
Proof. intros w H. destruct tok; exact H. Qed.

Lemma preserves_modify (f : KLlama -> KLlama) :
  (forall k, J k -> J (f k)) -> preserves J (modify f).
Proof. intros Hf w H. apply Hf, H. Qed.

Lemma preserves_create_bitmaps (eng : Engine) (imgs : list ImageData) :
  preserves J (create_bitmaps eng imgs).
Proof. intros w H. rewrite create_bitmaps_self. exact H. Qed.

End Preservation.

Ltac modify_side :=
  let k := fresh "k" in
  let H := fresh "H" in
  intros k H; first [exact H | reflexivity | destruct (sampler k); exact H].

Ltac preserves_step :=
  first
    [ apply preserves_ret
    | apply preserves_get
    | apply preserves_emit
    | apply preserves_poll
    | apply preserves_create_bitmaps
    | apply preserves_modify; modify_side
    | match goal with
      | |- preserves _ (if ?c then _ else _) => destruct c
      | |- preserves _ (match ?x with _ => _ end) => destruct x
      | |- preserves _ (let _ := _ in _) => cbv zeta
      | |- preserves _ (when _ _) => unfold when
      | |- preserves _ (report _ _) => unfold report, when
      end
    | apply preserves_bind; [|intros ?] ].

(** ** Teardown *)

Ltac handle_cases :=
  repeat match goal with
         | x : bool |- _ => destruct x
         | x : option _ |- _ => destruct x
         end.

Lemma freeMemory_succeeds (w : World) : fst (freeMemory w) = Success tt.
Proof. open_world w. handle_cases; reflexivity. Qed.

Lemma freeMemory_reaches_uninitialized_idle (w : World) :
  uninitialized_idle (self (snd (freeMemory w))).
Proof.
  open_world w. unfold uninitialized_idle, holds_no_resource.
  handle_cases; repeat split; reflexivity.
Qed.

Lemma freeMemory_fixpoint (w : World) :
  uninitialized_idle (self w) -> freeMemory w = (Success tt, w).
Proof.
  unfold uninitialized_idle, holds_no_resource. open_world w.
  intros (-> & -> & -> & -> & -> & -> & -> & ->).
  reflexivity.
Qed.

(** C9.  Teardown never fails and always ends in the
    [Uninitialized]/[Idle] state; a second teardown succeeds again, calls
    nothing and leaves the session exactly as the first one left it, so
    that [freeMemory] followed by [freeMemory] is [freeMemory]. *)
Theorem freeMemory_idempotent (w : World) :
  fst (freeMemory w) = Success tt
  /\ uninitialized_idle (self (snd (freeMemory w)))
  /\ freeMemory (snd (freeMemory w)) = (Success tt, snd (freeMemory w))
  /\ (freeMemory ;; freeMemory) w = freeMemory w.
Proof.
  pose proof (freeMemory_succeeds w) as Hs.
  pose proof (freeMemory_reaches_uninitialized_idle w) as Hu.
  pose proof (freeMemory_fixpoint _ Hu) as Hf.
  repeat split; try assumption; try apply Hu.
  unfold bind. destruct (freeMemory w) as [r w1] eqn:E. simpl in *.
  rewrite Hf, Hs. reflexivity.
Qed.

(** ** Initialization *)

Lemma initialize_already_initialized (eng : Engine) (sp : SessionParams.t)
    (cb : ProgressCallback) (tok : option CancellationToken) (w : World) :
  initialized (self w) = true ->
  initialize eng sp cb tok w = (Returns (Failure KLlamaError.AlreadyInitialized ""), w).
Proof.
  open_world w. intros ->. reflexivity.
Qed.

Lemma validate_missing_model (fs : string -> Outcome bool) (sp : SessionParams.t) :
  empty (SessionParams.modelPath sp) = false ->
  fs (SessionParams.modelPath sp) = Returns false ->
  SessionParams.validate fs sp
  = Returns (Failure KLlamaError.ModelNotFound
                     ("File not found: " ++ SessionParams.modelPath sp)).
Proof.
  intros He Hf. unfold SessionParams.validate, checkFileExists.
  rewrite He, Hf. reflexivity.
Qed.

(** The exception of the status query leaves [SessionParams::validate]. *)
Lemma validate_status_fails (fs : string -> Outcome bool) (sp : SessionParams.t)
    (e : Exception) :
  empty (SessionParams.modelPath sp) = false ->
  fs (SessionParams.modelPath sp) = Throws e ->
  SessionParams.validate fs sp = Throws e.
Proof.
  intros He Hf. unfold SessionParams.validate, checkFileExists.
  rewrite He, Hf. reflexivity.
Qed.

(** The automatic unwind: whatever [freeMemory] is run on, the session
    that comes out is uninitialized, idle and empty. *)
Ltac after_freeMemory :=
  match goal with
  | |- context [freeMemory ?x] =>
      let Hu := fresh "Hu" in
      pose proof (freeMemory_reaches_uninitialized_idle x) as Hu;
      destruct (freeMemory x) as [? ?]; simpl in *;
      split; [reflexivity | exact Hu]
  end.

(** Cancellation seen by the initial poll, before the backend is
    initialised: the state becomes [Cancelled], no handle changes and no
    acquiring call is made. *)
Lemma initialize_cancelled_at_initial_poll
    (eng : Engine) (sp : SessionParams.t) (cb : ProgressCallback)
    (tok : CancellationToken) (w : World) :
  initialized (self w) = false ->
  SessionParams.validate (fs_exists eng) sp = Returns (Success tt) ->
  tok (polls w) = true ->
  fst (initialize eng sp cb (Some tok) w)
    = Returns (Failure KLlamaError.OperationCancelled "")
  /\ generationState (self (snd (initialize eng sp cb (Some tok) w)))
     = GenerationState.Cancelled
  /\ (exists added,
        trace (snd (initialize eng sp cb (Some tok) w)) = (trace w ++ added)%list
        /\ existsb acquires added = false)
  /\ model (self (snd (initialize eng sp cb (Some tok) w))) = model (self w)
  /\ batch (self (snd (initialize eng sp cb (Some tok) w))) = batch (self w).
Proof.
  open_world w. intros -> Hv Ht.
  unfold initialize. run. rewrite Hv. simpl.
  destruct cb; simpl; rewrite Ht; simpl; repeat split; try reflexivity.
  - exists [Progress "Initializing backend"; Call_isCancelled true].
    split; [rewrite <- app_assoc|]; reflexivity.
  - exists [Call_isCancelled true]. split; reflexivity.
Qed.

(** The engine calls of a cancelled [initialize] on a session that held
    nothing. *)
Lemma initialize_cancelled_after_step_trace
    (eng : Engine) (sp : SessionParams.t) (cb : ProgressCallback)
    (tok : CancellationToken) (w : World) :
  initialized (self w) = false ->
  holds_no_resource (self w) ->
  SessionParams.validate (fs_exists eng) sp = Returns (Success tt) ->
  cancel_seen_after_model_load eng sp tok (polls w)
  \/ cancel_seen_after_vision_load eng sp tok (polls w) ->
  released_before_returning eng sp tok w (snd (initialize eng sp cb (Some tok) w)).
Proof.
  unfold cancel_seen_after_model_load, cancel_seen_after_vision_load,
    released_before_returning, holds_no_resource.
  open_world w. intros -> (-> & -> & -> & -> & ->) Hv H.
  unfold initialize, initializeModel, initializeVision. run. rewrite Hv. simpl.
  destruct H as [(H0 & (mh & Hm) & H1)
                | (H0 & H1 & H2 & He & (mh & ch & vh & Hm & Hc & Hvi))].
  - destruct cb; simpl; rewrite H0; simpl; rewrite Hm; simpl; rewrite H1; simpl;
      (eexists; split; [rewrite <- !app_assoc; reflexivity|]);
      (split;
       [ intros _ mh' Hm'; assert (mh' = mh) by congruence; subst mh';
         split; reflexivity
       | intros (_ & H1' & _); congruence ]).
  - destruct cb; simpl; rewrite H0; simpl; rewrite Hm; simpl; rewrite H1; simpl;
      rewrite Hc; simpl; rewrite He; simpl; rewrite Hvi; simpl; rewrite H2; simpl;
      (eexists; split; [rewrite <- !app_assoc; reflexivity|]);
      (split;
       [ intros (_ & _ & H1'); congruence
       | intros _ mh' ch' vh' Hm' Hc' Hv';
         assert (mh' = mh) by congruence; subst mh';
         assert (ch' = ch) by congruence; subst ch';
         assert (vh' = vh) by congruence; subst vh';
         split; reflexivity ]).
Qed.

(** C3 (amended).  When the flag is first seen set by a poll that follows a
    step (the model load, or the vision load), [initialize] returns
    [OperationCancelled] after unwinding through [freeMemory]: the session
    ends uninitialized, in the [Idle] state, holding no batch, sampler,
    context, model or vision handle.  On a session that held nothing
    before the call, the handles acquired in the call have been released
    by then: [llama_batch_free] and [llama_model_free] after the model
    load, and also [llama_free] and [mtmd_free] after the vision load;
    [llama_backend_free] is not called. *)
Theorem initialize_cancelled_after_step_unwinds
    (eng : Engine) (sp : SessionParams.t) (cb : ProgressCallback)
    (tok : CancellationToken) (w : World) :
  initialized (self w) = false ->
  SessionParams.validate (fs_exists eng) sp = Returns (Success tt) ->
  cancel_seen_after_model_load eng sp tok (polls w)
  \/ cancel_seen_after_vision_load eng sp tok (polls w) ->
  fst (initialize eng sp cb (Some tok) w)
    = Returns (Failure KLlamaError.OperationCancelled "")
  /\ uninitialized_idle (self (snd (initialize eng sp cb (Some tok) w)))
  /\ (holds_no_resource (self w) ->
      released_before_returning eng sp tok w (snd (initialize eng sp cb (Some tok) w))).
Proof.
  intros Hi Hv H.
  assert (Hu : fst (initialize eng sp cb (Some tok) w)
               = Returns (Failure KLlamaError.OperationCancelled "")
               /\ uninitialized_idle (self (snd (initialize eng sp cb (Some tok) w)))).
  { revert Hi Hv H.
    unfold cancel_seen_after_model_load, cancel_seen_after_vision_load.
    open_world w. intros -> Hv H.
    unfold initialize, initializeModel, initializeVision. run. rewrite Hv. simpl.
    destruct H as [(H0 & (mh & Hm) & H1)
                  | (H0 & H1 & H2 & He & (mh & ch & vh & Hm & Hc & Hvi))].
    - destruct cb; simpl; rewrite H0; simpl; rewrite Hm; simpl; rewrite H1; simpl;
        after_freeMemory.
    - destruct cb; simpl; rewrite H0; simpl; rewrite Hm; simpl; rewrite H1; simpl;
        rewrite Hc; simpl; rewrite He; simpl; rewrite Hvi; simpl;
        destruct k_vision; simpl; rewrite H2; simpl; after_freeMemory. }
  destruct Hu as [Hr Hu]. split; [exact Hr|]. split; [exact Hu|].
  intros Hh. apply initialize_cancelled_after_step_trace; assumption.
Qed.

(** C3 (as stated) fails: on [demo_engine] the flag is first seen set by
    the poll that follows the model load, and the call ends with the state
    [Idle] and the batch and model released, not with [Cancelled] and the
    resources in place. *)
Lemma initialize_cancel_after_model_load_releases :
  cancel_seen_after_model_load demo_engine demo_params cancelled_after_first_poll (polls fresh)
  /\ fst (initialize demo_engine demo_params false (Some cancelled_after_first_poll) fresh)
     = Returns (Failure KLlamaError.OperationCancelled "")
  /\ generationState
       (self (snd (initialize demo_engine demo_params false
                              (Some cancelled_after_first_poll) fresh)))
     = GenerationState.Idle
  /\ model (self (snd (initialize demo_engine demo_params false
                                  (Some cancelled_after_first_poll) fresh))) = None
  /\ token (batch (self (snd (initialize demo_engine demo_params false
                                         (Some cancelled_after_first_poll) fresh)))) = None
  /\ filter releases
            (trace (snd (initialize demo_engine demo_params false
                                    (Some cancelled_after_first_poll) fresh)))
     = [Call_batch_free; Call_model_free 1%nat]
  /\ ~ cancelled_with_resources_in_place demo_engine demo_params false
         cancelled_after_first_poll fresh.
Proof.
  split; [repeat split; [exists 1%nat; reflexivity]|].
  repeat split; try reflexivity.
  intros (_ & H & _). vm_compute in H. discriminate.
Qed.

(** Both poll points on [demo_engine]: after the model load (no projector
    configured) and after the vision load. *)
Lemma initialize_cancelled_after_step_unwinds_witness :
  (initialized (self fresh) = false
   /\ SessionParams.validate (fs_exists demo_engine) demo_params = Returns (Success tt)
   /\ cancel_seen_after_model_load demo_engine demo_params
        cancelled_after_first_poll (polls fresh)
   /\ SessionParams.validate (fs_exists demo_engine) vision_params = Returns (Success tt)
   /\ cancel_seen_after_vision_load demo_engine vision_params
        cancelled_after_second_poll (polls fresh)
   /\ holds_no_resource (self fresh))
  /\ (fst (initialize demo_engine demo_params true (Some cancelled_after_first_poll) fresh)
      = Returns (Failure KLlamaError.OperationCancelled "")
      /\ uninitialized_idle
           (self (snd (initialize demo_engine demo_params true
                                  (Some cancelled_after_first_poll) fresh)))
      /\ released_before_returning demo_engine demo_params cancelled_after_first_poll fresh
           (snd (initialize demo_engine demo_params true
                            (Some cancelled_after_first_poll) fresh)))
  /\ (fst (initialize demo_engine vision_params true (Some cancelled_after_second_poll) fresh)
      = Returns (Failure KLlamaError.OperationCancelled "")
      /\ uninitialized_idle
           (self (snd (initialize demo_engine vision_params true
                                  (Some cancelled_after_second_poll) fresh)))
      /\ released_before_returning demo_engine vision_params cancelled_after_second_poll
           fresh
           (snd (initialize demo_engine vision_params true
                            (Some cancelled_after_second_poll) fresh))).
Proof.
  assert (Hm : cancel_seen_after_model_load demo_engine demo_params
                 cancelled_after_first_poll (polls fresh))
    by (repeat split; exists 1%nat; reflexivity).
  assert (Hv : cancel_seen_after_vision_load demo_engine vision_params
                 cancelled_after_second_poll (polls fresh))
    by (repeat split; exists 1%nat, 2%nat, 3%nat; repeat split).
  assert (Hh : holds_no_resource (self fresh)) by (repeat split).
  split; [repeat split; try reflexivity; first [apply Hm | apply Hv]|].
  split.
  - destruct (initialize_cancelled_after_step_unwinds demo_engine demo_params true
                cancelled_after_first_poll fresh) as (Hr & Hu & Ht);
      [reflexivity | reflexivity | left; exact Hm |].
    split; [exact Hr|]. split; [exact Hu | exact (Ht Hh)].
  - destruct (initialize_cancelled_after_step_unwinds demo_engine vision_params true
                cancelled_after_second_poll fresh) as (Hr & Hu & Ht);
      [reflexivity | reflexivity | right; exact Hv |].
    split; [exact Hr|]. split; [exact Hu | exact (Ht Hh)].
Defined.

(** ** Generation: the precondition checks *)

Lemma generateResponseInternal_not_initialized
    (eng : Engine) (fuel : nat) (conversation : list MultimodalMessage)
    (sp : SamplingParams.t) (tcb : TokenCallback) (pcb : ProgressCallback)
    (tok : option CancellationToken) (w : World) :
  initialized (self w) = false ->
  generateResponseInternal eng fuel conversation sp tcb pcb tok w
  = (Some (Failure KLlamaError.NotInitialized "KLlama must be initialized before use"), w).
Proof. open_world w. intros ->. reflexivity. Qed.

(** The guard of KLlama.cpp:523: any state other than [Idle] is answered
    with "Generation already in progress", and nothing changes. *)
Lemma generateResponseInternal_guard
    (eng : Engine) (fuel : nat) (conversation : list MultimodalMessage)
    (sp : SamplingParams.t) (tcb : TokenCallback) (pcb : ProgressCallback)
    (tok : option CancellationToken) (w : World) :
  initialized (self w) = true ->
  generationState (self w) <> GenerationState.Idle ->
  generateResponseInternal eng fuel conversation sp tcb pcb tok w
  = (Some (Failure KLlamaError.InvalidParameters "Generation already in progress"), w).
Proof.
  open_world w. intros -> Hg.
  unfold generateResponseInternal, prepare_generation. run.
  match type of Hg with ?g <> _ => destruct g end;
    try reflexivity; contradiction.
Qed.

(** C1 (defect).  A call that ends normally leaves the state [Finished];
    nothing but [initialize] and [freeMemory] ever puts it back to [Idle].
    So on every initialized session whose state is [Finished], the next
    call, whatever its conversation, is answered by the guard with
    [InvalidParameters] "Generation already in progress" and changes
    nothing. *)
Theorem generateResponse_after_Finished_is_rejected
    (eng : Engine) (fuel : nat) (conversation : list MultimodalMessage)
    (sp : SamplingParams.t) (tcb : TokenCallback) (pcb : ProgressCallback)
    (tok : option CancellationToken) (w : World) :
  initialized (self w) = true ->
  generationState (self w) = GenerationState.Finished ->
  generateResponseInternal eng fuel conversation sp tcb pcb tok w
  = (Some (Failure KLlamaError.InvalidParameters "Generation already in progress"), w).
Proof.
  intros Hi Hg. apply generateResponseInternal_guard; [assumption|].
  rewrite Hg. discriminate.
Qed.

(** On [demo_engine]: the first call returns "Hello" and ends [Finished];
    the second call, with the same valid conversation, is rejected. *)
Lemma generateResponse_after_Finished_is_rejected_witness :
  (fst (generateResponse demo_engine 8 hello true false None demo_ready)
     = Some (Success "Hello")
   /\ initialized (self demo_finished) = true
   /\ generationState (self demo_finished) = GenerationState.Finished)
  /\ generateResponseInternal demo_engine 8 hello SamplingParams.default
       true false None demo_finished
     = (Some (Failure KLlamaError.InvalidParameters "Generation already in progress"),
        demo_finished).
Proof.
  split; [repeat split; reflexivity|].
  apply (generateResponse_after_Finished_is_rejected demo_engine 8 hello
           SamplingParams.default true false None demo_finished); reflexivity.
Defined.

Lemma tokens_delivered_app (a b : list Event) :
  tokens_delivered (a ++ b) = (tokens_delivered a ++ tokens_delivered b)%list.
Proof.
  induction a as [|e a IH]; [reflexivity|].
  destruct e; simpl; rewrite IH; reflexivity.
Qed.

(** C6 (as stated) fails on an initialized session that is not idle: on
    [demo_generating] (a generation is under way) and on [demo_finished]
    (a generation has completed) the guard answers before the flag is
    looked at. *)
Lemma generate_on_busy_session_is_not_cancelled :
  initialized (self demo_generating) = true
  /\ fst (generateResponseInternal demo_engine 8 hello SamplingParams.default
                                   true false (Some already_cancelled) demo_generating)
     = Some (Failure KLlamaError.InvalidParameters "Generation already in progress")
  /\ ~ cancelled_before_any_token demo_engine 8 hello SamplingParams.default
         true false already_cancelled demo_generating
  /\ initialized (self demo_finished) = true
  /\ ~ cancelled_before_any_token demo_engine 8 hello SamplingParams.default
         true false already_cancelled demo_finished.
Proof.
  repeat split; try reflexivity;
    intros (H & _); vm_compute in H; discriminate.
Qed.

(** C6 (amended).  On a [Ready] session (initialized and [Idle]), with a
    valid one-message conversation whose rendered prompt fits the buffer,
    and valid sampling parameters, when the flag is already set: if the
    engine hands out a sampler chain, the call returns
    [OperationCancelled], the state ends as [Cancelled], and the token
    callback receives nothing; if it hands out none, the call returns
    [SamplingFailed] without looking at the flag, and the state stays
    [Idle]. *)
Theorem generate_with_flag_set_is_cancelled
    (eng : Engine) (fuel : nat) (msg : MultimodalMessage)
    (sp : SamplingParams.t) (tcb : TokenCallback) (pcb : ProgressCallback)
    (tok : CancellationToken) (w : World) :
  ready (self w) ->
  valid_message eng (self w) msg ->
  SamplingParams.validate sp = Success tt ->
  tok (polls w) = true ->
  (llama_sampler_chain_init eng = true ->
   cancelled_before_any_token eng fuel [msg] sp tcb pcb tok w)
  /\ (llama_sampler_chain_init eng = false ->
      fails_without_sampler_chain eng fuel [msg] sp tcb pcb tok w).
Proof.
  unfold ready, valid_message, cancelled_before_any_token, fails_without_sampler_chain.
  intros (Hi & Hg) (Hv & Hvis & Ht0 & Ht1) Hs Hp.
  unfold generateResponseInternal, prepare_generation.
  open_world w. subst. run.
  rewrite app_nil_r, Hv.
  assert (Hn : negb match images msg with [] => true | _ => false end
               && is_null k_vision = false).
  { destruct Hvis as [-> | Hne]; [reflexivity|].
    destruct k_vision; [apply andb_false_r | contradiction]. }
  cbn [self visionContext]. rewrite Hn.
  split; intros Hc.
  - rewrite (configureSampler_run eng sp _ Hs Hc). cbn [isError error_of].
    unfold reset. run.
    apply Z.ltb_ge in Ht0, Ht1. rewrite Ht0, Ht1. cbn [polls]. rewrite Hp. simpl.
    repeat split.
    rewrite !tokens_delivered_app. simpl.
    destruct k_sampler; simpl; rewrite ?tokens_delivered_app; simpl;
      rewrite ?app_nil_r; reflexivity.
  - rewrite (configureSampler_without_chain eng sp _ Hs Hc). simpl.
    repeat split.
    destruct k_sampler; simpl; rewrite ?tokens_delivered_app; simpl;
      rewrite ?app_nil_r; reflexivity.
Qed.

Lemma generate_with_flag_set_is_cancelled_witness :
  (ready (self demo_ready)
   /\ valid_message demo_engine (self demo_ready) hello_message
   /\ valid_message chainless_engine (self demo_ready) hello_message
   /\ SamplingParams.validate SamplingParams.default = Success tt
   /\ already_cancelled (polls demo_ready) = true
   /\ llama_sampler_chain_init demo_engine = true
   /\ llama_sampler_chain_init chainless_engine = false)
  /\ cancelled_before_any_token demo_engine 8 [hello_message] SamplingParams.default
       true true already_cancelled demo_ready
  /\ fails_without_sampler_chain chainless_engine 8 [hello_message] SamplingParams.default
       true true already_cancelled demo_ready.
Proof.
  assert (Hm : valid_message demo_engine (self demo_ready) hello_message)
    by (repeat split; [left; reflexivity | vm_compute; discriminate
                       | vm_compute; discriminate]).
  assert (Hm' : valid_message chainless_engine (self demo_ready) hello_message)
    by exact Hm.
  split; [repeat split; try reflexivity; apply Hm|].
  split.
  - apply (generate_with_flag_set_is_cancelled demo_engine 8 hello_message
             SamplingParams.default true true already_cancelled demo_ready);
      [split; reflexivity | exact Hm | reflexivity | reflexivity | reflexivity].
  - apply (generate_with_flag_set_is_cancelled chainless_engine 8 hello_message
             SamplingParams.default true true already_cancelled demo_ready);
      [split; reflexivity | exact Hm' | reflexivity | reflexivity | reflexivity].
Defined.

(** ** The per-token loop *)

Lemma wrap_int32_small (z : Z) : INT32_MIN <= z <= INT32_MAX -> wrap_int32 z = z.
Proof.
  unfold INT32_MIN, INT32_MAX, wrap_int32. intros H.
  rewrite Z.mod_small by lia. lia.
Qed.

Lemma maxTokens_of_range (sp : SamplingParams.t) :
  int32_range (SamplingParams.nPredict sp) ->
  0 < maxTokens_of sp <= INT32_MAX.
Proof.
  unfold int32_range, maxTokens_of, INT32_MIN, INT32_MAX.
  destruct (0 <? SamplingParams.nPredict sp) eqn:E; [apply Z.ltb_lt in E|]; lia.
Qed.

(** The bound of the claim: [nPredict] when it is positive, 4096 otherwise. *)
Lemma maxTokens_of_cases (sp : SamplingParams.t) :
  (0 < SamplingParams.nPredict sp /\ maxTokens_of sp = SamplingParams.nPredict sp)
  \/ (SamplingParams.nPredict sp <= 0 /\ maxTokens_of sp = 4096).
Proof.
  unfold maxTokens_of.
  destruct (0 <? SamplingParams.nPredict sp) eqn:E;
    [apply Z.ltb_lt in E | apply Z.ltb_ge in E]; auto.
Qed.

(** The buffer of [tokenToString]. *)

Lemma write_into_length (buf bytes : list byte) :
  List.length (write_into buf bytes) = List.length buf.
Proof.
  unfold write_into. rewrite length_app, length_firstn, length_skipn. lia.
Qed.

Lemma resize_length (buf : list byte) (n : nat) :
  List.length (resize buf n) = n.
Proof.
  unfold resize. rewrite length_app, length_firstn, repeat_length. lia.
Qed.

Lemma write_into_fills (buf bytes : list byte) :
  List.length bytes = List.length buf -> write_into buf bytes = bytes.
Proof.
  intros H. unfold write_into. rewrite <- H, firstn_all, H, skipn_all.
  apply app_nil_r.
Qed.

Lemma firstn_write_into (buf bytes : list byte) :
  (List.length bytes <= List.length buf)%nat ->
  firstn (List.length bytes) (write_into buf bytes) = bytes.
Proof.
  intros H. unfold write_into.
  rewrite (firstn_all2 bytes) by assumption.
  rewrite firstn_app, firstn_all, Nat.sub_diag. simpl. apply app_nil_r.
Qed.

(** With [llama_token_to_piece], [tokenToString] always has a result:
    the text of the token when it has at most 32 bytes, the exception
    otherwise. *)
Lemma tokenToString_defined (eng : Engine) (id : Z) :
  (Z.of_nat (List.length (list_byte_of_string (token_piece eng id))) <= 32
   /\ tokenToString (llama_token_to_piece eng) id
      = Some (Returns (list_byte_of_string (token_piece eng id))))
  \/ (32 < Z.of_nat (List.length (list_byte_of_string (token_piece eng id)))
      /\ tokenToString (llama_token_to_piece eng) id = Some (Throws length_error)).
Proof.
  unfold tokenToString, llama_token_to_piece, wrap_uint64.
  set (piece := list_byte_of_string (token_piece eng id)).
  destruct (Z.of_nat (List.length piece) <=? 32) eqn:E; cbn [fst snd].
  - apply Z.leb_le in E. left. split; [exact E|].
    replace (Z.of_nat (List.length piece) <? 0) with false
      by (symmetry; apply Z.ltb_ge; lia).
    rewrite write_into_length, repeat_length.
    rewrite Z.mod_small by lia.
    replace (Z.of_nat (List.length piece) <=? Z.of_nat 32) with true
      by (symmetry; apply Z.leb_le; lia).
    rewrite Nat2Z.id. do 2 f_equal. apply firstn_write_into.
    rewrite repeat_length. lia.
  - apply Z.leb_gt in E. right. split; [exact E|].
    replace (- Z.of_nat (List.length piece) <? 0) with true
      by (symmetry; apply Z.ltb_lt; lia).
    reflexivity.
Qed.

Lemma generation_loop_bounded_gen
    (eng : Engine) (sp : SamplingParams.t) (tcb : TokenCallback) (pcb : ProgressCallback)
    (tok : option CancellationToken) (maxT : Z) :
  0 < maxT <= INT32_MAX ->
  forall (fuel : nat) (v : LoopVars) (w : World),
    0 <= tokenCount v <= maxT ->
    Z.of_nat (iterations v) = tokenCount v ->
    tokensGenerated (currentStats (self w)) <= maxT ->
    (Z.to_nat (maxT - tokenCount v) <= fuel)%nat ->
    exists exit v' w',
      generation_loop eng fuel sp tcb pcb tok maxT v w = (Some (exit, v'), w')
      /\ Z.of_nat (iterations v') <= maxT
      /\ tokensGenerated (currentStats (self w')) <= maxT.
Proof.
  intros HmaxT. induction fuel as [|fuel IH]; intros v w Htc Hit Hst Hfuel.
  - open_world w. simpl. run.
    destruct (GenerationState.eqb k_state GenerationState.Generating
              && (tokenCount v <? maxT)) eqn:Hc; simpl.
    + apply andb_prop in Hc. destruct Hc as [_ Hc]. apply Z.ltb_lt in Hc. lia.
    + do 3 eexists. split; [reflexivity|]. simpl. lia.
  - open_world w. simpl. run.
    destruct (GenerationState.eqb k_state GenerationState.Generating
              && (tokenCount v <? maxT)) eqn:Hc; simpl.
    2: { do 3 eexists. split; [reflexivity|]. simpl. lia. }
    apply andb_prop in Hc. destruct Hc as [_ Hc]. apply Z.ltb_lt in Hc.
    assert (Hw : wrap_int32 (tokenCount v + 1) = tokenCount v + 1)
      by (apply wrap_int32_small; unfold INT32_MIN, INT32_MAX in *; lia).
    assert (Hleaf : Z.of_nat (S (iterations v)) <= maxT) by lia.
    destruct tok as [t|]; simpl; [destruct (t w_polls); simpl|].
    1: { do 3 eexists. split; [reflexivity|]. simpl. lia. }
    all: destruct (llama_sampler_sample eng (iterations v) =? LLAMA_TOKEN_NULL eng); simpl;
      [do 3 eexists; split; [reflexivity|]; simpl; lia|];
      destruct (llama_vocab_is_eog eng (llama_sampler_sample eng (iterations v))); simpl;
      [do 3 eexists; split; [reflexivity|]; simpl; lia|];
      (destruct (tokenToString_defined eng (llama_sampler_sample eng (iterations v)))
         as [[_ Hts]|[_ Hts]]; rewrite Hts; simpl;
       [|do 3 eexists; split; [reflexivity|]; simpl; lia]);
      destruct tcb; simpl;
      (destruct (llama_decode eng (iterations v) =? 0); simpl;
       [|do 3 eexists; split; [reflexivity|]; simpl; rewrite ?Hw; lia]);
      destruct (pcb && (0 <? SamplingParams.nPredict sp)); simpl;
      apply IH; simpl; rewrite ?Hw; lia.
Qed.

(** *** From the start of the call to the loop *)

Lemma reaches_failure (e : KLlamaError.t) (msg : string) :
  reaches (ret (Some (Failure e msg))).
Proof. intros w p H. discriminate. Qed.

Lemma reaches_bind {A} (m : M A) (k : A -> M (option (KLlamaResult Z))) :
  (forall a, reaches (k a)) -> reaches (bind m k).
Proof.
  intros Hk w p. unfold bind. destruct (m w) as [a w1]. apply Hk.
Qed.

Lemma reaches_after_reset {A} (m : M A) (k : A -> M (option (KLlamaResult Z))) :
  (forall w, count_is_zero (self (snd (m w)))) ->
  (forall a, preserves count_is_zero (k a)) -> reaches (bind m k).
Proof.
  intros Hm Hk w p _. unfold bind. specialize (Hm w).
  destruct (m w) as [a w1]. apply Hk, Hm.
Qed.

Ltac reaches_step :=
  first
    [ apply reaches_failure
    | apply reaches_bind; intros ?
    | match goal with
      | |- reaches (if ?c then _ else _) => destruct c
      | |- reaches (match ?x with _ => _ end) => destruct x
      end ].

(** A call that reaches "Start generation" arrives there with the token
    counter of the statistics at 0 (the reset of KLlama.cpp:554). *)
Lemma prepare_generation_resets_stats
    (eng : Engine) (conversation : list MultimodalMessage) (sp : SamplingParams.t)
    (pcb : ProgressCallback) (tok : option CancellationToken) :
  reaches (prepare_generation eng conversation sp pcb tok).
Proof.
  unfold prepare_generation. cbv zeta.
  reaches_step. reaches_step; [reaches_step|].
  reaches_step. reaches_step; [reaches_step|].
  reaches_step; [reaches_step|].
  reaches_step; [destruct p; reaches_step|].
  reaches_step. reaches_step; [reaches_step|].
  reaches_step. reaches_step; [reaches_step|].
  reaches_step.
  apply reaches_after_reset; [intros w; reflexivity|intros _].
  repeat preserves_step.
Qed.

Lemma loop_start_world_count (pcb : ProgressCallback) (w0 : World) :
  tokensGenerated (currentStats (self (loop_start_world pcb w0)))
  = tokensGenerated (currentStats (self w0)).
Proof. destruct pcb; reflexivity. Qed.

(** C7.  For a call that reaches the per-token loop, with [nPredict] a
    32-bit integer and fuel for at least [token_budget] bodies: the loop
    ends, after at most [token_budget] executions of its body (that is
    [nPredict] of them when [nPredict > 0], 4096 otherwise), whatever the
    sampler, the vocabulary and the token say; [tokensGenerated] does not
    exceed the budget when the loop ends, nor when the call returns, which
    it always does. *)
Theorem generation_loop_terminates_within_budget
    (eng : Engine) (fuel : nat) (conversation : list MultimodalMessage)
    (sp : SamplingParams.t) (tcb : TokenCallback) (pcb : ProgressCallback)
    (tok : option CancellationToken) (w : World) (past0 : Z) :
  int32_range (SamplingParams.nPredict sp) ->
  (Z.to_nat (token_budget sp) <= fuel)%nat ->
  fst (prepare_generation eng conversation sp pcb tok w) = Some (Success past0) ->
  (exists exit v w1,
      generation_loop eng fuel sp tcb pcb tok (maxTokens_of sp) (loop_entry past0)
        (loop_start_world pcb (snd (prepare_generation eng conversation sp pcb tok w)))
      = (Some (exit, v), w1)
      /\ Z.of_nat (iterations v) <= token_budget sp
      /\ tokensGenerated (currentStats (self w1)) <= token_budget sp)
  /\ (exists r w',
        generateResponseInternal eng fuel conversation sp tcb pcb tok w = (Some r, w')
        /\ tokensGenerated (currentStats (self w')) <= token_budget sp).
Proof.
  intros Hr Hf Hp.
  pose proof (prepare_generation_resets_stats eng conversation sp pcb tok w past0 Hp) as H0.
  pose proof (maxTokens_of_range sp Hr) as Hm.
  change (token_budget sp) with (maxTokens_of sp) in *.
  unfold count_is_zero in H0.
  destruct (generation_loop_bounded_gen eng sp tcb pcb tok (maxTokens_of sp) Hm fuel
              (loop_entry past0)
              (loop_start_world pcb (snd (prepare_generation eng conversation sp pcb tok w))))
    as (exit & v & w1 & E & Hi & Ht).
  { simpl. lia. }
  { reflexivity. }
  { rewrite loop_start_world_count, H0. lia. }
  { simpl. rewrite Z.sub_0_r. exact Hf. }
  split; [exists exit, v, w1; auto|].
  unfold generateResponseInternal.
  rewrite bind_run, Hp, bind_run, bind_run, bind_run.
  fold (loop_start_world pcb (snd (prepare_generation eng conversation sp pcb tok w))).
  rewrite E. cbn [fst snd].
  destruct exit as [|r|e].
  - destruct pcb; (eexists; eexists; split; [reflexivity | simpl; exact Ht]).
  - exists r, w1. split; [reflexivity | exact Ht].
  - eexists; eexists; split; [reflexivity | simpl; exact Ht].
Qed.

Lemma generation_loop_terminates_within_budget_witness :
  (int32_range (SamplingParams.nPredict unlimited)
   /\ (Z.to_nat (token_budget unlimited) <= 4096)%nat
   /\ fst (prepare_generation endless_engine hello unlimited false None demo_ready)
      = Some (Success 3))
  /\ (exists exit v w1,
        generation_loop endless_engine 4096 unlimited true false None
          (maxTokens_of unlimited) (loop_entry 3)
          (loop_start_world false
             (snd (prepare_generation endless_engine hello unlimited false None demo_ready)))
        = (Some (exit, v), w1)
        /\ Z.of_nat (iterations v) <= token_budget unlimited
        /\ tokensGenerated (currentStats (self w1)) <= token_budget unlimited)
  /\ (exists r w',
        generateResponseInternal endless_engine 4096 hello unlimited true false None demo_ready
        = (Some r, w')
        /\ tokensGenerated (currentStats (self w')) <= token_budget unlimited).
Proof.
  assert (Hr : int32_range (SamplingParams.nPredict unlimited))
    by (unfold int32_range, INT32_MIN, INT32_MAX; simpl; lia).
  assert (Hf : (Z.to_nat (token_budget unlimited) <= 4096)%nat)
    by (vm_compute; reflexivity).
  split; [repeat split; [apply Hr | apply Hr | exact Hf]|].
  apply (generation_loop_terminates_within_budget endless_engine 4096 hello unlimited
           true false None demo_ready 3 Hr Hf).
  reflexivity.
Defined.

(** ** Sessions that the public calls can produce *)

(** Generation never clears the [initialized] flag. *)

Lemma generation_loop_stays_initialized
    (eng : Engine) (sp : SamplingParams.t) (tcb : TokenCallback) (pcb : ProgressCallback)
    (tok : option CancellationToken) (maxT : Z) (fuel : nat) (v : LoopVars) :
  preserves is_initialized (generation_loop eng fuel sp tcb pcb tok maxT v).
Proof.
  revert v. induction fuel as [|fuel IH]; intros v; simpl;
    repeat first [apply IH | preserves_step].
Qed.

Lemma configureSampler_stays_initialized (eng : Engine) (sp : SamplingParams.t) :
  preserves is_initialized (configureSampler eng sp).
Proof. unfold configureSampler. cbv zeta. repeat preserves_step. Qed.

Lemma generateResponseInternal_stays_initialized
    (eng : Engine) (fuel : nat) (conversation : list MultimodalMessage)
    (sp : SamplingParams.t) (tcb : TokenCallback) (pcb : ProgressCallback)
    (tok : option CancellationToken) :
  preserves is_initialized (generateResponseInternal eng fuel conversation sp tcb pcb tok).
Proof.
  unfold generateResponseInternal, prepare_generation.
  repeat first [ apply generation_loop_stays_initialized
               | apply configureSampler_stays_initialized
               | preserves_step ].
Qed.

Lemma session_invariant_fresh : session_invariant KLlama_new.
Proof. intros _. repeat split; reflexivity. Qed.

Lemma freeMemory_invariant (w : World) : session_invariant (self (snd (freeMemory w))).
Proof.
  destruct (freeMemory_reaches_uninitialized_idle w) as (_ & Hg & Hs & Hh).
  intros _. split; [exact Hh | congruence].
Qed.

Lemma reset_self (w : World) : self (snd (reset w)) = self w.
Proof. open_world w. unfold reset. run. handle_cases; reflexivity. Qed.

Lemma generateResponseInternal_invariant
    (eng : Engine) (fuel : nat) (conversation : list MultimodalMessage)
    (sp : SamplingParams.t) (tcb : TokenCallback) (pcb : ProgressCallback)
    (tok : option CancellationToken) (w : World) :
  session_invariant (self w) ->
  session_invariant
    (self (snd (generateResponseInternal eng fuel conversation sp tcb pcb tok w))).
Proof.
  intros H. destruct (initialized (self w)) eqn:Hi.
  - pose proof (generateResponseInternal_stays_initialized eng fuel conversation sp
                  tcb pcb tok w Hi) as Hk.
    unfold is_initialized in Hk. intros Hf. congruence.
  - rewrite generateResponseInternal_not_initialized by exact Hi. exact H.
Qed.

Ltac invariant_leaf :=
  first
    [ match goal with
      | |- context [freeMemory ?x] =>
          let Hu := fresh "Hu" in
          pose proof (freeMemory_invariant x) as Hu;
          destruct (freeMemory x) as [? ?]; exact Hu
      end
    | intros Hf; discriminate Hf
    | intros _; repeat split; reflexivity ].

Lemma initialize_invariant
    (eng : Engine) (sp : SessionParams.t) (cb : ProgressCallback)
    (tok : option CancellationToken) (w : World) :
  session_invariant (self w) ->
  session_invariant (self (snd (initialize eng sp cb tok w))).
Proof.
  intros H. destruct (initialized (self w)) eqn:Hi.
  - rewrite initialize_already_initialized by exact Hi. exact H.
  - destruct (H Hi) as ((Hb & Hs & Hc & Hm & Hv) & Hst).
    open_world w. subst.
    unfold initialize, initializeModel, initializeVision. run.
    destruct (SessionParams.validate (fs_exists eng) sp) as [validation|e]; simpl;
      [|intros _; repeat split; reflexivity].
    destruct (isError validation); simpl; [intros _; repeat split; reflexivity|].
    destruct cb; simpl;
      (destruct tok as [t|]; simpl;
       [destruct (t w_polls); simpl; [invariant_leaf|]|]);
      (destruct (llama_model_load_from_file eng (SessionParams.modelPath sp)) as [mh|];
       simpl; [|invariant_leaf]);
      try (destruct (t (S w_polls)); simpl; [invariant_leaf|]);
      (destruct (llama_init_from_model eng mh); simpl; [|invariant_leaf]);
      (destruct (empty (SessionParams.mmprojPath sp)); simpl; [invariant_leaf|]);
      (destruct (mtmd_init_from_file eng (SessionParams.mmprojPath sp)); simpl;
       [|invariant_leaf]);
      try (destruct (t (S (S w_polls))); simpl; [invariant_leaf|]);
      invariant_leaf.
Qed.

(** Every uninitialized session that the public calls can produce holds no
    engine resource. *)
Lemma reachable_invariant (eng : Engine) (w : World) :
  reachable eng w -> session_invariant (self w).
Proof.
  induction 1 as [tr n | c w Hr IH]; [apply session_invariant_fresh|].
  destruct c; simpl.
  - apply initialize_invariant, IH.
  - apply freeMemory_invariant.
  - rewrite reset_self. exact IH.
  - unfold generateResponse. rewrite bind_run.
    apply generateResponseInternal_invariant, IH.
  - apply generateResponseInternal_invariant, IH.
Qed.

(** A missing model file, in general.  On an uninitialized session,
    [initialize] with a model path that is not empty and names a file
    which does not exist leaves the whole world as it was: no field of the
    object changes (it stays uninitialized) and no call reaches the
    engine.  When the file system can tell that the file is absent, the
    call returns [ModelNotFound]; when the status of the path cannot be
    determined, it returns nothing: the exception of
    [std::filesystem::exists] leaves it.  On every session that the public
    calls can produce, a teardown after that has nothing to release: it
    succeeds without any engine call and does nothing but set the
    generation state to [Idle], so that it changes nothing at all when the
    state is [Idle] already (as on a fresh or torn-down session). *)
Theorem initialize_missing_model_touches_nothing
    (eng : Engine) (sp : SessionParams.t) (cb : ProgressCallback)
    (tok : option CancellationToken) (w : World) :
  initialized (self w) = false ->
  empty (SessionParams.modelPath sp) = false ->
  file_exists eng (SessionParams.modelPath sp) = false ->
  initialize eng sp cb tok w
    = (if status_fails eng (SessionParams.modelPath sp)
       then Throws (filesystem_error (SessionParams.modelPath sp))
       else Returns (Failure KLlamaError.ModelNotFound
                             ("File not found: " ++ SessionParams.modelPath sp)),
       w)
  /\ initialized (self (snd (initialize eng sp cb tok w))) = false
  /\ (reachable eng w ->
        freeMemory (snd (initialize eng sp cb tok w))
          = (Success tt, snd (setGenerationState GenerationState.Idle w))
        /\ (generationState (self w) = GenerationState.Idle ->
            freeMemory (snd (initialize eng sp cb tok w)) = (Success tt, w))).
Proof.
  intros Hi He Hf.
  assert (E : initialize eng sp cb tok w
              = (if status_fails eng (SessionParams.modelPath sp)
                 then Throws (filesystem_error (SessionParams.modelPath sp))
                 else Returns (Failure KLlamaError.ModelNotFound
                                       ("File not found: " ++ SessionParams.modelPath sp)),
                 w)).
  { unfold initialize. unfold bind at 1. unfold get. rewrite Hi.
    destruct (status_fails eng (SessionParams.modelPath sp)) eqn:Hs.
    - rewrite (validate_status_fails _ _ (filesystem_error (SessionParams.modelPath sp)) He)
        by (unfold fs_exists; rewrite Hs; reflexivity).
      reflexivity.
    - rewrite (validate_missing_model _ _ He)
        by (unfold fs_exists; rewrite Hs, Hf; reflexivity).
      reflexivity. }
  rewrite E. cbn [fst snd]. split; [reflexivity|]. split; [assumption|].
  intros Hr. apply reachable_invariant in Hr.
  destruct (Hr Hi) as ((Hb & Hs & Hc & Hm & Hv) & Hst).
  open_world w. subst. split; [reflexivity|].
  intros ->. reflexivity.
Qed.

(** C5 (defect).  The claim asks [initialize] to return [ModelNotFound]
    for every model path that names no file.  The model path of
    [long_name_params], a name of 300 characters, names no file, and
    [initialize] returns nothing: [checkFileExists] asks
    [std::filesystem::exists] without an error code, the status query on
    such a name fails, and neither [checkFileExists], nor
    [SessionParams::validate], nor [initialize] catches the exception.
    Nothing has been touched by then.  On the same engine the absent
    [missing.gguf], whose status can be determined, gives [ModelNotFound]
    ([initialize_missing_model_touches_nothing] has the general
    statement). *)
Theorem initialize_missing_model_may_throw :
  empty (SessionParams.modelPath long_name_params) = false
  /\ file_exists demo_engine (SessionParams.modelPath long_name_params) = false
  /\ checkFileExists (fs_exists demo_engine) long_name
     = Throws (filesystem_error long_name)
  /\ initialize demo_engine long_name_params false None fresh
     = (Throws (filesystem_error long_name), fresh)
  /\ ~ reports_missing_model demo_engine long_name_params false None fresh
  /\ initialize demo_engine missing_params false None fresh
     = (Returns (Failure KLlamaError.ModelNotFound "File not found: missing.gguf"), fresh).
Proof.
  split; [reflexivity|]. split; [reflexivity|].
  split; [vm_compute; reflexivity|].
  assert (E : initialize demo_engine long_name_params false None fresh
              = (Throws (filesystem_error long_name), fresh))
    by (vm_compute; reflexivity).
  split; [exact E|].
  split; [|vm_compute; reflexivity].
  intros [msg H]. rewrite E in H. discriminate H.
Qed.

Lemma initialize_missing_model_touches_nothing_witness :
  (initialized (self fresh) = false
   /\ empty (SessionParams.modelPath missing_params) = false
   /\ file_exists demo_engine (SessionParams.modelPath missing_params) = false)
  /\ initialize demo_engine missing_params true None fresh
     = (Returns (Failure KLlamaError.ModelNotFound "File not found: missing.gguf"), fresh)
  /\ freeMemory (snd (initialize demo_engine missing_params true None fresh))
     = (Success tt, fresh).
Proof.
  split; [repeat split; reflexivity|].
  destruct (initialize_missing_model_touches_nothing demo_engine missing_params true None fresh)
    as (Hr & _ & Hf); try reflexivity.
  split; [exact Hr|].
  apply Hf; [apply reachable_fresh | reflexivity].
Defined.

(** ** The code on concrete inputs *)

(** The image scenarios of the specification. *)
Example image_four_zero_bytes :
  validateImageData {| data := [x00; x00; x00; x00] |}
  = Failure KLlamaError.ImageProcessingFailed "Image data too small".
Proof. reflexivity. Qed.

Example image_png :
  validateImageData {| data := [x89; x50; x4e; x47; x0d; x0a; x1a; x0a] |}
  = Success [x89; x50; x4e; x47; x0d; x0a; x1a; x0a].
Proof. reflexivity. Qed.

Example image_jpeg :
  validateImageData {| data := [xff; xd8; xff; xe0; x00; x10; x4a; x46] |}
  = Success [xff; xd8; xff; xe0; x00; x10; x4a; x46].
Proof. reflexivity. Qed.

Example image_short_jpeg :
  validateImageData {| data := [xff; xd8; xff; xe0] |}
  = Failure KLlamaError.ImageProcessingFailed "Image data too small".
Proof. reflexivity. Qed.

Example image_unknown_signature :
  validateImageData {| data := [x00; x01; x02; x03; x04; x05; x06; x07] |}
  = Failure KLlamaError.ImageProcessingFailed "Unsupported image format".
Proof. reflexivity. Qed.

(** The default parameters are valid and give the full probabilistic
    chain; temperature 0 gives penalties and greedy only. *)
Example default_parameters_valid :
  SamplingParams.validate SamplingParams.default = Success tt.
Proof. reflexivity. Qed.

Example default_pipeline :
  spec_pipeline 4294967295 SamplingParams.default
  = [Penalties 64 f32_1_1 f32_0_0 f32_0_0; TopK 40; TopP f32_0_9 1;
     MinP f32_0_05 1; Temp f32_0_7; Dist 4294967295].
Proof. reflexivity. Qed.

Example greedy_pipeline :
  spec_pipeline 4294967295 (SamplingParams.set_temperature f32_0_0 SamplingParams.default)
  = [Penalties 64 f32_1_1 f32_0_0 f32_0_0; Greedy].
Proof. reflexivity. Qed.

(** A second [initialize] without teardown is refused. *)
Example initialize_twice :
  fst (initialize demo_engine demo_params false None demo_ready)
  = Returns (Failure KLlamaError.AlreadyInitialized "").
Proof. reflexivity. Qed.

(** With an unlimited budget and a model that never ends its answer, the
    call stops by itself after 4096 tokens, in the [Finished] state. *)
Example endless_model_stops_at_4096 :
  tokensGenerated
    (currentStats
       (self (snd (generateResponseInternal endless_engine 4096 hello unlimited
                                            false false None demo_ready)))) = 4096
  /\ generationState
       (self (snd (generateResponseInternal endless_engine 4096 hello unlimited
                                            false false None demo_ready)))
     = GenerationState.Finished.
Proof. split; vm_compute; reflexivity. Qed.

(** With a budget of 5, after 5 tokens. *)
Example endless_model_stops_at_budget :
  fst (generateResponseInternal endless_engine 5 hello five_tokens true false None demo_ready)
  = Some (Success "aaaaa").
Proof. vm_compute. reflexivity. Qed.

(** Cancelling [initialize] after the model load releases the batch and
    the model but leaves the backend initialised: [freeMemory] frees the
    backend only when [initialized] is set. *)
Example cancelled_initialize_trace :
  trace (snd (initialize demo_engine demo_params false
                         (Some cancelled_after_first_poll) fresh))
  = [Call_isCancelled false; Call_backend_init; Call_batch_init 1;
     Call_model_load "model.gguf"; Call_isCancelled true;
     Call_batch_free; Call_model_free 1%nat].
Proof. reflexivity. Qed.

(** * Properties of the rest of the class *)

(** ** Error texts *)

(** X1.  [errorToString] tells the error kinds apart: two kinds have the
    same text exactly when they are the same kind, and no text is empty. *)
Theorem errorToString_distinguishes (a b : KLlamaError.t) :
  String.eqb (errorToString a) (errorToString b) = KLlamaError.eqb a b
  /\ String.eqb (errorToString a) "" = false.
Proof. split; destruct a; try reflexivity; destruct b; reflexivity. Qed.

(** ** Session parameters *)

Lemma SamplingParams_validate_kinds (p : SamplingParams.t) :
  SamplingParams.validate p = Success tt
  \/ exists msg, SamplingParams.validate p = Failure KLlamaError.InvalidParameters msg.
Proof.
  unfold SamplingParams.validate.
  repeat match goal with
         | |- context [if ?c then _ else _] => destruct c; [right; eexists; reflexivity|]
         end.
  left; reflexivity.
Qed.

(** X2.  [SessionParams::validate] succeeds exactly when the model path is
    not empty and is found by [std::filesystem::exists], the projector
    path is empty or is found, context size, batch size and thread count
    are positive and the embedded sampling parameters validate.  It
    returns [ModelNotFound] exactly for a non-empty model path for which
    [exists] answers [false], and [MmprojNotFound] exactly when the model
    is found and a projector path is given for which [exists] answers
    [false].  It throws exactly when [exists] throws on the model path, or
    on the projector path once the model is found, and the exception is
    that one.  In every other case it returns [InvalidParameters]. *)
Theorem SessionParams_validate_outcomes
    (fs : string -> Outcome bool) (sp : SessionParams.t) :
  (SessionParams.validate fs sp = Returns (Success tt) <-> session_params_ok fs sp = true)
  /\ (returned_error (SessionParams.validate fs sp) = Some KLlamaError.ModelNotFound
      <-> empty (SessionParams.modelPath sp) = false
          /\ fs (SessionParams.modelPath sp) = Returns false)
  /\ (returned_error (SessionParams.validate fs sp) = Some KLlamaError.MmprojNotFound
      <-> empty (SessionParams.modelPath sp) = false
          /\ fs (SessionParams.modelPath sp) = Returns true
          /\ empty (SessionParams.mmprojPath sp) = false
          /\ fs (SessionParams.mmprojPath sp) = Returns false)
  /\ (forall e,
        SessionParams.validate fs sp = Throws e
        <-> empty (SessionParams.modelPath sp) = false
            /\ (fs (SessionParams.modelPath sp) = Throws e
                \/ (fs (SessionParams.modelPath sp) = Returns true
                    /\ empty (SessionParams.mmprojPath sp) = false
                    /\ fs (SessionParams.mmprojPath sp) = Throws e)))
  /\ (SessionParams.validate fs sp = Returns (Success tt)
      \/ returned_error (SessionParams.validate fs sp) = Some KLlamaError.ModelNotFound
      \/ returned_error (SessionParams.validate fs sp) = Some KLlamaError.MmprojNotFound
      \/ returned_error (SessionParams.validate fs sp) = Some KLlamaError.InvalidParameters
      \/ exists e, SessionParams.validate fs sp = Throws e).
Proof.
  unfold SessionParams.validate, session_params_ok, checkFileExists, found.
  rewrite !Z.ltb_antisym.
  destruct (SamplingParams_validate_kinds (SessionParams.sampling sp)) as [-> | [msg ->]];
    destruct (empty (SessionParams.modelPath sp)),
      (fs (SessionParams.modelPath sp)) as [[|]|e1],
      (empty (SessionParams.mmprojPath sp)),
      (fs (SessionParams.mmprojPath sp)) as [[|]|e2],
      (SessionParams.contextSize sp <=? 0), (SessionParams.batch sp <=? 0),
      (SessionParams.threads sp <=? 0); simpl;
    (split; [|split; [|split; [|split]]]);
    try (intros e);
    try solve [intuition (try discriminate; try congruence)];
    try solve [eauto 6].
Qed.

(** ** Images of a conversation *)

Lemma validate_images_cases (allImages : list ImageData) :
  (validate_images allImages = None /\ Forall accepted_image allImages)
  \/ (exists before image after msg,
        allImages = (before ++ image :: after)%list
        /\ Forall accepted_image before
        /\ ~ accepted_image image
        /\ validateImageData image = Failure KLlamaError.ImageProcessingFailed msg
        /\ validate_images allImages = Some (KLlamaError.ImageProcessingFailed, msg)).
Proof.
  induction allImages as [|image rest IH]; [left; split; [reflexivity | constructor]|].
  cbn [validate_images].
  destruct (validateImageData_cases image) as [[Hs Ha]|[[msg Hf] Hna]].
  - rewrite Hs. cbn [isError].
    destruct IH as [[Hn Hall]|(before & bad & after & msg & -> & Hb & Hbad & Hv & Hr)].
    + left. split; [assumption | constructor; assumption].
    + right. exists (image :: before), bad, after, msg.
      repeat split; try assumption. constructor; assumption.
  - rewrite Hf. cbn [isError error_of errorMessage_of].
    right. exists [], image, rest, msg. repeat split; try assumption. constructor.
Qed.

Lemma Forall_extractAllImages (P : ImageData -> Prop) (conversation : list MultimodalMessage) :
  Forall P (extractAllImages conversation)
  <-> Forall (fun message => Forall P (images message)) conversation.
Proof.
  induction conversation as [|message rest IH]; cbn [extractAllImages].
  - split; intros _; constructor.
  - rewrite Forall_app, IH. split.
    + intros [H1 H2]. constructor; assumption.
    + intros H. inversion H; subst. split; assumption.
Qed.

(** X3.  The image check that opens a generation passes exactly when every
    image of every message of the conversation is accepted by
    [validateImageData]; otherwise the error reported is the one of the
    first rejected image, in the order of the conversation, and its kind
    is [ImageProcessingFailed]. *)
Theorem conversation_images_checked (conversation : list MultimodalMessage) :
  (validate_images (extractAllImages conversation) = None
   <-> Forall (fun message => Forall accepted_image (images message)) conversation)
  /\ (validate_images (extractAllImages conversation) = None
      \/ exists before image after msg,
           extractAllImages conversation = (before ++ image :: after)%list
           /\ Forall accepted_image before
           /\ ~ accepted_image image
           /\ validateImageData image = Failure KLlamaError.ImageProcessingFailed msg
           /\ validate_images (extractAllImages conversation)
              = Some (KLlamaError.ImageProcessingFailed, msg)).
Proof.
  rewrite <- Forall_extractAllImages.
  destruct (validate_images_cases (extractAllImages conversation))
    as [[Hn Hall]|(before & bad & after & msg & Heq & Hb & Hbad & Hv & Hr)].
  - split; [split; intros _; assumption | left; assumption].
  - split.
    + split; intros H; [rewrite Hr in H; discriminate|].
      rewrite Heq in H. apply Forall_app in H as [_ H].
      inversion H; subst. contradiction.
    + right. exists before, bad, after, msg. repeat split; assumption.
Qed.

(** ** The shape of the sampler chain *)

Lemma sampler_after_configureSampler (eng : Engine) (p : SamplingParams.t) (w : World) :
  SamplingParams.validate p = Success tt ->
  llama_sampler_chain_init eng = true ->
  sampler (self (snd (configureSampler eng p w)))
  = Some (spec_pipeline (LLAMA_DEFAULT_SEED eng) p).
Proof.
  intros Hv Hi. rewrite (configureSampler_run eng p w Hv Hi). reflexivity.
Qed.

(** X4.  On validated parameters the chain that [configureSampler] builds
    has exactly one token-selecting stage (greedy or seeded distribution)
    and it is the last one: greedy exactly when the temperature is at most
    0.01, and otherwise the distribution stage, directly preceded by the
    temperature stage. *)
Theorem configureSampler_chain_ends_with_selector
    (eng : Engine) (p : SamplingParams.t) (w : World) :
  SamplingParams.validate p = Success tt ->
  llama_sampler_chain_init eng = true ->
  exists filters final,
    sampler (self (snd (configureSampler eng p w))) = Some (filters ++ [final])%list
    /\ selects final = true
    /\ existsb selects filters = false
    /\ (final = Greedy <-> fle (SamplingParams.temperature p) f32_0_01 = true)
    /\ (fle (SamplingParams.temperature p) f32_0_01 = false ->
        final = Dist (LLAMA_DEFAULT_SEED eng)
        /\ exists before, filters = (before ++ [Temp (SamplingParams.temperature p)])%list).
Proof.
  intros Hv Hi. rewrite (sampler_after_configureSampler eng p w Hv Hi).
  exists (removelast (spec_pipeline (LLAMA_DEFAULT_SEED eng) p)),
         (last (spec_pipeline (LLAMA_DEFAULT_SEED eng) p) Greedy).
  unfold spec_pipeline.
  destruct (fne (SamplingParams.repeatPenalty p) f32_1_0);
    destruct (fle (SamplingParams.temperature p) f32_0_01);
    try (simpl; repeat split; intros; solve [reflexivity | congruence]);
    destruct (0 <? SamplingParams.topK p);
    destruct (fgt (SamplingParams.typicalP p) f32_0_0 && flt (SamplingParams.typicalP p) f32_1_0);
    destruct (fgt (SamplingParams.topP p) f32_0_0 && flt (SamplingParams.topP p) f32_1_0);
    destruct (fgt (SamplingParams.minP p) f32_0_0);
    (simpl; repeat (first [split | intro]); try solve [reflexivity | congruence];
     match goal with
     | |- exists before, ?l = _ => exists (removelast l); reflexivity
     end).
Qed.

Lemma configureSampler_chain_ends_with_selector_witness :
  exists filters final,
    sampler (self (snd (configureSampler demo_engine SamplingParams.default fresh)))
    = Some (filters ++ [final])%list
    /\ selects final = true
    /\ existsb selects filters = false
    /\ (final = Greedy <-> fle (SamplingParams.temperature SamplingParams.default) f32_0_01 = true)
    /\ (fle (SamplingParams.temperature SamplingParams.default) f32_0_01 = false ->
        final = Dist (LLAMA_DEFAULT_SEED demo_engine)
        /\ exists before,
             filters = (before ++ [Temp (SamplingParams.temperature SamplingParams.default)])%list).
Proof.
  apply (configureSampler_chain_ends_with_selector demo_engine SamplingParams.default fresh);
    reflexivity.
Defined.

(** X5.  With a temperature of at most 0.01 the chain is the optional
    penalties stage followed by greedy selection, whatever top-k, top-p,
    min-p, typical-p and the token limit are: two validated parameter sets
    that agree on the temperature and the penalty fields give the same
    chain. *)
Theorem greedy_chain_ignores_filters
    (eng : Engine) (p q : SamplingParams.t) (w : World) :
  SamplingParams.validate p = Success tt ->
  SamplingParams.validate q = Success tt ->
  llama_sampler_chain_init eng = true ->
  fle (SamplingParams.temperature p) f32_0_01 = true ->
  same_penalties_and_temperature p q ->
  sampler (self (snd (configureSampler eng p w)))
  = sampler (self (snd (configureSampler eng q w)))
  /\ exists penalties,
       sampler (self (snd (configureSampler eng p w))) = Some (penalties ++ [Greedy])%list
       /\ (List.length penalties <= 1)%nat.
Proof.
  intros Hp Hq Hi Ht (Et & Er & El & Ef & Ep).
  rewrite (sampler_after_configureSampler eng p w Hp Hi),
          (sampler_after_configureSampler eng q w Hq Hi).
  unfold spec_pipeline. rewrite <- Et, <- Er, <- El, <- Ef, <- Ep, Ht.
  split; [reflexivity|].
  destruct (fne (SamplingParams.repeatPenalty p) f32_1_0);
    eexists; (split; [reflexivity | simpl; lia]).
Qed.

Lemma greedy_chain_ignores_filters_witness :
  sampler (self (snd (configureSampler demo_engine greedy_params fresh)))
  = sampler (self (snd (configureSampler demo_engine greedy_bare_params fresh)))
  /\ exists penalties,
       sampler (self (snd (configureSampler demo_engine greedy_params fresh)))
       = Some (penalties ++ [Greedy])%list
       /\ (List.length penalties <= 1)%nat.
Proof.
  apply (greedy_chain_ignores_filters demo_engine greedy_params greedy_bare_params fresh);
    try reflexivity.
  repeat split.
Defined.

(** ** The buffer of [tokenToString] *)

(** X6.  [tokenToString] gives the text of the token when the engine
    reports between 0 and 32 bytes.  When the piece does not fit the 32
    bytes and the engine answers with a negative length, the buffer is
    enlarged and filled, but the string is then built with that negative
    length converted to [size_t]: no text comes out, the constructor
    throws [std::length_error].  A length above 32 makes the constructor
    read past the buffer. *)
Theorem tokenToString_long_piece_throws
    (to_piece : Z -> Z -> Z * list byte) (token : Z) :
  int32_range (fst (to_piece token 32)) ->
  (fst (to_piece token 32) < 0 ->
   tokenToString to_piece token = Some (Throws length_error))
  /\ (32 < fst (to_piece token 32) -> tokenToString to_piece token = None)
  /\ (0 <= fst (to_piece token 32) <= 32 ->
      Z.of_nat (List.length (snd (to_piece token 32))) = fst (to_piece token 32) ->
      tokenToString to_piece token = Some (Returns (snd (to_piece token 32)))).
Proof.
  unfold int32_range, INT32_MIN, INT32_MAX, tokenToString, wrap_uint64.
  set (n := fst (to_piece token 32)). intros Hr.
  split; [|split].
  - intros Hn. replace (n <? 0) with true by (symmetry; apply Z.ltb_lt; assumption).
    reflexivity.
  - intros Hn. replace (n <? 0) with false by (symmetry; apply Z.ltb_ge; lia).
    rewrite write_into_length, repeat_length.
    rewrite Z.mod_small by lia.
    replace (n <=? Z.of_nat 32) with false; [reflexivity|].
    symmetry. apply Z.leb_gt. lia.
  - intros Hn Hl. replace (n <? 0) with false by (symmetry; apply Z.ltb_ge; lia).
    rewrite write_into_length, repeat_length.
    rewrite Z.mod_small by lia.
    replace (n <=? Z.of_nat 32) with true by (symmetry; apply Z.leb_le; lia).
    do 2 f_equal. rewrite <- Hl, Nat2Z.id. apply firstn_write_into.
    rewrite repeat_length. lia.
Qed.

Lemma tokenToString_long_piece_throws_witness :
  (fst (demo_to_piece 2 32) < 0 ->
   tokenToString demo_to_piece 2 = Some (Throws length_error))
  /\ (32 < fst (demo_to_piece 2 32) -> tokenToString demo_to_piece 2 = None)
  /\ (0 <= fst (demo_to_piece 2 32) <= 32 ->
      Z.of_nat (List.length (snd (demo_to_piece 2 32))) = fst (demo_to_piece 2 32) ->
      tokenToString demo_to_piece 2 = Some (Returns (snd (demo_to_piece 2 32)))).
Proof.
  apply (tokenToString_long_piece_throws demo_to_piece 2).
  unfold int32_range, INT32_MIN, INT32_MAX. simpl. lia.
Defined.

Example tokenToString_short_piece :
  tokenToString demo_to_piece 1 = Some (Returns short_piece).
Proof. reflexivity. Qed.

Example tokenToString_long_piece :
  tokenToString demo_to_piece 2 = Some (Throws length_error).
Proof. reflexivity. Qed.

(** ** The static validators *)

Lemma stack_header_length (files : Files) :
  List.length (firstn 4 (stack_bytes files ++ repeat x00 4)) = 4%nat.
Proof. rewrite length_firstn, length_app, repeat_length. lia. Qed.

Lemma read_header_full (files : Files) (content : list byte) :
  (4 <= List.length content)%nat -> read_header files content = firstn 4 content.
Proof.
  intros H. unfold read_header. apply write_into_fills.
  rewrite stack_header_length, length_firstn. lia.
Qed.

Lemma read_header_short (files : Files) (content : list byte) :
  (List.length content < 4)%nat ->
  read_header files content
  = (content ++ skipn (List.length content)
                      (firstn 4 (stack_bytes files ++ repeat x00 4)))%list.
Proof.
  intros H. unfold read_header, write_into.
  rewrite stack_header_length.
  rewrite (firstn_all2 content) by lia.
  rewrite (firstn_all2 content) by lia. reflexivity.
Qed.

Lemma validateMmproj_opened (eng : Engine) (files : Files) (path : string)
    (content : list byte) :
  fs_exists eng path = Returns true ->
  open_binary files path = Some content ->
  (validateMmproj eng files path = Returns (Success tt)
   /\ read_header files content = GGUF_magic)
  \/ (validateMmproj eng files path
      = Returns (Failure KLlamaError.MmprojInvalid
                         "Invalid mmproj format - not a GGUF file")
      /\ read_header files content <> GGUF_magic).
Proof.
  intros Hf Ho. unfold validateMmproj, checkFileExists, bytes_eqb.
  rewrite Hf, Ho. simpl.
  destruct (list_eq_dec byte_eq_dec (read_header files content) GGUF_magic);
    [left | right]; split; trivial.
Qed.

(** X7.  [validateMmproj] on a file that is found and opens: when the file
    has at least four bytes it is accepted exactly when these are the
    ASCII letters GGUF; nothing after them is looked at.  A file shorter
    than four bytes is compared together with what the uninitialised
    header array held after the bytes read.  Every rejection is
    [MmprojInvalid]. *)
Theorem validateMmproj_checks_magic_only
    (eng : Engine) (files : Files) (path : string) (content : list byte) :
  fs_exists eng path = Returns true ->
  open_binary files path = Some content ->
  ((4 <= List.length content)%nat ->
   (validateMmproj eng files path = Returns (Success tt)
    <-> firstn 4 content = GGUF_magic))
  /\ ((List.length content < 4)%nat ->
      (validateMmproj eng files path = Returns (Success tt)
       <-> (content ++ skipn (List.length content)
                             (firstn 4 (stack_bytes files ++ repeat x00 4)))%list
           = GGUF_magic))
  /\ (validateMmproj eng files path = Returns (Success tt)
      \/ validateMmproj eng files path
         = Returns (Failure KLlamaError.MmprojInvalid
                            "Invalid mmproj format - not a GGUF file")).
Proof.
  intros Hf Ho.
  destruct (validateMmproj_opened eng files path content Hf Ho) as [[Hr Hh]|[Hr Hh]];
    rewrite Hr; (split; [|split]); auto.
  - intros Hl. rewrite <- (read_header_full files) by exact Hl. tauto.
  - intros Hl. rewrite <- (read_header_short files) by exact Hl. tauto.
  - intros Hl. rewrite <- (read_header_full files) by exact Hl.
    split; [discriminate | contradiction].
  - intros Hl. rewrite <- (read_header_short files) by exact Hl.
    split; [discriminate | contradiction].
Qed.

Lemma validateMmproj_checks_magic_only_witness :
  ((4 <= List.length [x47; x47; x55])%nat ->
   (validateMmproj cut_engine demo_files "cut.gguf" = Returns (Success tt)
    <-> firstn 4 [x47; x47; x55] = GGUF_magic))
  /\ ((List.length [x47; x47; x55] < 4)%nat ->
      (validateMmproj cut_engine demo_files "cut.gguf" = Returns (Success tt)
       <-> ([x47; x47; x55]
            ++ skipn (List.length [x47; x47; x55])
                     (firstn 4 (stack_bytes demo_files ++ repeat x00 4)))%list
           = GGUF_magic))
  /\ (validateMmproj cut_engine demo_files "cut.gguf" = Returns (Success tt)
      \/ validateMmproj cut_engine demo_files "cut.gguf"
         = Returns (Failure KLlamaError.MmprojInvalid
                            "Invalid mmproj format - not a GGUF file")).
Proof.
  apply (validateMmproj_checks_magic_only cut_engine demo_files "cut.gguf" [x47; x47; x55]);
    reflexivity.
Defined.

(** A file cut after its third byte passes when the stack happens to hold
    the fourth letter. *)
Example truncated_projector_accepted :
  validateMmproj cut_engine demo_files "cut.gguf" = Returns (Success tt).
Proof. reflexivity. Qed.

Lemma count_app (p : Event -> bool) (a b : list Event) :
  count p (a ++ b) = (count p a + count p b)%nat.
Proof. unfold count. rewrite filter_app, length_app. reflexivity. Qed.

(** X8.  [validateModel] is self-contained: whenever it returns, the
    session object and the poll counter are as before, every
    [llama_backend_init] it made is matched by a [llama_backend_free], and
    the model it loaded has been freed.  It succeeds exactly when the file
    is found and the model loads, and the information it returns never
    claims vision support and lists no capability. *)
Theorem validateModel_releases_what_it_loads
    (eng : Engine) (queries : ModelQueries) (path : string) (w : World)
    (r : KLlamaResult ModelInfo.t) :
  fst (validateModel eng queries path w) = Some (Returns r) ->
  self (snd (validateModel eng queries path w)) = self w
  /\ polls (snd (validateModel eng queries path w)) = polls w
  /\ (exists added,
        trace (snd (validateModel eng queries path w)) = (trace w ++ added)%list
        /\ count is_backend_init added = count is_backend_free added
        /\ (fs_exists eng path = Returns false -> added = [])
        /\ (forall h, fs_exists eng path = Returns true ->
                      llama_model_load_from_file eng path = Some h ->
                      filter is_model_free added = [Call_model_free h]))
  /\ (isSuccess r = true
      <-> fs_exists eng path = Returns true
          /\ llama_model_load_from_file eng path <> None)
  /\ (forall info, r = Success info ->
        ModelInfo.supportsVision info = false /\ ModelInfo.capabilities info = []).
Proof.
  destruct w as [k tr n]. unfold validateModel, checkFileExists.
  destruct (fs_exists eng path) as [[|]|e]; simpl.
  - destruct (llama_model_load_from_file eng path) as [h|]; simpl.
    + destruct (model_name queries h) as [name|]; run; intros H; [|discriminate H].
      injection H as <-.
      split; [reflexivity|]. split; [reflexivity|]. split; [|split].
      * eexists. split; [rewrite <- !app_assoc; reflexivity|].
        split; [reflexivity|]. split; [discriminate|].
        intros h' _ [= <-]. reflexivity.
      * split; intros _; [split; [reflexivity | discriminate] | reflexivity].
      * intros info [= <-]. split; reflexivity.
    + run. intros [= <-].
      split; [reflexivity|]. split; [reflexivity|]. split; [|split].
      * eexists. split; [rewrite <- !app_assoc; reflexivity|].
        split; [reflexivity|]. split; intros; congruence.
      * split; [discriminate | intros [_ H]; contradiction].
      * discriminate.
  - run. intros [= <-].
    split; [reflexivity|]. split; [reflexivity|]. split; [|split].
    + exists []. rewrite app_nil_r. split; [reflexivity|].
      split; [reflexivity|]. split; intros; congruence.
    + split; [discriminate | intros [H _]; discriminate H].
    + discriminate.
  - run. discriminate.
Qed.

Lemma validateModel_releases_what_it_loads_witness :
  self (snd (validateModel demo_engine demo_queries "model.gguf" fresh)) = self fresh
  /\ polls (snd (validateModel demo_engine demo_queries "model.gguf" fresh)) = polls fresh
  /\ (exists added,
        trace (snd (validateModel demo_engine demo_queries "model.gguf" fresh))
        = (trace fresh ++ added)%list
        /\ count is_backend_init added = count is_backend_free added
        /\ (fs_exists demo_engine "model.gguf" = Returns false -> added = [])
        /\ (forall h, fs_exists demo_engine "model.gguf" = Returns true ->
                      llama_model_load_from_file demo_engine "model.gguf" = Some h ->
                      filter is_model_free added = [Call_model_free h]))
  /\ (isSuccess (Success (ModelInfo.mk "llama 7B Q4_0" "" 6738415616 4096 false []))
      = true
      <-> fs_exists demo_engine "model.gguf" = Returns true
          /\ llama_model_load_from_file demo_engine "model.gguf" <> None)
  /\ (forall info,
        Success (ModelInfo.mk "llama 7B Q4_0" "" 6738415616 4096 false []) = Success info ->
        ModelInfo.supportsVision info = false /\ ModelInfo.capabilities info = []).
Proof.
  apply (validateModel_releases_what_it_loads demo_engine demo_queries "model.gguf" fresh).
  reflexivity.
Defined.

(** ** Initialization: outcomes *)

Lemma SessionParams_validate_cases (eng : Engine) (sp : SessionParams.t) :
  (SessionParams.validate (fs_exists eng) sp = Returns (Success tt)
   /\ session_params_ok (fs_exists eng) sp = true)
  \/ (exists r,
        SessionParams.validate (fs_exists eng) sp = Returns r
        /\ isError r = true
        /\ session_params_ok (fs_exists eng) sp = false
        /\ In (error_of r) validation_errors)
  \/ (exists e,
        SessionParams.validate (fs_exists eng) sp = Throws e
        /\ validation_throws eng sp = Some e).
Proof.
  unfold SessionParams.validate, session_params_ok, checkFileExists, validation_errors,
    validation_throws, fs_exists, found.
  rewrite !Z.ltb_antisym.
  destruct (SamplingParams_validate_kinds (SessionParams.sampling sp)) as [-> | [msg ->]];
    destruct (empty (SessionParams.modelPath sp)),
      (status_fails eng (SessionParams.modelPath sp)),
      (file_exists eng (SessionParams.modelPath sp)),
      (empty (SessionParams.mmprojPath sp)),
      (status_fails eng (SessionParams.mmprojPath sp)),
      (file_exists eng (SessionParams.mmprojPath sp)),
      (SessionParams.contextSize sp <=? 0), (SessionParams.batch sp <=? 0),
      (SessionParams.threads sp <=? 0); simpl;
    first
      [ solve [left; split; reflexivity]
      | solve [right; left; eexists; split; [reflexivity|]; simpl; auto 10]
      | solve [right; right; eexists; split; reflexivity] ].
Qed.

(** The paths of [initialize], one goal for each way through the
    function. *)
Ltac flat :=
  simpl;
  unfold set_initialized, set_params, set_generationState, set_visionContext,
    set_model, set_llamaContext, set_sampler, set_batch, set_currentStats;
  simpl.

Ltac initialize_cases :=
  repeat match goal with
         | |- context [if is_null ?x then _ else _] => destruct x eqn:?; flat
         | |- context [if negb ?c then _ else _] => destruct c eqn:?; flat
         | |- context [if ?c then _ else _] => destruct c eqn:?; flat
         | |- context [match ?x with Some _ => _ | None => _ end] =>
             destruct x eqn:?; flat
         end.

Lemma freeMemory_uninitialized_trace (w : World) :
  initialized (self w) = false ->
  exists added,
    trace (snd (freeMemory w)) = (trace w ++ added)%list
    /\ count is_backend_free added = 0%nat
    /\ count is_backend_init added = 0%nat
    /\ filter acquires added = [].
Proof.
  open_world w. intros ->.
  handle_cases; simpl; eexists;
    (split; [rewrite <- ?app_assoc; try reflexivity; symmetry; apply app_nil_r|]);
    repeat split.
Qed.

Lemma initialize_run
    (eng : Engine) (sp : SessionParams.t) (cb : ProgressCallback)
    (tok : option CancellationToken) (w : World)
    (o : Outcome (KLlamaResult unit)) (w' : World) :
  initialized (self w) = false ->
  holds_no_resource (self w) ->
  initialize eng sp cb tok w = (o, w') ->
  (o = Returns (Success tt) /\ initialize_succeeded eng sp w w')
  \/ (exists r, o = Returns r /\ initialize_failed w w' r)
  \/ (exists e, o = Throws e /\ initialize_threw eng sp w w' e).
Proof.
  unfold holds_no_resource at 1.
  destruct w as [[i ps g vc m c s [bn bt bp] st] tr n]. simpl.
  intros -> (-> & -> & -> & -> & ->).
  unfold initialize, initializeModel, initializeVision. run. flat.
  destruct (SessionParams_validate_cases eng sp)
    as [[Hv Hok]|[(r & Hv & He & Hnok & Hk)|(e & Hv & Ht)]].
  - rewrite Hv. flat. initialize_cases.
    all: intros [= <- <-].
    all: unfold initialize_succeeded, initialize_failed, acquisition_order; simpl.
    all: try match goal with H : empty _ = _ |- _ => rewrite ?H end.
    all: try match goal with H : mtmd_init_from_file _ _ = _ |- _ => rewrite ?H end.
    all: first
      [ solve [right; left; eexists; split; [reflexivity|];
               unfold initialize_errors; simpl;
               split; [reflexivity|]; split; [auto 12|]; split; [reflexivity|];
               split; [repeat split|];
               eexists; split; [rewrite <- ?app_assoc; reflexivity|];
               split; [reflexivity|];
               intros H;
               first [reflexivity | destruct H as [H|[H|[H|[]]]]; discriminate H]]
      | solve [left; split; [reflexivity|];
               eexists; eexists; split; [eassumption|]; split; [eassumption|];
               split; [reflexivity|]; split; [congruence|]; split; [assumption|];
               eexists; split; [rewrite <- ?app_assoc; reflexivity|];
               split; reflexivity] ].
  - rewrite Hv. flat. rewrite He. intros [= <- <-]. right. left. exists r.
    split; [reflexivity|].
    unfold initialize_failed, validation_errors, initialize_errors in *.
    split; [assumption|].
    split; [destruct Hk as [Hk|[Hk|[Hk|[]]]]; rewrite <- Hk; simpl; auto 12|].
    split; [reflexivity|]. split; [repeat split|].
    exists []. rewrite app_nil_r. split; [reflexivity|]. split; [reflexivity|].
    intros [H|[H|[H|[]]]]; destruct Hk as [Hk|[Hk|[Hk|[]]]]; congruence.
  - rewrite Hv. flat. intros [= <- <-]. right. right. exists e.
    split; [reflexivity|]. split; [exact Ht | reflexivity].
Qed.

Lemma initialize_outcome
    (eng : Engine) (sp : SessionParams.t) (cb : ProgressCallback)
    (tok : option CancellationToken) (w : World) :
  initialized (self w) = false ->
  holds_no_resource (self w) ->
  (fst (initialize eng sp cb tok w) = Returns (Success tt)
   /\ initialize_succeeded eng sp w (snd (initialize eng sp cb tok w)))
  \/ (exists r,
        fst (initialize eng sp cb tok w) = Returns r
        /\ initialize_failed w (snd (initialize eng sp cb tok w)) r)
  \/ (exists e,
        fst (initialize eng sp cb tok w) = Throws e
        /\ initialize_threw eng sp w (snd (initialize eng sp cb tok w)) e).
Proof.
  intros Hi Hh. destruct (initialize eng sp cb tok w) as [o w'] eqn:E.
  exact (initialize_run eng sp cb tok w o w' Hi Hh E).
Qed.

(** A call that succeeded is none of the other two. *)
Lemma initialize_succeeded_only
    (eng : Engine) (sp : SessionParams.t) (cb : ProgressCallback)
    (tok : option CancellationToken) (w : World) :
  initialized (self w) = false ->
  holds_no_resource (self w) ->
  fst (initialize eng sp cb tok w) = Returns (Success tt) ->
  initialize_succeeded eng sp w (snd (initialize eng sp cb tok w)).
Proof.
  intros Hi Hh Hs.
  destruct (initialize_outcome eng sp cb tok w Hi Hh)
    as [[_ H]|[(r & Hr & He & _)|(e & Hr & _)]]; [exact H | |].
  - rewrite Hs in Hr. injection Hr as <-. discriminate He.
  - rewrite Hs in Hr. discriminate Hr.
Qed.

(** X9.  [initialize] is all or nothing.  On a session that is not
    initialized and holds no engine resource, either it succeeds, and the
    session is initialized, idle, stores the parameters given, holds the
    model, the context and the batch buffer, holds the vision engine
    exactly when a projector path was given, and has no sampler chain yet;
    or it fails with one of seven error kinds, and the session is still
    not initialized and holds nothing; or the validation of the
    parameters throws (a file check on a path whose status cannot be
    determined), the exception leaves the call, and nothing at all has
    changed. *)
Theorem initialize_all_or_nothing
    (eng : Engine) (sp : SessionParams.t) (cb : ProgressCallback)
    (tok : option CancellationToken) (w : World) :
  initialized (self w) = false ->
  holds_no_resource (self w) ->
  (fst (initialize eng sp cb tok w) = Returns (Success tt)
   /\ initialized (self (snd (initialize eng sp cb tok w))) = true
   /\ generationState (self (snd (initialize eng sp cb tok w))) = GenerationState.Idle
   /\ params (self (snd (initialize eng sp cb tok w))) = sp
   /\ session_loaded (self (snd (initialize eng sp cb tok w)))
   /\ sampler (self (snd (initialize eng sp cb tok w))) = None
   /\ session_params_ok (fs_exists eng) sp = true)
  \/ (exists r,
        fst (initialize eng sp cb tok w) = Returns r
        /\ isError r = true
        /\ In (error_of r) initialize_errors
        /\ initialized (self (snd (initialize eng sp cb tok w))) = false
        /\ holds_no_resource (self (snd (initialize eng sp cb tok w))))
  \/ (exists e,
        fst (initialize eng sp cb tok w) = Throws e
        /\ validation_throws eng sp = Some e
        /\ snd (initialize eng sp cb tok w) = w).
Proof.
  intros Hi Hh.
  destruct (initialize_outcome eng sp cb tok w Hi Hh)
    as [[Hr (mh & ch & Hm & Hc & Hs & Hv & Hok & _)]
       |[(r & Hr & He & Hk & Hu & Hn & _)|(e & Hr & Ht & Hw)]].
  - left. rewrite Hs. unfold session_loaded. simpl.
    repeat split; try assumption; try discriminate.
    destruct (empty (SessionParams.mmprojPath sp)); [reflexivity|].
    destruct (mtmd_init_from_file eng (SessionParams.mmprojPath sp));
      [reflexivity | exfalso; apply Hv; reflexivity].
  - right. left. exists r. repeat split; try assumption; apply Hn.
  - right. right. exists e. repeat split; assumption.
Qed.

Lemma initialize_all_or_nothing_witness :
  (fst (initialize demo_engine vision_params true None fresh) = Returns (Success tt)
   /\ initialized (self (snd (initialize demo_engine vision_params true None fresh))) = true
   /\ generationState (self (snd (initialize demo_engine vision_params true None fresh)))
      = GenerationState.Idle
   /\ params (self (snd (initialize demo_engine vision_params true None fresh)))
      = vision_params
   /\ session_loaded (self (snd (initialize demo_engine vision_params true None fresh)))
   /\ sampler (self (snd (initialize demo_engine vision_params true None fresh))) = None
   /\ session_params_ok (fs_exists demo_engine) vision_params = true)
  \/ (exists r,
        fst (initialize demo_engine vision_params true None fresh) = Returns r
        /\ isError r = true
        /\ In (error_of r) initialize_errors
        /\ initialized (self (snd (initialize demo_engine vision_params true None fresh)))
           = false
        /\ holds_no_resource
             (self (snd (initialize demo_engine vision_params true None fresh))))
  \/ (exists e,
        fst (initialize demo_engine vision_params true None fresh) = Throws e
        /\ validation_throws demo_engine vision_params = Some e
        /\ snd (initialize demo_engine vision_params true None fresh) = fresh).
Proof.
  apply (initialize_all_or_nothing demo_engine vision_params true None fresh);
    [reflexivity | repeat split].
Defined.

(** The three outcomes on [demo_engine]: a model with its projector, a
    model file that is missing, and a name that is too long. *)
Example initialize_three_outcomes :
  fst (initialize demo_engine vision_params true None fresh) = Returns (Success tt)
  /\ fst (initialize demo_engine missing_params true None fresh)
     = Returns (Failure KLlamaError.ModelNotFound "File not found: missing.gguf")
  /\ initialize demo_engine long_name_params true None fresh
     = (Throws (filesystem_error long_name), fresh).
Proof. repeat split; vm_compute; reflexivity. Qed.

(** X10.  A successful [initialize] acquires in a fixed order: the
    backend, the one-slot batch, the model, the context and then, when a
    projector path is given, the vision engine.  It releases nothing. *)
Theorem initialize_acquires_in_order
    (eng : Engine) (sp : SessionParams.t) (cb : ProgressCallback)
    (tok : option CancellationToken) (w : World) :
  initialized (self w) = false ->
  holds_no_resource (self w) ->
  fst (initialize eng sp cb tok w) = Returns (Success tt) ->
  exists mh added,
    llama_model_load_from_file eng (SessionParams.modelPath sp) = Some mh
    /\ trace (snd (initialize eng sp cb tok w)) = (trace w ++ added)%list
    /\ filter acquires added = acquisition_order sp mh
    /\ filter releases added = [].
Proof.
  intros Hi Hh Hs.
  destruct (initialize_succeeded_only eng sp cb tok w Hi Hh Hs)
    as (mh & ch & Hm & _ & _ & _ & _ & added & Ht & Ha & Hr).
  exists mh, added. repeat split; assumption.
Qed.

Lemma initialize_acquires_in_order_witness :
  exists mh added,
    llama_model_load_from_file demo_engine (SessionParams.modelPath vision_params) = Some mh
    /\ trace (snd (initialize demo_engine vision_params true None fresh))
       = (trace fresh ++ added)%list
    /\ filter acquires added = acquisition_order vision_params mh
    /\ filter releases added = [].
Proof.
  apply (initialize_acquires_in_order demo_engine vision_params true None fresh);
    [reflexivity | repeat split | reflexivity].
Defined.

Lemma freeMemory_loaded_trace
    (sp : SessionParams.t) (vh : option Handle) (mh ch : Handle)
    (st : GenerationStats) (tr : list Event) (n : nat) :
  trace (snd (freeMemory
                (mkWorld (mkKLlama true sp GenerationState.Idle vh (Some mh) (Some ch) None
                                   {| n_tokens := 0; token := Some 0; pos := 0 |} st)
                         tr n)))
  = (tr ++ release_order mh ch vh)%list.
Proof.
  destruct st, vh; unfold freeMemory; run; rewrite <- !app_assoc; reflexivity.
Qed.

(** X11.  Teardown after a successful [initialize] releases exactly what
    was acquired, in a fixed order: the batch, the context, the model, the
    backend and, last, the vision engine when one was loaded.  The session
    ends uninitialized, idle and empty. *)
Theorem freeMemory_after_initialize_releases_in_order
    (eng : Engine) (sp : SessionParams.t) (cb : ProgressCallback)
    (tok : option CancellationToken) (w : World) :
  initialized (self w) = false ->
  holds_no_resource (self w) ->
  fst (initialize eng sp cb tok w) = Returns (Success tt) ->
  exists mh ch,
    llama_model_load_from_file eng (SessionParams.modelPath sp) = Some mh
    /\ llama_init_from_model eng mh = Some ch
    /\ trace (snd (freeMemory (snd (initialize eng sp cb tok w))))
       = (trace (snd (initialize eng sp cb tok w))
          ++ release_order mh ch
               (if empty (SessionParams.mmprojPath sp) then None
                else mtmd_init_from_file eng (SessionParams.mmprojPath sp)))%list
    /\ uninitialized_idle (self (snd (freeMemory (snd (initialize eng sp cb tok w))))).
Proof.
  intros Hi Hh Hs.
  destruct (initialize_succeeded_only eng sp cb tok w Hi Hh Hs)
    as (mh & ch & Hm & Hc & Hself & _).
  exists mh, ch. split; [assumption|]. split; [assumption|].
  split; [|apply freeMemory_reaches_uninitialized_idle].
  destruct (snd (initialize eng sp cb tok w)) as [k tr n]. simpl in Hself. subst k.
  apply freeMemory_loaded_trace.
Qed.

Lemma freeMemory_after_initialize_releases_in_order_witness :
  exists mh ch,
    llama_model_load_from_file demo_engine (SessionParams.modelPath vision_params) = Some mh
    /\ llama_init_from_model demo_engine mh = Some ch
    /\ trace (snd (freeMemory (snd (initialize demo_engine vision_params false None fresh))))
       = (trace (snd (initialize demo_engine vision_params false None fresh))
          ++ release_order mh ch
               (if empty (SessionParams.mmprojPath vision_params) then None
                else mtmd_init_from_file demo_engine
                       (SessionParams.mmprojPath vision_params)))%list
    /\ uninitialized_idle
         (self (snd (freeMemory (snd (initialize demo_engine vision_params false None
                                                 fresh))))).
Proof.
  apply (freeMemory_after_initialize_releases_in_order
           demo_engine vision_params false None fresh);
    [reflexivity | repeat split | reflexivity].
Defined.

Lemma initialize_success_initialized
    (eng : Engine) (sp : SessionParams.t) (cb : ProgressCallback)
    (tok : option CancellationToken) (w : World) :
  session_invariant (self w) ->
  fst (initialize eng sp cb tok w) = Returns (Success tt) ->
  initialized (self (snd (initialize eng sp cb tok w))) = true.
Proof.
  intros Hinv Hs. destruct (initialized (self w)) eqn:Hi.
  - rewrite initialize_already_initialized in Hs by exact Hi. discriminate Hs.
  - destruct (initialize_succeeded_only eng sp cb tok w Hi (proj1 (Hinv Hi)) Hs)
      as (mh & ch & _ & _ & Hself & _).
    rewrite Hself. reflexivity.
Qed.

(** X12.  After a successful [initialize], every further [initialize],
    whatever its arguments, returns [AlreadyInitialized] and changes
    nothing: no field of the object, no call to the engine, no poll of the
    cancellation token. *)
Theorem initialize_after_success_is_rejected
    (eng : Engine) (sp sp' : SessionParams.t) (cb cb' : ProgressCallback)
    (tok tok' : option CancellationToken) (w : World) :
  session_invariant (self w) ->
  fst (initialize eng sp cb tok w) = Returns (Success tt) ->
  initialize eng sp' cb' tok' (snd (initialize eng sp cb tok w))
  = (Returns (Failure KLlamaError.AlreadyInitialized ""),
     snd (initialize eng sp cb tok w)).
Proof.
  intros Hinv Hs. apply initialize_already_initialized.
  apply initialize_success_initialized; assumption.
Qed.

Lemma initialize_after_success_is_rejected_witness :
  initialize demo_engine missing_params true (Some already_cancelled)
             (snd (initialize demo_engine demo_params false None fresh))
  = (Returns (Failure KLlamaError.AlreadyInitialized ""),
     snd (initialize demo_engine demo_params false None fresh)).
Proof.
  apply (initialize_after_success_is_rejected demo_engine demo_params missing_params
           false true None (Some already_cancelled) fresh);
    [intros _; repeat split | reflexivity].
Defined.

Lemma destroy_uninitialized (w : World) :
  initialized (self w) = false -> destroy w = (tt, w).
Proof. open_world w. intros ->. reflexivity. Qed.

(** X13.  An [initialize] that does not succeed never gives the backend
    back.  When the call fails or throws, no [llama_backend_free] is made
    by the call, by a [freeMemory] that follows it, or by the destructor;
    yet when the failure is a model, context or projector load failure,
    the call had made one [llama_backend_init]. *)
Theorem failed_initialize_keeps_backend
    (eng : Engine) (sp : SessionParams.t) (cb : ProgressCallback)
    (tok : option CancellationToken) (w : World) :
  initialized (self w) = false ->
  holds_no_resource (self w) ->
  fst (initialize eng sp cb tok w) <> Returns (Success tt) ->
  count is_backend_free
        (trace (snd (destroy (snd (freeMemory (snd (initialize eng sp cb tok w)))))))
  = count is_backend_free (trace w)
  /\ (forall r,
        fst (initialize eng sp cb tok w) = Returns r ->
        In (error_of r)
           [KLlamaError.ModelLoadFailed; KLlamaError.ContextInitFailed;
            KLlamaError.MmprojLoadFailed] ->
        count is_backend_init (trace (snd (initialize eng sp cb tok w)))
        = S (count is_backend_init (trace w))).
Proof.
  intros Hi Hh He.
  assert (Hfree : forall w', initialized (self w') = false ->
            forall added, trace w' = (trace w ++ added)%list ->
            count is_backend_free added = 0%nat ->
            count is_backend_free (trace (snd (destroy (snd (freeMemory w')))))
            = count is_backend_free (trace w)).
  { intros w' Hu added Ht Hf.
    destruct (freeMemory_uninitialized_trace _ Hu) as (added' & Ht' & Hf' & _).
    pose proof (freeMemory_reaches_uninitialized_idle w') as (Hu' & _).
    rewrite (destroy_uninitialized _ Hu'). simpl.
    rewrite Ht', Ht, !count_app, Hf, Hf'. lia. }
  destruct (initialize_outcome eng sp cb tok w Hi Hh)
    as [[Hs _]|[(r & Hr & _ & _ & Hu & _ & added & Ht & Hf & Hb)|(e & Hr & _ & Hw)]].
  - contradiction.
  - split; [exact (Hfree _ Hu added Ht Hf)|].
    intros r' Hr' Hk. rewrite Hr in Hr'. injection Hr' as <-.
    rewrite Ht, count_app, (Hb Hk). lia.
  - split.
    + apply (Hfree _ (eq_trans (f_equal (fun x => initialized (self x)) Hw) Hi) []);
        [rewrite Hw; symmetry; apply app_nil_r | reflexivity].
    + intros r Hr'. rewrite Hr in Hr'. discriminate Hr'.
Qed.

Lemma failed_initialize_keeps_backend_witness :
  count is_backend_free
        (trace (snd (destroy (snd (freeMemory
           (snd (initialize demo_engine unloadable_params false None fresh)))))))
  = count is_backend_free (trace fresh)
  /\ (forall r,
        fst (initialize demo_engine unloadable_params false None fresh) = Returns r ->
        In (error_of r)
           [KLlamaError.ModelLoadFailed; KLlamaError.ContextInitFailed;
            KLlamaError.MmprojLoadFailed] ->
        count is_backend_init
              (trace (snd (initialize demo_engine unloadable_params false None fresh)))
        = S (count is_backend_init (trace fresh))).
Proof.
  apply (failed_initialize_keeps_backend demo_engine unloadable_params false None fresh);
    [reflexivity | repeat split | discriminate].
Defined.

(** On [demo_engine]: the model file exists but does not load; the call
    fails with [ModelLoadFailed] after one [llama_backend_init], and
    nothing that follows frees the backend. *)
Example unloadable_model_leaves_backend :
  returned_error (fst (initialize demo_engine unloadable_params false None fresh))
  = Some KLlamaError.ModelLoadFailed
  /\ count is_backend_init
           (trace (snd (initialize demo_engine unloadable_params false None fresh))) = 1%nat
  /\ count is_backend_free
           (trace (snd (destroy (snd (freeMemory
              (snd (initialize demo_engine unloadable_params false None fresh))))))) = 0%nat.
Proof. repeat split. Qed.

(** ** What every initialized session holds *)

Ltac ready_side :=
  let k := fresh "k" in
  let Hi := fresh "Hi" in
  let Hm := fresh "Hm" in
  let Hc := fresh "Hc" in
  let Hb := fresh "Hb" in
  let Hv := fresh "Hv" in
  let Hp := fresh "Hp" in
  intros k (Hi & (Hm & Hc & Hb & Hv) & Hp);
  first
    [ exact (conj Hi (conj (conj Hm (conj Hc (conj Hb Hv))) Hp))
    | destruct (sampler k); exact (conj Hi (conj (conj Hm (conj Hc (conj Hb Hv))) Hp))
    | refine (conj Hi (conj (conj Hm (conj Hc (conj _ Hv))) Hp)); simpl;
      destruct (token (batch k)); congruence ].

Ltac ready_step :=
  first
    [ apply preserves_ret
    | apply preserves_get
    | apply preserves_emit
    | apply preserves_poll
    | apply preserves_create_bitmaps
    | apply preserves_modify; ready_side
    | match goal with
      | |- preserves _ (if ?c then _ else _) => destruct c
      | |- preserves _ (match ?x with _ => _ end) => destruct x
      | |- preserves _ (let _ := _ in _) => cbv zeta
      | |- preserves _ (when _ _) => unfold when
      | |- preserves _ (report _ _) => unfold report, when
      end
    | apply preserves_bind; [|intros ?] ].

Lemma generation_loop_keeps_ready
    (eng : Engine) (fs : string -> Outcome bool) (sp : SamplingParams.t) (tcb : TokenCallback)
    (pcb : ProgressCallback) (tok : option CancellationToken) (maxT : Z) (fuel : nat)
    (v : LoopVars) :
  preserves (session_ready fs) (generation_loop eng fuel sp tcb pcb tok maxT v).
Proof.
  revert v. induction fuel as [|fuel IH]; intros v; simpl;
    repeat first [apply IH | ready_step].
Qed.

Lemma configureSampler_keeps_ready
    (eng : Engine) (fs : string -> Outcome bool) (sp : SamplingParams.t) :
  preserves (session_ready fs) (configureSampler eng sp).
Proof. unfold configureSampler. cbv zeta. repeat ready_step. Qed.

Lemma generateResponseInternal_keeps_ready
    (eng : Engine) (fs : string -> Outcome bool) (fuel : nat)
    (conversation : list MultimodalMessage) (sp : SamplingParams.t)
    (tcb : TokenCallback) (pcb : ProgressCallback) (tok : option CancellationToken) :
  preserves (session_ready fs)
            (generateResponseInternal eng fuel conversation sp tcb pcb tok).
Proof.
  unfold generateResponseInternal, prepare_generation.
  repeat first [ apply generation_loop_keeps_ready
               | apply configureSampler_keeps_ready
               | ready_step ].
Qed.

Lemma generateResponseInternal_ready
    (eng : Engine) (fuel : nat) (conversation : list MultimodalMessage)
    (sp : SamplingParams.t) (tcb : TokenCallback) (pcb : ProgressCallback)
    (tok : option CancellationToken) (w : World) :
  (initialized (self w) = true -> session_ready (fs_exists eng) (self w)) ->
  initialized (self (snd (generateResponseInternal eng fuel conversation sp tcb pcb tok w)))
  = true ->
  session_ready (fs_exists eng)
    (self (snd (generateResponseInternal eng fuel conversation sp tcb pcb tok w))).
Proof.
  intros IH. destruct (initialized (self w)) eqn:Hi.
  - intros _. apply generateResponseInternal_keeps_ready, IH. reflexivity.
  - rewrite generateResponseInternal_not_initialized by exact Hi. simpl. congruence.
Qed.

Lemma reachable_ready (eng : Engine) (w : World) :
  reachable eng w ->
  initialized (self w) = true -> session_ready (fs_exists eng) (self w).
Proof.
  induction 1 as [tr n | c w Hr IH]; [discriminate|].
  destruct c; simpl.
  - destruct (initialized (self w)) eqn:Hi.
    + rewrite initialize_already_initialized by exact Hi. intros _. exact (IH eq_refl).
    + destruct (initialize_outcome eng sp pcb tok w Hi
                  (proj1 (reachable_invariant eng w Hr Hi)))
        as [[_ (mh & ch & _ & _ & Hself & Hv & Hok & _)]
           |[(r & _ & _ & _ & Hu & _)|(e & _ & _ & Hw)]];
        [|congruence|rewrite Hw; congruence].
      rewrite Hself. intros _. unfold session_ready, session_loaded. simpl.
      repeat split; try assumption; try discriminate.
      destruct (empty (SessionParams.mmprojPath sp)); [reflexivity|].
      destruct (mtmd_init_from_file eng (SessionParams.mmprojPath sp));
        [reflexivity | exfalso; apply Hv; reflexivity].
  - destruct (freeMemory_reaches_uninitialized_idle w) as (Hu & _). congruence.
  - rewrite reset_self. exact IH.
  - unfold generateResponse. rewrite bind_run.
    apply generateResponseInternal_ready, IH.
  - apply generateResponseInternal_ready, IH.
Qed.

Lemma reachable_after_initialize (eng : Engine) (sp : SessionParams.t)
    (cb : ProgressCallback) (tok : option CancellationToken) (w : World) :
  reachable eng w -> reachable eng (snd (initialize eng sp cb tok w)).
Proof. intros H. exact (reachable_step eng (Do_initialize sp cb tok) w H). Qed.

Lemma reachable_after_generateResponse (eng : Engine) (fuel : nat)
    (conversation : list MultimodalMessage) (tcb : TokenCallback)
    (pcb : ProgressCallback) (tok : option CancellationToken) (w : World) :
  reachable eng w ->
  reachable eng (snd (generateResponse eng fuel conversation tcb pcb tok w)).
Proof.
  intros H. exact (reachable_step eng (Do_generateResponse fuel conversation tcb pcb tok) w H).
Qed.

Lemma reachable_after_freeMemory (eng : Engine) (w : World) :
  reachable eng w -> reachable eng (snd (freeMemory w)).
Proof. intros H. exact (reachable_step eng Do_freeMemory w H). Qed.

(** X14.  Whatever sequence of public calls produced it, a session that
    is initialized holds a model, a context and the batch buffer, holds
    the vision engine exactly when its parameters name a projector, and
    stores parameters that pass [SessionParams::validate]; a session that
    is not initialized holds no engine resource at all. *)
Theorem reachable_session_is_loaded_or_empty (eng : Engine) (w : World) :
  reachable eng w ->
  (initialized (self w) = true ->
   session_loaded (self w)
   /\ session_params_ok (fs_exists eng) (params (self w)) = true)
  /\ (initialized (self w) = false -> holds_no_resource (self w)).
Proof.
  intros Hr. split.
  - intros Hi. apply (reachable_ready eng w Hr Hi).
  - intros Hi. apply (reachable_invariant eng w Hr Hi).
Qed.

Lemma reachable_session_is_loaded_or_empty_witness :
  (initialized (self demo_finished) = true ->
   session_loaded (self demo_finished)
   /\ session_params_ok (fs_exists demo_engine) (params (self demo_finished)) = true)
  /\ (initialized (self demo_finished) = false -> holds_no_resource (self demo_finished)).
Proof.
  apply (reachable_session_is_loaded_or_empty demo_engine demo_finished).
  apply reachable_after_generateResponse, reachable_after_initialize, reachable_fresh.
Defined.

(** ** Queries on a session *)

(** X15.  [getModelInfo] on a session produced by public calls, when the
    engine's description fits the 256-byte buffer: it never changes the
    session; before initialization it returns [NotInitialized]; after, it
    succeeds, reports vision support exactly when the session parameters
    name a projector, lists the capability [text_generation] followed by
    [vision] and [multimodal] exactly in that case, and leaves the
    architecture empty. *)
Theorem getModelInfo_on_reachable_session
    (eng : Engine) (queries : ModelQueries) (w : World) :
  reachable eng w ->
  (forall h, fst (llama_model_desc queries h 256) <= 256) ->
  snd (getModelInfo queries w) = w
  /\ (initialized (self w) = false ->
      fst (getModelInfo queries w)
      = Some (Failure KLlamaError.NotInitialized "KLlama must be initialized before use"))
  /\ (initialized (self w) = true ->
      exists info,
        fst (getModelInfo queries w) = Some (Success info)
        /\ ModelInfo.supportsVision info
           = negb (empty (SessionParams.mmprojPath (params (self w))))
        /\ ModelInfo.capabilities info = capabilities_of (ModelInfo.supportsVision info)
        /\ ModelInfo.architecture info = "").
Proof.
  intros Hr Hd. pose proof (reachable_ready eng w Hr) as Hready.
  unfold session_ready, session_loaded in Hready.
  destruct w as [[[|] sp g vc [h|] c s b st] tr n]; unfold getModelInfo; run.
  2: destruct (Hready eq_refl) as (_ & (Hm & _) & _); contradiction.
  - destruct (Hready eq_refl) as (_ & (_ & _ & _ & Hv) & _). simpl in Hv.
    assert (Hn : exists name, model_name queries h = Some name).
    { unfold model_name. specialize (Hd h).
      destruct (0 <? fst (llama_model_desc queries h 256)); [|eexists; reflexivity].
      replace (fst (llama_model_desc queries h 256) <=? 256) with true
        by (symmetry; apply Z.leb_le; exact Hd).
      eexists; reflexivity. }
    destruct Hn as [name ->]. simpl.
    split; [reflexivity|]. split; [discriminate|]. intros _.
    eexists. split; [reflexivity|]. simpl. rewrite <- Hv.
    repeat split.
  - split; [reflexivity|]. split; [reflexivity | discriminate].
  - split; [reflexivity|]. split; [reflexivity | discriminate].
Qed.

Lemma getModelInfo_on_reachable_session_witness :
  snd (getModelInfo demo_queries vision_ready) = vision_ready
  /\ (initialized (self vision_ready) = false ->
      fst (getModelInfo demo_queries vision_ready)
      = Some (Failure KLlamaError.NotInitialized "KLlama must be initialized before use"))
  /\ (initialized (self vision_ready) = true ->
      exists info,
        fst (getModelInfo demo_queries vision_ready) = Some (Success info)
        /\ ModelInfo.supportsVision info
           = negb (empty (SessionParams.mmprojPath (params (self vision_ready))))
        /\ ModelInfo.capabilities info = capabilities_of (ModelInfo.supportsVision info)
        /\ ModelInfo.architecture info = "").
Proof.
  apply (getModelInfo_on_reachable_session demo_engine demo_queries vision_ready).
  - apply reachable_after_initialize, reachable_fresh.
  - intros h. simpl. lia.
Defined.

Lemma wrap_uint64_range (z : Z) : 0 <= wrap_uint64 z < 2 ^ 64.
Proof. unfold wrap_uint64. apply Z.mod_pos_bound. lia. Qed.

(** X16.  [getMemoryInfo] on an initialized session produced by public
    calls succeeds and changes nothing.  The total it reports is the sum
    of the two figures it reports, each the whole number of mebibytes in
    the corresponding byte count, so the total can be one less than the
    mebibytes in the sum of the byte counts, never more; the available
    memory is always reported as 0. *)
Theorem getMemoryInfo_on_reachable_session
    (eng : Engine) (queries : ModelQueries) (w : World) :
  reachable eng w ->
  initialized (self w) = true ->
  exists mh ch info,
    model (self w) = Some mh /\ llamaContext (self w) = Some ch
    /\ getMemoryInfo queries w = (Some (Success info), w)
    /\ MemoryInfo.modelMemoryMB info
       = wrap_uint64 (llama_model_size queries mh) / 1048576
    /\ MemoryInfo.contextMemoryMB info
       = wrap_uint64 (llama_state_get_size queries ch) / 1048576
    /\ MemoryInfo.totalMemoryMB info
       = MemoryInfo.modelMemoryMB info + MemoryInfo.contextMemoryMB info
    /\ (wrap_uint64 (llama_model_size queries mh)
        + wrap_uint64 (llama_state_get_size queries ch)) / 1048576 - 1
       <= MemoryInfo.totalMemoryMB info
       <= (wrap_uint64 (llama_model_size queries mh)
           + wrap_uint64 (llama_state_get_size queries ch)) / 1048576
    /\ MemoryInfo.availableMemoryMB info = 0.
Proof.
  intros Hr Hi. destruct (reachable_ready eng w Hr Hi) as (_ & (Hm & Hc & _) & _).
  destruct w as [[i sp g vc [mh|] [ch|] s bt st] tr n]; simpl in *;
    try contradiction. subst i.
  exists mh, ch. eexists. split; [reflexivity|]. split; [reflexivity|].
  split; [reflexivity|]. simpl.
  pose proof (wrap_uint64_range (llama_model_size queries mh)) as Ha.
  pose proof (wrap_uint64_range (llama_state_get_size queries ch)) as Hb.
  set (a := wrap_uint64 (llama_model_size queries mh)) in *.
  set (b := wrap_uint64 (llama_state_get_size queries ch)) in *.
  change (1024 * 1024) with 1048576.
  assert (Hqa : 0 <= a / 1048576 < 2 ^ 44).
  { split; [apply Z.div_pos; lia|]. apply Z.div_lt_upper_bound; lia. }
  assert (Hqb : 0 <= b / 1048576 < 2 ^ 44).
  { split; [apply Z.div_pos; lia|]. apply Z.div_lt_upper_bound; lia. }
  assert (Hw : wrap_uint64 (a / 1048576 + b / 1048576) = a / 1048576 + b / 1048576).
  { unfold wrap_uint64. apply Z.mod_small. lia. }
  rewrite Hw.
  pose proof (Z.div_mod a 1048576 ltac:(lia)) as Hda.
  pose proof (Z.mod_pos_bound a 1048576 ltac:(lia)) as Hma.
  pose proof (Z.div_mod b 1048576 ltac:(lia)) as Hdb.
  pose proof (Z.mod_pos_bound b 1048576 ltac:(lia)) as Hmb.
  repeat split; try reflexivity.
  - assert ((a + b) / 1048576 < a / 1048576 + b / 1048576 + 2); [|lia].
    apply Z.div_lt_upper_bound; lia.
  - apply Z.div_le_lower_bound; lia.
Qed.

Lemma getMemoryInfo_on_reachable_session_witness :
  exists mh ch info,
    model (self demo_ready) = Some mh /\ llamaContext (self demo_ready) = Some ch
    /\ getMemoryInfo demo_queries demo_ready = (Some (Success info), demo_ready)
    /\ MemoryInfo.modelMemoryMB info
       = wrap_uint64 (llama_model_size demo_queries mh) / 1048576
    /\ MemoryInfo.contextMemoryMB info
       = wrap_uint64 (llama_state_get_size demo_queries ch) / 1048576
    /\ MemoryInfo.totalMemoryMB info
       = MemoryInfo.modelMemoryMB info + MemoryInfo.contextMemoryMB info
    /\ (wrap_uint64 (llama_model_size demo_queries mh)
        + wrap_uint64 (llama_state_get_size demo_queries ch)) / 1048576 - 1
       <= MemoryInfo.totalMemoryMB info
       <= (wrap_uint64 (llama_model_size demo_queries mh)
           + wrap_uint64 (llama_state_get_size demo_queries ch)) / 1048576
    /\ MemoryInfo.availableMemoryMB info = 0.
Proof.
  apply (getMemoryInfo_on_reachable_session demo_engine demo_queries demo_ready).
  - apply reachable_after_initialize, reachable_fresh.
  - reflexivity.
Defined.

(** X17.  The destructor leaves nothing behind: on every session
    produced by public calls, after [~KLlama] the object is not
    initialized and holds no batch, sampler, context, model or vision
    handle. *)
Theorem destroy_releases_everything (eng : Engine) (w : World) :
  reachable eng w ->
  initialized (self (snd (destroy w))) = false
  /\ holds_no_resource (self (snd (destroy w))).
Proof.
  intros Hr. destruct (initialized (self w)) eqn:Hi.
  - destruct (freeMemory_reaches_uninitialized_idle w) as (Hu & _ & _ & Hh).
    unfold destroy. run. rewrite Hi. simpl.
    destruct (freeMemory w) as [r w1]. simpl in *. split; assumption.
  - rewrite (destroy_uninitialized w Hi). simpl.
    split; [exact Hi | exact (proj1 (reachable_invariant eng w Hr Hi))].
Qed.

Lemma destroy_releases_everything_witness :
  initialized (self (snd (destroy demo_finished))) = false
  /\ holds_no_resource (self (snd (destroy demo_finished))).
Proof.
  apply (destroy_releases_everything demo_engine demo_finished).
  apply reachable_after_generateResponse, reachable_after_initialize, reachable_fresh.
Defined.

(** ** Reasoning on computations *)

Lemma hoare_ret {A} (P : World -> Prop) (a : A) (Q : A -> World -> Prop) :
  (forall w, P w -> Q a w) -> hoare P (ret a) Q.
Proof. intros H w HP. apply H, HP. Qed.

Lemma hoare_bind {A B} (P : World -> Prop) (m : M A) (R : A -> World -> Prop)
    (k : A -> M B) (Q : B -> World -> Prop) :
  hoare P m R -> (forall a, hoare (R a) (k a) Q) -> hoare P (bind m k) Q.
Proof.
  intros Hm Hk w HP. unfold bind. specialize (Hm w HP).
  destruct (m w) as [a w1]. apply Hk, Hm.
Qed.

Lemma hoare_forget {A B} (P : World -> Prop) (m : M A) (k : A -> M B)
    (Q : B -> World -> Prop) :
  (forall a, hoare anything (k a) Q) -> hoare P (bind m k) Q.
Proof.
  intros Hk. apply (hoare_bind P m (fun _ => anything)); [|exact Hk].
  intros w _. exact I.
Qed.

Lemma hoare_weaken {A} (P P' : World -> Prop) (m : M A) (Q : A -> World -> Prop) :
  hoare P' m Q -> (forall w, P w -> P' w) -> hoare P m Q.
Proof. intros H HP w Hw. apply H, HP, Hw. Qed.

Lemma hoare_anything {A} (P : World -> Prop) (m : M A) (Q : A -> World -> Prop) :
  hoare anything m Q -> hoare P m Q.
Proof. intros H. apply (hoare_weaken P anything); [exact H | intros w _; exact I]. Qed.

(** A result returned right after [setGenerationState st]. *)
Lemma hoare_state_ret {A} (P : World -> Prop) (st : GenerationState.t) (a : A)
    (Q : A -> World -> Prop) :
  (forall w, in_state st w -> Q a w) ->
  hoare P (setGenerationState st ;; ret a) Q.
Proof. intros H w _. apply H. split; reflexivity. Qed.

(** The same when a fact [F] about the values at hand is known. *)
Lemma hoare_state_ret_fact {A} (F : Prop) (st : GenerationState.t) (a : A)
    (Q : A -> World -> Prop) :
  (F -> forall w, in_state st w -> Q a w) ->
  hoare (fun _ => F) (setGenerationState st ;; ret a) Q.
Proof. intros H w HF. apply (H HF). split; reflexivity. Qed.

(** The same with a progress report in between (the last lines of
    [generateResponseInternal]). *)
Lemma hoare_state_report_ret {A} (P : World -> Prop) (st : GenerationState.t)
    (pcb : ProgressCallback) (stage : string) (a : A) (Q : A -> World -> Prop) :
  (forall w, in_state st w -> Q a w) ->
  hoare P (setGenerationState st ;; report pcb stage ;; ret a) Q.
Proof. intros H w _. destruct pcb; apply H; split; reflexivity. Qed.

(** The error kinds of the helpers that a generation calls first. *)
Lemma hoare_checkInitialized (P : World -> Prop) :
  hoare P checkInitialized
        (fun a _ => In (error_of a) [KLlamaError.None; KLlamaError.NotInitialized]).
Proof.
  intros w _. unfold checkInitialized. run.
  destruct (initialized (self w)); simpl; auto.
Qed.

Lemma hoare_reset (P : World -> Prop) :
  hoare P reset
        (fun a _ => In (error_of a) [KLlamaError.None; KLlamaError.NotInitialized]).
Proof.
  intros w _. unfold reset. run.
  destruct (initialized (self w)); simpl; auto.
Qed.

Lemma hoare_configureSampler (eng : Engine) (sp : SamplingParams.t) (P : World -> Prop) :
  hoare P (configureSampler eng sp)
        (fun a _ => In (error_of a) [KLlamaError.None; KLlamaError.InvalidParameters;
                                     KLlamaError.SamplingFailed]).
Proof.
  unfold configureSampler. cbv zeta.
  destruct (SamplingParams_validate_kinds sp) as [-> | [msg ->]]; simpl.
  - repeat first
      [ apply hoare_ret; intros; simpl; auto
      | match goal with
        | |- hoare _ (if ?c then _ else _) _ => destruct c
        end
      | apply hoare_forget; intros ? ].
  - apply hoare_ret; intros; simpl; auto.
Qed.

(** One step through a computation whose postcondition speaks of the
    result and of the state in which the session is left. *)
Ltac matches_leaf :=
  let w := fresh "w" in
  let H := fresh "H" in
  intros w H;
  first
    [ exact I
    | exact H
    | unfold part_matches, outcome_matches, loop_outcome_matches, failure_matches,
        in_state in *;
      cbn [error_of] in *;
      first [ exact H
            | solve [repeat split; intros; first [assumption | discriminate | tauto]]
            | simpl in H; intuition congruence ] ].

Ltac matches_step :=
  first
    [ apply hoare_state_report_ret; matches_leaf
    | apply hoare_state_ret; matches_leaf
    | apply hoare_state_ret_fact;
      let HF := fresh "HF" in
      intros HF; unfold part_matches, failure_matches, in_state; cbn [error_of];
      simpl in HF; intros; intuition congruence
    | apply hoare_ret; matches_leaf
    | match goal with
      | |- hoare _ (bind checkInitialized _) _ =>
          eapply hoare_bind; [apply hoare_checkInitialized | intros ?]
      | |- hoare _ (bind reset _) _ =>
          eapply hoare_bind; [apply hoare_reset | intros ?]
      | |- hoare _ (bind (configureSampler _ _) _) _ =>
          eapply hoare_bind; [apply hoare_configureSampler | intros ?]
      | |- hoare _ (if ?c then _ else _) _ => destruct c
      | |- hoare _ (match ?x with _ => _ end) _ => destruct x
      | |- hoare _ (let _ := _ in _) _ => cbv zeta
      end
    | apply hoare_forget; intros ? ].

Lemma evaluate_text_prompt_matches
    (eng : Engine) (fullPrompt : string) (past0 : Z) (pcb : ProgressCallback) :
  hoare anything (evaluate_text_prompt eng fullPrompt past0 pcb) part_matches.
Proof. unfold evaluate_text_prompt. repeat matches_step. Qed.

Lemma evaluate_multimodal_prompt_matches
    (eng : Engine) (allImages : list ImageData) (fullPrompt : string) (past0 : Z)
    (pcb : ProgressCallback) (tok : option CancellationToken) :
  hoare anything (evaluate_multimodal_prompt eng allImages fullPrompt past0 pcb tok)
        failure_matches.
Proof. unfold evaluate_multimodal_prompt. repeat matches_step. Qed.

Lemma prepare_generation_matches
    (eng : Engine) (conversation : list MultimodalMessage) (sp : SamplingParams.t)
    (pcb : ProgressCallback) (tok : option CancellationToken) :
  hoare anything (prepare_generation eng conversation sp pcb tok) part_matches.
Proof.
  unfold prepare_generation.
  repeat first
    [ match goal with
      | |- hoare _ (match validate_images ?imgs with _ => _ end) _ =>
          destruct (validate_images_cases imgs)
            as [[-> _]|(? & ? & ? & ? & _ & _ & _ & _ & ->)]
      | |- hoare _ (bind (if _ then bind (evaluate_multimodal_prompt _ _ _ _ _ _) _
                          else evaluate_text_prompt _ _ _ _) _) _ =>
          eapply hoare_bind with (R := part_matches);
          [ apply hoare_anything;
            match goal with
            | |- hoare _ (if ?c then _ else _) _ =>
                destruct c;
                [ eapply hoare_bind;
                  [ apply evaluate_multimodal_prompt_matches
                  | let Hr := fresh "Hr" in
                    intros ?; apply hoare_ret; intros ? Hr; exact Hr ]
                | apply evaluate_text_prompt_matches ]
            end
          | intros ? ]
      end
    | matches_step ].
Qed.

Lemma generation_loop_matches
    (eng : Engine) (sp : SamplingParams.t) (tcb : TokenCallback) (pcb : ProgressCallback)
    (tok : option CancellationToken) (maxT : Z) (fuel : nat) (v : LoopVars) :
  hoare anything (generation_loop eng fuel sp tcb pcb tok maxT v) loop_outcome_matches.
Proof.
  revert v. induction fuel as [|fuel IH]; intros v; simpl;
    repeat first [apply hoare_anything; apply IH | matches_step].
Qed.

Lemma generateResponseInternal_matches
    (eng : Engine) (fuel : nat) (conversation : list MultimodalMessage)
    (sp : SamplingParams.t) (tcb : TokenCallback) (pcb : ProgressCallback)
    (tok : option CancellationToken) :
  hoare anything (generateResponseInternal eng fuel conversation sp tcb pcb tok)
        outcome_matches.
Proof.
  unfold generateResponseInternal.
  eapply hoare_bind; [apply prepare_generation_matches|].
  intros [[past0|e msg]|];
    [|apply hoare_ret; intros w H; exact H|apply hoare_ret; intros w H; exact I].
  apply hoare_forget; intros _. apply hoare_forget; intros _.
  eapply hoare_bind; [apply hoare_anything, generation_loop_matches|].
  intros [[[|r|e] v]|]; repeat matches_step.
Qed.

(** X18.  The result of a generation tells the state in which the
    session is left: a call that returns a text leaves the state
    [Finished]; one that returns [OperationCancelled] leaves it
    [Cancelled]; one that returns [EvaluationFailed], or [UnknownError]
    for an exception that was caught, leaves it [Error]; and the state
    kept in the statistics is the same. *)
Theorem generation_result_tells_the_state
    (eng : Engine) (fuel : nat) (conversation : list MultimodalMessage)
    (sp : SamplingParams.t) (tcb : TokenCallback) (pcb : ProgressCallback)
    (tok : option CancellationToken) (w : World) :
  match fst (generateResponseInternal eng fuel conversation sp tcb pcb tok w) with
  | Some (Success _) =>
      in_state GenerationState.Finished
               (snd (generateResponseInternal eng fuel conversation sp tcb pcb tok w))
  | Some (Failure KLlamaError.OperationCancelled _) =>
      in_state GenerationState.Cancelled
               (snd (generateResponseInternal eng fuel conversation sp tcb pcb tok w))
  | Some (Failure KLlamaError.EvaluationFailed _) =>
      in_state GenerationState.Error
               (snd (generateResponseInternal eng fuel conversation sp tcb pcb tok w))
  | Some (Failure KLlamaError.UnknownError _) =>
      in_state GenerationState.Error
               (snd (generateResponseInternal eng fuel conversation sp tcb pcb tok w))
  | _ => True
  end.
Proof.
  pose proof (generateResponseInternal_matches eng fuel conversation sp tcb pcb tok w I)
    as H.
  destruct (fst (generateResponseInternal eng fuel conversation sp tcb pcb tok w))
    as [[text|e msg]|]; [exact H | | exact I].
  destruct H as (Hc & He & Hu).
  destruct e; try exact I; [apply He | apply Hc | apply Hu]; reflexivity.
Qed.

Lemma ended_session_is_not_idle
    (eng : Engine) (fuel : nat) (conversation : list MultimodalMessage)
    (sp : SamplingParams.t) (tcb : TokenCallback) (pcb : ProgressCallback)
    (tok : option CancellationToken) (w : World) (r : KLlamaResult string) :
  fst (generateResponseInternal eng fuel conversation sp tcb pcb tok w) = Some r ->
  ends_the_session r ->
  generationState (self (snd (generateResponseInternal eng fuel conversation sp tcb pcb tok w)))
  <> GenerationState.Idle.
Proof.
  intros Hr He.
  pose proof (generateResponseInternal_matches eng fuel conversation sp tcb pcb tok w I)
    as H.
  rewrite Hr in H. unfold outcome_matches, failure_matches, in_state in H.
  destruct He as [[text ->]|[He|[He|He]]].
  - destruct H as [-> _]. discriminate.
  - destruct r as [text|e msg]; [discriminate He|].
    destruct H as (Hc & _ & _). destruct (Hc He) as [-> _]. discriminate.
  - destruct r as [text|e msg]; [discriminate He|].
    destruct H as (_ & Hf & _). destruct (Hf He) as [-> _]. discriminate.
  - destruct r as [text|e msg]; [discriminate He|].
    destruct H as (_ & _ & Hu). destruct (Hu He) as [-> _]. discriminate.
Qed.

(** X19.  A session generates once.  After a call on an initialized
    session that returned a text, [OperationCancelled], [EvaluationFailed]
    or [UnknownError], every further generation, whatever its arguments,
    is answered with [InvalidParameters] "Generation already in progress"
    and changes nothing; [reset] in between does not help. *)
Theorem session_generates_once
    (eng : Engine) (fuel fuel' : nat) (conversation conversation' : list MultimodalMessage)
    (sp sp' : SamplingParams.t) (tcb tcb' : TokenCallback) (pcb pcb' : ProgressCallback)
    (tok tok' : option CancellationToken) (w : World) (r : KLlamaResult string) :
  initialized (self w) = true ->
  fst (generateResponseInternal eng fuel conversation sp tcb pcb tok w) = Some r ->
  ends_the_session r ->
  generateResponseInternal eng fuel' conversation' sp' tcb' pcb' tok'
    (snd (generateResponseInternal eng fuel conversation sp tcb pcb tok w))
  = (Some (Failure KLlamaError.InvalidParameters "Generation already in progress"),
     snd (generateResponseInternal eng fuel conversation sp tcb pcb tok w))
  /\ fst (generateResponseInternal eng fuel' conversation' sp' tcb' pcb' tok'
            (snd (reset (snd (generateResponseInternal eng fuel conversation sp
                                                        tcb pcb tok w)))))
     = Some (Failure KLlamaError.InvalidParameters "Generation already in progress").
Proof.
  intros Hi Hr He.
  pose proof (generateResponseInternal_stays_initialized eng fuel conversation sp
                tcb pcb tok w Hi) as Hk.
  pose proof (ended_session_is_not_idle eng fuel conversation sp tcb pcb tok w r Hr He)
    as Hn.
  unfold is_initialized in Hk.
  split.
  - apply generateResponseInternal_guard; assumption.
  - rewrite generateResponseInternal_guard; [reflexivity | |];
      rewrite reset_self; assumption.
Qed.

Lemma session_generates_once_witness :
  generateResponseInternal demo_engine 8 hello SamplingParams.default true false None
    (snd (generateResponseInternal demo_engine 8 hello SamplingParams.default true true
            (Some cancelled_after_first_poll) demo_ready))
  = (Some (Failure KLlamaError.InvalidParameters "Generation already in progress"),
     snd (generateResponseInternal demo_engine 8 hello SamplingParams.default true true
            (Some cancelled_after_first_poll) demo_ready))
  /\ fst (generateResponseInternal demo_engine 8 hello SamplingParams.default true false None
            (snd (reset (snd (generateResponseInternal demo_engine 8 hello
                                SamplingParams.default true true
                                (Some cancelled_after_first_poll) demo_ready)))))
     = Some (Failure KLlamaError.InvalidParameters "Generation already in progress").
Proof.
  apply (session_generates_once demo_engine 8 8 hello hello
           SamplingParams.default SamplingParams.default true true true false
           (Some cancelled_after_first_poll) None demo_ready
           (Failure KLlamaError.OperationCancelled ""));
    [reflexivity | reflexivity | right; left; reflexivity].
Defined.

(** ** Generation: calls that are rejected *)

(** X20.  A generation that the precondition checks reject has no
    effect.  On an initialized, idle session, when the conversation is
    empty, or one of its images is not accepted, or it has images and no
    vision engine is loaded, or the sampling parameters do not validate,
    the call returns [InvalidParameters] or [ImageProcessingFailed] and
    the whole world is as before: no field of the object has changed (the
    state is still [Idle], the sampler chain is the old one), no call has
    reached the engine and the cancellation token has not been polled. *)
Theorem rejected_generation_changes_nothing
    (eng : Engine) (fuel : nat) (conversation : list MultimodalMessage)
    (sp : SamplingParams.t) (tcb : TokenCallback) (pcb : ProgressCallback)
    (tok : option CancellationToken) (w : World) :
  initialized (self w) = true ->
  generationState (self w) = GenerationState.Idle ->
  rejected_by_checks (self w) conversation sp ->
  exists e msg,
    generateResponseInternal eng fuel conversation sp tcb pcb tok w
    = (Some (Failure e msg), w)
    /\ (e = KLlamaError.InvalidParameters \/ e = KLlamaError.ImageProcessingFailed).
Proof.
  destruct w as [[i ps g vc m c s bt st] tr n]. simpl. intros -> -> Hrej.
  unfold generateResponseInternal, prepare_generation. run.
  destruct conversation as [|message rest]; [eauto|].
  remember (extractAllImages (message :: rest)) as imgs eqn:Himgs.
  destruct (validate_images_cases imgs)
    as [[Hn Hall]|(before & bad & after & msg & _ & _ & _ & _ & Hr)];
    [rewrite Hn | rewrite Hr; eauto].
  simpl.
  destruct (negb match imgs with [] => true | _ :: _ => false end && is_null vc) eqn:Hv;
    [eauto|].
  unfold configureSampler.
  destruct (SamplingParams_validate_kinds sp) as [Hs | [msg Hs]]; rewrite Hs; simpl;
    [|eauto].
  exfalso. destruct Hrej as [H|[H|[[Hi Hc]|H]]].
  - discriminate H.
  - apply H, Forall_extractAllImages. rewrite <- Himgs. exact Hall.
  - rewrite <- Himgs in Hi. simpl in Hc. subst vc.
    destruct imgs; [contradiction | discriminate Hv].
  - rewrite Hs in H. discriminate H.
Qed.

Lemma rejected_generation_changes_nothing_witness :
  exists e msg,
    generateResponseInternal demo_engine 8 [short_image_message] SamplingParams.default
                             true true (Some already_cancelled) vision_ready
    = (Some (Failure e msg), vision_ready)
    /\ (e = KLlamaError.InvalidParameters \/ e = KLlamaError.ImageProcessingFailed).
Proof.
  apply (rejected_generation_changes_nothing demo_engine 8 [short_image_message]
           SamplingParams.default true true (Some already_cancelled) vision_ready);
    [reflexivity | reflexivity |].
  right. left. intros H. inversion H as [|? ? Hm _]. inversion Hm as [|? ? Ha _].
  destruct Ha as [Hl _]. simpl in Hl. lia.
Defined.

(** X21.  A chat template that cannot be applied leaves the session
    stuck.  On a ready session, with a conversation that passes the
    checks, valid sampling parameters and a sampler chain handed out by
    the engine: when [llama_chat_apply_template] answers with a negative
    length, the call returns [TokenizationFailed], the generation state
    stays [Initializing] while the statistics say [Idle], and every later
    generation is answered with "Generation already in progress". *)
Theorem failed_chat_template_leaves_session_initializing
    (eng : Engine) (fuel fuel' : nat) (conversation conversation' : list MultimodalMessage)
    (sp sp' : SamplingParams.t) (tcb tcb' : TokenCallback) (pcb pcb' : ProgressCallback)
    (tok tok' : option CancellationToken) (w : World) :
  ready (self w) ->
  conversation <> [] ->
  validate_images (extractAllImages conversation) = None ->
  (extractAllImages conversation = [] \/ visionContext (self w) <> None) ->
  SamplingParams.validate sp = Success tt ->
  llama_sampler_chain_init eng = true ->
  fst (llama_chat_apply_template eng (chat_messages conversation)
         (SessionParams.contextSize (params (self w)))) < 0 ->
  fst (generateResponseInternal eng fuel conversation sp tcb pcb tok w)
  = Some (Failure KLlamaError.TokenizationFailed
            "Failed to apply chat template. Prompt may be too long or template invalid.")
  /\ generationState
       (self (snd (generateResponseInternal eng fuel conversation sp tcb pcb tok w)))
     = GenerationState.Initializing
  /\ state (currentStats
       (self (snd (generateResponseInternal eng fuel conversation sp tcb pcb tok w))))
     = GenerationState.Idle
  /\ generateResponseInternal eng fuel' conversation' sp' tcb' pcb' tok'
       (snd (generateResponseInternal eng fuel conversation sp tcb pcb tok w))
     = (Some (Failure KLlamaError.InvalidParameters "Generation already in progress"),
        snd (generateResponseInternal eng fuel conversation sp tcb pcb tok w)).
Proof.
  intros [Hi Hg] Hne Hv Hvis Hs Hc Ht.
  pose proof (generateResponseInternal_stays_initialized eng fuel conversation sp
                tcb pcb tok w Hi) as Hk.
  unfold is_initialized in Hk.
  assert (H : fst (generateResponseInternal eng fuel conversation sp tcb pcb tok w)
              = Some (Failure KLlamaError.TokenizationFailed
                        "Failed to apply chat template. Prompt may be too long or template invalid.")
              /\ generationState
                   (self (snd (generateResponseInternal eng fuel conversation sp
                                                        tcb pcb tok w)))
                 = GenerationState.Initializing
              /\ state (currentStats
                   (self (snd (generateResponseInternal eng fuel conversation sp
                                                        tcb pcb tok w))))
                 = GenerationState.Idle).
  { clear Hk. unfold chat_messages in Ht. apply Z.ltb_lt in Ht.
    destruct w as [[i ps g vc m c s bt st] tr n]. simpl in Hi, Hg, Hvis, Ht. subst i g.
    unfold generateResponseInternal, prepare_generation. run.
    destruct conversation as [|message rest]; [contradiction|].
    remember (extractAllImages (message :: rest)) as imgs eqn:Himgs.
    remember (message :: rest) as conv eqn:Hconv.
    rewrite Hv.
    assert (Hn : negb match imgs with [] => true | _ :: _ => false end && is_null vc
                 = false).
    { destruct Hvis as [-> | Hvc]; [reflexivity|].
      destruct vc; [apply andb_false_r | contradiction]. }
    simpl. rewrite Hn.
    rewrite (configureSampler_run eng sp _ Hs Hc). cbn [isError error_of].
    unfold reset. run. rewrite Ht. simpl. repeat split. }
  destruct H as (Hr & Hst & Hss).
  repeat split; try assumption.
  apply generateResponseInternal_guard; [assumption|].
  rewrite Hst. discriminate.
Qed.

Lemma failed_chat_template_leaves_session_initializing_witness :
  fst (generateResponseInternal template_failing_engine 8 hello SamplingParams.default
                                true true None demo_ready)
  = Some (Failure KLlamaError.TokenizationFailed
            "Failed to apply chat template. Prompt may be too long or template invalid.")
  /\ generationState
       (self (snd (generateResponseInternal template_failing_engine 8 hello
                     SamplingParams.default true true None demo_ready)))
     = GenerationState.Initializing
  /\ state (currentStats
       (self (snd (generateResponseInternal template_failing_engine 8 hello
                     SamplingParams.default true true None demo_ready))))
     = GenerationState.Idle
  /\ generateResponseInternal template_failing_engine 8 hello SamplingParams.default
       true true None
       (snd (generateResponseInternal template_failing_engine 8 hello
               SamplingParams.default true true None demo_ready))
     = (Some (Failure KLlamaError.InvalidParameters "Generation already in progress"),
        snd (generateResponseInternal template_failing_engine 8 hello
               SamplingParams.default true true None demo_ready)).
Proof.
  apply (failed_chat_template_leaves_session_initializing template_failing_engine 8 8
           hello hello SamplingParams.default SamplingParams.default true true true true
           None None demo_ready);
    [split; reflexivity | discriminate | reflexivity | left; reflexivity
    | reflexivity | reflexivity | simpl; lia].
Defined.

(** ** Generation: what is streamed is what is returned *)

Lemma quiet_ret {A} (a : A) : quiet (ret a).
Proof. intros w. reflexivity. Qed.

Lemma quiet_bind {A B} (m : M A) (k : A -> M B) :
  quiet m -> (forall a, quiet (k a)) -> quiet (bind m k).
Proof.
  intros Hm Hk w. unfold bind. specialize (Hm w).
  destruct (m w) as [a w1]. simpl in Hm. rewrite <- Hm. apply Hk.
Qed.

Lemma quiet_get {A} (f : KLlama -> A) : quiet (get f).
Proof. intros w. reflexivity. Qed.

Lemma quiet_modify (f : KLlama -> KLlama) : quiet (modify f).
Proof. intros w. reflexivity. Qed.

Lemma quiet_emit (e : Event) : tokens_delivered [e] = [] -> quiet (emit e).
Proof.
  intros He w. simpl. rewrite tokens_delivered_app, He. apply app_nil_r.
Qed.

Lemma quiet_poll (tok : option CancellationToken) : quiet (poll tok).
Proof.
  intros w. destruct tok; [|reflexivity].
  simpl. rewrite tokens_delivered_app. apply app_nil_r.
Qed.

Lemma quiet_create_bitmaps (eng : Engine) (imgs : list ImageData) :
  quiet (create_bitmaps eng imgs).
Proof.
  induction imgs as [|i imgs IH]; [apply quiet_ret|].
  simpl. apply quiet_bind; [apply quiet_emit; reflexivity|].
  intros _. destruct (negb (mtmd_helper_bitmap_init_from_buf eng (data i)));
    [apply quiet_ret | exact IH].
Qed.

Ltac quiet_step :=
  first
    [ apply quiet_ret
    | apply quiet_get
    | apply quiet_modify
    | apply quiet_poll
    | apply quiet_create_bitmaps
    | apply quiet_emit; reflexivity
    | match goal with
      | |- quiet (if ?c then _ else _) => destruct c
      | |- quiet (match ?x with _ => _ end) => destruct x
      | |- quiet (let _ := _ in _) => cbv zeta
      | |- quiet (when _ _) => unfold when
      | |- quiet (report _ _) => unfold report, when
      end
    | apply quiet_bind; [|intros ?] ].

Lemma configureSampler_quiet (eng : Engine) (sp : SamplingParams.t) :
  quiet (configureSampler eng sp).
Proof. unfold configureSampler. cbv zeta. repeat quiet_step. Qed.

Lemma prepare_generation_quiet
    (eng : Engine) (conversation : list MultimodalMessage) (sp : SamplingParams.t)
    (pcb : ProgressCallback) (tok : option CancellationToken) :
  quiet (prepare_generation eng conversation sp pcb tok).
Proof.
  unfold prepare_generation.
  repeat first [apply configureSampler_quiet | quiet_step].
Qed.

Lemma wrap_int32_range (z : Z) : int32_range (wrap_int32 z).
Proof.
  unfold int32_range, INT32_MIN, INT32_MAX, wrap_int32.
  pose proof (Z.mod_pos_bound (z + 2 ^ 31) (2 ^ 32) ltac:(lia)). lia.
Qed.

Lemma wrap_int32_add_l (a b : Z) : wrap_int32 (wrap_int32 a + b) = wrap_int32 (a + b).
Proof.
  unfold wrap_int32. f_equal.
  replace (((a + 2 ^ 31) mod 2 ^ 32 - 2 ^ 31) + b + 2 ^ 31)
    with ((a + 2 ^ 31) mod 2 ^ 32 + b) by lia.
  rewrite Z.add_mod_idemp_l by lia. f_equal. lia.
Qed.

Lemma join_app (a b : list string) : join (a ++ b) = (join a ++ join b)%string.
Proof.
  induction a as [|x a IH]; [reflexivity|].
  simpl. rewrite IH. induction x as [|c x IHx]; [reflexivity|].
  simpl. rewrite IHx. reflexivity.
Qed.

Lemma append_assoc (a b c : string) : ((a ++ b) ++ c = a ++ (b ++ c))%string.
Proof. induction a as [|x a IH]; [reflexivity|]. simpl. rewrite IH. reflexivity. Qed.

Lemma append_empty_r (a : string) : (a ++ "" = a)%string.
Proof. induction a as [|x a IH]; [reflexivity|]. simpl. rewrite IH. reflexivity. Qed.

Lemma streams_nothing (tcb : TokenCallback) (v v' : LoopVars) (w w' : World) :
  int32_range (tokenCount v) ->
  response_text v' = response_text v ->
  tokenCount v' = tokenCount v ->
  tokens_delivered (trace w') = tokens_delivered (trace w) ->
  tokensGenerated (currentStats (self w')) = tokensGenerated (currentStats (self w)) ->
  streams tcb v w v' w' [].
Proof.
  intros Hr Ht Hc Hd Hs. unfold streams. simpl.
  rewrite Ht, Hc, Hd, append_empty_r, Z.add_0_r, wrap_int32_small by exact Hr.
  split; [reflexivity|].
  split; [destruct tcb; symmetry; apply app_nil_r|].
  split; [reflexivity|].
  split; [intros _; exact Hs | intros H; exfalso; apply H; reflexivity].
Qed.

Lemma streams_one_more (tcb : TokenCallback) (v v2 v' : LoopVars) (w w2 w' : World)
    (piece : string) (pieces : list string) :
  response_text v2 = (response_text v ++ piece)%string ->
  tokenCount v2 = wrap_int32 (tokenCount v + 1) ->
  tokens_delivered (trace w2)
  = (tokens_delivered (trace w) ++ (if tcb then [piece] else []))%list ->
  tokensGenerated (currentStats (self w2)) = tokenCount v2 ->
  streams tcb v2 w2 v' w' pieces ->
  streams tcb v w v' w' (piece :: pieces).
Proof.
  intros Ht Hc Hd Hs (Ht' & Hd' & Hc' & He & Hn). unfold streams.
  split; [rewrite Ht', Ht, append_assoc; reflexivity|].
  split; [rewrite Hd', Hd, <- app_assoc; destruct tcb; reflexivity|].
  assert (Hcount : tokenCount v'
                   = wrap_int32 (tokenCount v + Z.of_nat (List.length (piece :: pieces)))).
  { rewrite Hc', Hc, wrap_int32_add_l. f_equal. simpl List.length. lia. }
  split; [exact Hcount|]. split; [discriminate|]. intros _.
  destruct pieces as [|p ps].
  - rewrite (He eq_refl), Hs, Hc'. simpl. rewrite Z.add_0_r.
    symmetry. apply wrap_int32_small. rewrite Hc. apply wrap_int32_range.
  - apply Hn. discriminate.
Qed.

(** The body of the loop after the poll: one goal for each way out. *)
Ltac nothing_streamed :=
  intros [= <- <- <-]; exists []; apply streams_nothing; trivial;
  simpl; rewrite !tokens_delivered_app; simpl; rewrite ?app_nil_r; reflexivity.

Ltac loop_body_cases eng sp tcb pcb v IH :=
  destruct (llama_sampler_sample eng (iterations v) =? LLAMA_TOKEN_NULL eng); simpl;
  [ nothing_streamed
  | destruct (llama_vocab_is_eog eng (llama_sampler_sample eng (iterations v))); simpl;
    [ nothing_streamed
    | let bytes := fresh "bytes" in
      destruct (tokenToString (llama_token_to_piece eng)
                              (llama_sampler_sample eng (iterations v)))
        as [[bytes|?]|]; simpl;
      [ destruct tcb; simpl;
        (destruct (llama_decode eng (iterations v) =? 0); simpl;
         [ destruct (pcb && (0 <? SamplingParams.nPredict sp)); simpl;
           (let Hloop := fresh "Hloop" in
            let pieces := fresh "pieces" in
            let Hp := fresh "Hp" in
            intros Hloop; apply IH in Hloop; [|apply wrap_int32_range];
            destruct Hloop as [pieces Hp];
            exists (string_of_list_byte bytes :: pieces);
            refine (streams_one_more _ _ _ _ _ _ _ _ _ _ _ _ _ Hp); try reflexivity;
            simpl; rewrite !tokens_delivered_app; simpl; rewrite ?app_nil_r; reflexivity)
         | intros [= <- <- <-];
           exists [string_of_list_byte bytes];
           match goal with
           | |- streams ?cb ?v0 ?w0 ?v1 ?w1 (?piece :: _) =>
               apply (streams_one_more cb v0 v1 v1 w0 w1 w1 piece []);
               [ reflexivity
               | reflexivity
               | simpl; rewrite !tokens_delivered_app; simpl; rewrite ?app_nil_r; reflexivity
               | reflexivity
               | apply streams_nothing; try reflexivity; apply wrap_int32_range ]
           end ])
      | nothing_streamed
      | intros H; discriminate H ] ] ].

Lemma generation_loop_streams
    (eng : Engine) (sp : SamplingParams.t) (tcb : TokenCallback) (pcb : ProgressCallback)
    (tok : option CancellationToken) (maxT : Z) (fuel : nat) :
  forall (v : LoopVars) (w : World) (out : LoopExit) (v' : LoopVars) (w' : World),
    int32_range (tokenCount v) ->
    generation_loop eng fuel sp tcb pcb tok maxT v w = (Some (out, v'), w') ->
    exists pieces, streams tcb v w v' w' pieces.
Proof.
  induction fuel as [|fuel IH]; intros v [[i ps g vc m c s bt st] tr n] out v' w' Hr.
  - simpl. run.
    destruct (GenerationState.eqb g GenerationState.Generating && (tokenCount v <? maxT));
      simpl; intros [= <- <- <-].
    exists []. apply streams_nothing; trivial.
  - simpl. run.
    destruct (GenerationState.eqb g GenerationState.Generating && (tokenCount v <? maxT));
      simpl.
    2: { intros [= <- <- <-]. exists []. apply streams_nothing; trivial. }
    destruct tok as [t|]; simpl; [destruct (t n); simpl|].
    + intros [= <- <- <-]. exists []. apply streams_nothing; trivial.
      simpl. rewrite tokens_delivered_app. apply app_nil_r.
    + loop_body_cases eng sp tcb pcb v IH.
    + loop_body_cases eng sp tcb pcb v IH.
Qed.


Lemma generation_loop_leaves_with_failure
    (eng : Engine) (sp : SamplingParams.t) (tcb : TokenCallback) (pcb : ProgressCallback)
    (tok : option CancellationToken) (maxT : Z) (fuel : nat) (v : LoopVars) :
  hoare anything (generation_loop eng fuel sp tcb pcb tok maxT v) leaves_with_failure.
Proof.
  revert v. induction fuel as [|fuel IH]; intros v; simpl;
    repeat first [apply hoare_anything; apply IH | matches_step].
Qed.

Lemma loop_start_world_quiet (pcb : ProgressCallback) (w0 : World) :
  tokens_delivered (trace (loop_start_world pcb w0)) = tokens_delivered (trace w0).
Proof.
  destruct pcb; [|reflexivity].
  simpl. rewrite tokens_delivered_app. apply app_nil_r.
Qed.

(** X22.  What is streamed is what is returned.  When a generation
    returns a text, the text is the concatenation of the fragments the
    loop produced; with a token callback installed these are exactly the
    fragments handed to it during the call, in order, and without one
    nothing is handed over; the token count of the statistics is the
    number of fragments (as a 32-bit integer). *)
Theorem streamed_fragments_make_the_response
    (eng : Engine) (fuel : nat) (conversation : list MultimodalMessage)
    (sp : SamplingParams.t) (tcb : TokenCallback) (pcb : ProgressCallback)
    (tok : option CancellationToken) (w : World) (text : string) :
  fst (generateResponseInternal eng fuel conversation sp tcb pcb tok w)
  = Some (Success text) ->
  exists pieces,
    text = join pieces
    /\ tokens_delivered
         (trace (snd (generateResponseInternal eng fuel conversation sp tcb pcb tok w)))
       = (tokens_delivered (trace w) ++ (if tcb then pieces else []))%list
    /\ tokensGenerated
         (currentStats
            (self (snd (generateResponseInternal eng fuel conversation sp tcb pcb tok w))))
       = wrap_int32 (Z.of_nat (List.length pieces)).
Proof.
  pose proof (prepare_generation_quiet eng conversation sp pcb tok w) as Hq.
  pose proof (prepare_generation_resets_stats eng conversation sp pcb tok w) as Hz.
  unfold generateResponseInternal. rewrite bind_run.
  destruct (prepare_generation eng conversation sp pcb tok w) as [[[past0|e msg]|] w0].
  2: { simpl. discriminate. }
  2: { simpl. discriminate. }
  simpl in Hq. specialize (Hz past0 eq_refl). unfold count_is_zero in Hz. simpl in Hz.
  cbn [fst snd]. rewrite !bind_run.
  fold (loop_start_world pcb w0).
  pose proof (generation_loop_leaves_with_failure eng sp tcb pcb tok (maxTokens_of sp) fuel
                (loop_entry past0) (loop_start_world pcb w0) I) as Hl.
  destruct (generation_loop eng fuel sp tcb pcb tok (maxTokens_of sp) (loop_entry past0)
              (loop_start_world pcb w0)) as [[[[|r|e] v']|] w1] eqn:E; cbn [fst snd] in *.
  - destruct (generation_loop_streams eng sp tcb pcb tok (maxTokens_of sp) fuel
                (loop_entry past0) (loop_start_world pcb w0) Exit_loop v' w1)
      as (pieces & Ht & Hd & Hc & He & Hn).
    { unfold int32_range, INT32_MIN, INT32_MAX. simpl. lia. }
    { exact E. }
    rewrite loop_start_world_quiet, Hq in Hd.
    rewrite loop_start_world_count, Hz in He.
    simpl in Ht, Hc.
    assert (Hstats : tokensGenerated (currentStats (self w1))
                     = wrap_int32 (Z.of_nat (List.length pieces))).
    { destruct pieces as [|p ps]; [exact (He eq_refl)|].
      rewrite Hn by discriminate. exact Hc. }
    destruct pcb; simpl; intros [= <-]; exists pieces;
      (split; [exact Ht|]); (split; [|exact Hstats]).
    + rewrite tokens_delivered_app. simpl. rewrite app_nil_r. exact Hd.
    + exact Hd.
  - simpl. intros [= ->]. contradiction.
  - simpl. discriminate.
  - simpl. discriminate.
Qed.

Lemma streamed_fragments_make_the_response_witness :
  exists pieces,
    "Hello" = join pieces
    /\ tokens_delivered
         (trace (snd (generateResponseInternal demo_engine 8 hello SamplingParams.default
                        true false None demo_ready)))
       = (tokens_delivered (trace demo_ready) ++ (if true then pieces else []))%list
    /\ tokensGenerated
         (currentStats
            (self (snd (generateResponseInternal demo_engine 8 hello SamplingParams.default
                          true false None demo_ready))))
       = wrap_int32 (Z.of_nat (List.length pieces)).
Proof.
  apply (streamed_fragments_make_the_response demo_engine 8 hello SamplingParams.default
           true false None demo_ready "Hello").
  reflexivity.
Defined.

(** ** The JNI layer: cancellation *)

Lemma returns_ret {A} (R : A -> Prop) (a : A) : R a -> returns R (ret a).
Proof. intros H w. exact H. Qed.

Lemma returns_bind {A B} (R : B -> Prop) (m : M A) (k : A -> M B) :
  (forall a, returns R (k a)) -> returns R (bind m k).
Proof. intros Hk w. unfold bind. destruct (m w) as [a w1]. apply Hk. Qed.

Lemma returns_bind_val {A B} (R' : A -> Prop) (R : B -> Prop) (m : M A) (k : A -> M B) :
  returns R' m -> (forall a, R' a -> returns R (k a)) -> returns R (bind m k).
Proof.
  intros Hm Hk w. unfold bind. specialize (Hm w).
  destruct (m w) as [a w1]. apply Hk, Hm.
Qed.

(** A poll of the token handed over by the JNI layer answers [false]. *)
Lemma returns_poll_base_flag {B} (R : B -> Prop) (k : bool -> M B) :
  returns R (k false) -> returns R (bind (poll (Some Jni.base_flag)) k).
Proof. intros Hk w. unfold bind, poll. simpl. apply Hk. Qed.

Lemma returns_hoare {A} (m : M A) (R : A -> Prop) :
  hoare anything m (fun a _ => R a) -> returns R m.
Proof. intros H w. exact (H w I). Qed.

Ltac kinds_leaf :=
  unfold outcome_not_cancelled, loop_not_cancelled, answer_not_cancelled in *;
  cbv beta iota in *;
  unfold not_cancelled in *;
  cbn [error_of] in *;
  first
    [ exact I
    | discriminate
    | assumption
    | match goal with
      | H : In _ _ |- _ => simpl in H; intuition congruence
      end ].

Ltac returns_step :=
  first
    [ apply returns_ret; kinds_leaf
    | apply returns_poll_base_flag; cbv iota
    | match goal with
      | |- returns _ (bind checkInitialized _) =>
          eapply returns_bind_val;
          [apply returns_hoare, hoare_checkInitialized | intros ? ?]
      | |- returns _ (bind reset _) =>
          eapply returns_bind_val; [apply returns_hoare, hoare_reset | intros ? ?]
      | |- returns _ (bind (configureSampler _ _) _) =>
          eapply returns_bind_val;
          [apply returns_hoare, hoare_configureSampler | intros ? ?]
      | |- returns _ (if ?c then _ else _) => destruct c
      | |- returns _ (match ?x with _ => _ end) => destruct x
      | |- returns _ (let _ := _ in _) => cbv zeta
      end
    | apply returns_bind; intros ? ].

Lemma initializeModel_not_cancelled (eng : Engine) (cb : ProgressCallback) :
  returns not_cancelled (initializeModel eng cb (Some Jni.base_flag)).
Proof. unfold initializeModel. repeat returns_step. Qed.

Lemma initializeVision_not_cancelled (eng : Engine) (cb : ProgressCallback) :
  returns not_cancelled (initializeVision eng cb (Some Jni.base_flag)).
Proof. unfold initializeVision. repeat returns_step. Qed.

Lemma initialize_not_cancelled (eng : Engine) (sp : SessionParams.t) (cb : ProgressCallback) :
  returns outcome_not_cancelled (initialize eng sp cb (Some Jni.base_flag)).
Proof.
  unfold initialize. cbv zeta.
  destruct (SessionParams_validate_cases eng sp)
    as [[Hv _]|[(r & Hv & He & _ & Hk)|(e & Hv & _)]].
  2: { rewrite Hv. cbv iota beta. rewrite He. unfold validation_errors in Hk.
       apply returns_bind; intros [|]; apply returns_ret; kinds_leaf. }
  2: { rewrite Hv. cbv iota beta.
       apply returns_bind; intros [|]; apply returns_ret; kinds_leaf. }
  - rewrite Hv. cbv iota beta.
    repeat first
      [ match goal with
        | |- returns _ (bind (initializeModel _ _ _) _) =>
            eapply returns_bind_val; [apply initializeModel_not_cancelled | intros ? ?]
        | |- returns _ (bind (if _ then initializeVision _ _ _ else _) _) =>
            eapply returns_bind_val;
            [ match goal with
              | |- returns _ (if ?c then _ else _) =>
                  destruct c;
                  [apply initializeVision_not_cancelled | apply returns_ret; discriminate]
              end
            | intros ? ? ]
        end
      | returns_step ].
Qed.

Lemma evaluate_text_prompt_not_cancelled
    (eng : Engine) (fullPrompt : string) (past0 : Z) (pcb : ProgressCallback) :
  returns answer_not_cancelled (evaluate_text_prompt eng fullPrompt past0 pcb).
Proof. unfold evaluate_text_prompt. repeat returns_step. Qed.

Lemma evaluate_multimodal_prompt_not_cancelled
    (eng : Engine) (allImages : list ImageData) (fullPrompt : string) (past0 : Z)
    (pcb : ProgressCallback) :
  returns not_cancelled
          (evaluate_multimodal_prompt eng allImages fullPrompt past0 pcb
                                      (Some Jni.base_flag)).
Proof. unfold evaluate_multimodal_prompt. repeat returns_step. Qed.

Lemma prepare_generation_not_cancelled
    (eng : Engine) (conversation : list MultimodalMessage) (sp : SamplingParams.t)
    (pcb : ProgressCallback) :
  returns answer_not_cancelled
          (prepare_generation eng conversation sp pcb (Some Jni.base_flag)).
Proof.
  unfold prepare_generation.
  repeat first
    [ match goal with
      | |- returns _ (match validate_images ?imgs with _ => _ end) =>
          destruct (validate_images_cases imgs)
            as [[-> _]|(? & ? & ? & ? & _ & _ & _ & _ & ->)]
      | |- returns _ (bind (if _ then bind (evaluate_multimodal_prompt _ _ _ _ _ _) _
                            else evaluate_text_prompt _ _ _ _) _) =>
          eapply returns_bind_val with (R' := answer_not_cancelled);
          [ match goal with
            | |- returns _ (if ?c then _ else _) =>
                destruct c;
                [ eapply returns_bind_val;
                  [ apply evaluate_multimodal_prompt_not_cancelled
                  | let Hr := fresh "Hr" in
                    intros ? Hr; apply returns_ret; exact Hr ]
                | apply evaluate_text_prompt_not_cancelled ]
            end
          | intros ? ? ]
      end
    | returns_step ].
Qed.

Lemma generation_loop_not_cancelled
    (eng : Engine) (sp : SamplingParams.t) (tcb : TokenCallback) (pcb : ProgressCallback)
    (maxT : Z) (fuel : nat) (v : LoopVars) :
  returns loop_not_cancelled
          (generation_loop eng fuel sp tcb pcb (Some Jni.base_flag) maxT v).
Proof.
  revert v. induction fuel as [|fuel IH]; intros v; simpl;
    repeat first [apply IH | returns_step].
Qed.

Lemma generateResponseInternal_not_cancelled
    (eng : Engine) (fuel : nat) (conversation : list MultimodalMessage)
    (sp : SamplingParams.t) (tcb : TokenCallback) (pcb : ProgressCallback) :
  returns answer_not_cancelled
          (generateResponseInternal eng fuel conversation sp tcb pcb (Some Jni.base_flag)).
Proof.
  unfold generateResponseInternal.
  eapply returns_bind_val; [apply prepare_generation_not_cancelled|].
  intros [[past0|e msg]|] Hp; [|apply returns_ret; exact Hp|apply returns_ret; exact I].
  apply returns_bind; intros _. apply returns_bind; intros _.
  eapply returns_bind_val; [apply generation_loop_not_cancelled|].
  intros [[[|r|e] v]|] Hl; repeat returns_step.
Qed.

(** X23.  Cancellation requested from Java is never seen.  The native
    layer hands the class a token whose [isCancelled] is the base-class
    method, which reads a flag that nothing sets; so whatever the Java
    token answers, on every peer, [initializeNative] and
    [generateResponseNative] never return [OperationCancelled]. *)
Theorem java_cancellation_is_never_seen
    (eng : Engine) (fuel : nat) (sp : SessionParams.t)
    (conversation : list MultimodalMessage) (sampling : SamplingParams.t)
    (tcb : TokenCallback) (pcb : ProgressCallback)
    (j_cancel_token : option CancellationToken) (p : Jni.Peer) :
  match fst (Jni.initializeNative eng sp pcb j_cancel_token p) with
  | Returns r => error_of r <> KLlamaError.OperationCancelled
  | Throws _ => True
  end
  /\ match fst (Jni.generateResponseNative eng fuel conversation sampling tcb pcb
                                           j_cancel_token p) with
     | Some r => error_of r <> KLlamaError.OperationCancelled
     | None => True
     end.
Proof.
  split.
  - unfold Jni.initializeNative.
    pose proof (initialize_not_cancelled eng sp pcb
                  (mkWorld KLlama_new (Jni.jtrace p) (Jni.jpolls p))) as H.
    destruct (initialize eng sp pcb (Some Jni.base_flag)
                (mkWorld KLlama_new (Jni.jtrace p) (Jni.jpolls p))) as [[r|e] w];
      [|exact I].
    simpl in H. destruct (isSuccess r); [exact H|].
    destruct (destroy w). exact H.
  - unfold Jni.generateResponseNative, generateResponse_with.
    destruct (Jni.nativeHandle p) as [k|]; [|simpl; discriminate].
    pose proof (generateResponseInternal_not_cancelled eng fuel conversation sampling
                  tcb pcb (mkWorld k (Jni.jtrace p) (Jni.jpolls p))) as H.
    destruct (generateResponseInternal eng fuel conversation sampling tcb pcb
                (Some Jni.base_flag) (mkWorld k (Jni.jtrace p) (Jni.jpolls p))) as [r w].
    exact H.
Qed.

(** On [demo_engine], with a Java token that is cancelled from the start:
    initialization goes through and the text is generated to the end. *)
Example cancelled_java_token_is_ignored :
  fst (Jni.initializeNative demo_engine demo_params false (Some java_cancelled)
                            (Jni.peer_new [] O)) = Returns (Success tt)
  /\ fst (Jni.generateResponseNative demo_engine 8 hello SamplingParams.default true false
                                     (Some java_cancelled) demo_peer)
     = Some (Success "Hello").
Proof. split; reflexivity. Qed.

(** ** The JNI layer: the handle *)

Lemma isError_isSuccess {T} (r : KLlamaResult T) : isError r = negb (isSuccess r).
Proof. reflexivity. Qed.

Lemma initialize_new_object
    (eng : Engine) (sp : SessionParams.t) (cb : ProgressCallback)
    (tok : option CancellationToken) (tr : list Event) (n : nat) :
  (fst (initialize eng sp cb tok (mkWorld KLlama_new tr n)) = Returns (Success tt)
   /\ initialize_succeeded eng sp (mkWorld KLlama_new tr n)
        (snd (initialize eng sp cb tok (mkWorld KLlama_new tr n))))
  \/ (exists r,
        fst (initialize eng sp cb tok (mkWorld KLlama_new tr n)) = Returns r
        /\ initialize_failed (mkWorld KLlama_new tr n)
             (snd (initialize eng sp cb tok (mkWorld KLlama_new tr n))) r)
  \/ (exists e,
        fst (initialize eng sp cb tok (mkWorld KLlama_new tr n)) = Throws e
        /\ initialize_threw eng sp (mkWorld KLlama_new tr n)
             (snd (initialize eng sp cb tok (mkWorld KLlama_new tr n))) e).
Proof. apply initialize_outcome; [reflexivity | repeat split]. Qed.

Lemma initialize_succeeded_ready (eng : Engine) (sp : SessionParams.t) (w w' : World) :
  initialize_succeeded eng sp w w' ->
  session_ready (fs_exists eng) (self w') /\ params (self w') = sp.
Proof.
  intros (mh & ch & _ & _ & Hself & Hv & Hok & _). rewrite Hself.
  unfold session_ready, session_loaded. simpl.
  repeat split; try assumption; try discriminate.
  destruct (empty (SessionParams.mmprojPath sp)); [reflexivity|].
  destruct (mtmd_init_from_file eng (SessionParams.mmprojPath sp));
    [reflexivity | exfalso; apply Hv; reflexivity].
Qed.

Lemma native_handle_ready (eng : Engine) (p : Jni.Peer) :
  Jni.reachable eng p ->
  forall k, Jni.nativeHandle p = Some k -> session_ready (fs_exists eng) k.
Proof.
  induction 1 as [tr n | c p Hr IH]; [discriminate|].
  destruct c as [j_params j_progress_cb j_cancel_token
                |fuel j_conversation j_sampling j_token_cb j_progress_cb j_cancel_token
                |]; simpl.
  - unfold Jni.initializeNative.
    destruct (initialize_new_object eng j_params j_progress_cb (Some Jni.base_flag)
                (Jni.jtrace p) (Jni.jpolls p))
      as [[Hs Hok]|[(r & Hs & He & _)|(e & Hs & _)]].
    + destruct (initialize eng j_params j_progress_cb (Some Jni.base_flag)
                  (mkWorld KLlama_new (Jni.jtrace p) (Jni.jpolls p))) as [o w].
      simpl in Hs, Hok. subst o. simpl. intros k [= <-].
      apply (initialize_succeeded_ready eng j_params _ _ Hok).
    + destruct (initialize eng j_params j_progress_cb (Some Jni.base_flag)
                  (mkWorld KLlama_new (Jni.jtrace p) (Jni.jpolls p))) as [o w].
      simpl in Hs. subst o. rewrite isError_isSuccess in He.
      destruct (isSuccess r); [discriminate He|].
      destruct (destroy w). simpl. discriminate.
    + destruct (initialize eng j_params j_progress_cb (Some Jni.base_flag)
                  (mkWorld KLlama_new (Jni.jtrace p) (Jni.jpolls p))) as [o w].
      simpl in Hs. subst o. simpl. exact IH.
  - unfold Jni.generateResponseNative, generateResponse_with.
    destruct (Jni.nativeHandle p) as [k0|] eqn:Hh; [|simpl; rewrite Hh; discriminate].
    pose proof (generateResponseInternal_keeps_ready eng (fs_exists eng) fuel
                  j_conversation j_sampling j_token_cb j_progress_cb (Some Jni.base_flag)
                  (mkWorld k0 (Jni.jtrace p) (Jni.jpolls p)) (IH k0 eq_refl)) as Hk.
    destruct (generateResponseInternal eng fuel j_conversation j_sampling j_token_cb
                j_progress_cb (Some Jni.base_flag)
                (mkWorld k0 (Jni.jtrace p) (Jni.jpolls p))) as [r w].
    simpl in *. intros k [= <-]. exact Hk.
  - unfold Jni.freeMemory.
    destruct (Jni.nativeHandle p) as [k0|] eqn:Hh; [|rewrite Hh; discriminate].
    destruct (destroy (mkWorld k0 (Jni.jtrace p) (Jni.jpolls p))). simpl. discriminate.
Qed.

(** X24.  Through the native layer a session is either absent or ready.
    On every peer produced by native calls, a non-null handle points to
    an initialized object that holds model, context and batch buffer, so
    the statistics query succeeds and the class's own "must be
    initialized" answer never comes out; with a null handle, generation
    and the statistics query answer [NotInitialized] with the text "KLlama
    not initialized", and generation leaves the peer untouched. *)
Theorem native_session_is_absent_or_ready
    (eng : Engine) (fuel : nat) (conversation : list MultimodalMessage)
    (sampling : SamplingParams.t) (tcb : TokenCallback) (pcb : ProgressCallback)
    (j_cancel_token : option CancellationToken) (p : Jni.Peer) :
  Jni.reachable eng p ->
  (forall k, Jni.nativeHandle p = Some k ->
     initialized k = true /\ session_loaded k
     /\ Jni.getGenerationStatsNative p = Success (currentStats k))
  /\ (Jni.nativeHandle p = None ->
      Jni.getGenerationStatsNative p
      = Failure KLlamaError.NotInitialized "KLlama not initialized"
      /\ Jni.generateResponseNative eng fuel conversation sampling tcb pcb j_cancel_token p
         = (Some (Failure KLlamaError.NotInitialized "KLlama not initialized"), p)).
Proof.
  intros Hr. split.
  - intros k Hk. destruct (native_handle_ready eng p Hr k Hk) as (Hi & Hl & _).
    split; [exact Hi|]. split; [exact Hl|].
    unfold Jni.getGenerationStatsNative, getGenerationStats. rewrite Hk.
    run. rewrite Hi. reflexivity.
  - intros Hn. unfold Jni.getGenerationStatsNative, Jni.generateResponseNative.
    rewrite Hn. split; reflexivity.
Qed.

Lemma reachable_after_initializeNative
    (eng : Engine) (sp : SessionParams.t) (pcb : ProgressCallback)
    (j_cancel_token : option CancellationToken) (p : Jni.Peer) :
  Jni.reachable eng p ->
  Jni.reachable eng (snd (Jni.initializeNative eng sp pcb j_cancel_token p)).
Proof.
  intros H. exact (Jni.reachable_step eng (Jni.Do_initializeNative sp pcb j_cancel_token) p H).
Qed.

Lemma native_session_is_absent_or_ready_witness :
  (forall k, Jni.nativeHandle demo_peer = Some k ->
     initialized k = true /\ session_loaded k
     /\ Jni.getGenerationStatsNative demo_peer = Success (currentStats k))
  /\ (Jni.nativeHandle demo_peer = None ->
      Jni.getGenerationStatsNative demo_peer
      = Failure KLlamaError.NotInitialized "KLlama not initialized"
      /\ Jni.generateResponseNative demo_engine 8 hello SamplingParams.default true false
                                    None demo_peer
         = (Some (Failure KLlamaError.NotInitialized "KLlama not initialized"),
            demo_peer)).
Proof.
  apply (native_session_is_absent_or_ready demo_engine 8 hello SamplingParams.default
           true false None demo_peer).
  apply reachable_after_initializeNative, Jni.reachable_new.
Defined.

(** X25.  [initializeNative] always starts from a new object.  On every
    peer it never answers [AlreadyInitialized]; when it succeeds the
    handle points to a ready session that stores the parameters given;
    when it fails the handle is null, also when a session was there
    before.  The object that the handle pointed to before the call is
    neither deleted nor freed: it joins the orphans, and a successful
    call makes no releasing call at all.  When [initialize] throws, the
    exception leaves the native function: the handle and the engine trace
    are as before, and the object just made is the one that is lost. *)
Theorem initializeNative_replaces_the_session
    (eng : Engine) (sp : SessionParams.t) (pcb : ProgressCallback)
    (j_cancel_token : option CancellationToken) (p : Jni.Peer) :
  (exists r,
     fst (Jni.initializeNative eng sp pcb j_cancel_token p) = Returns r
     /\ error_of r <> KLlamaError.AlreadyInitialized
     /\ Jni.orphans (snd (Jni.initializeNative eng sp pcb j_cancel_token p))
        = Jni.dropped p
     /\ ((r = Success tt
          /\ (exists k,
                Jni.nativeHandle (snd (Jni.initializeNative eng sp pcb j_cancel_token p))
                = Some k
                /\ session_ready (fs_exists eng) k /\ params k = sp)
          /\ (exists added,
                Jni.jtrace (snd (Jni.initializeNative eng sp pcb j_cancel_token p))
                = (Jni.jtrace p ++ added)%list
                /\ filter releases added = []))
         \/ (isError r = true
             /\ Jni.nativeHandle (snd (Jni.initializeNative eng sp pcb j_cancel_token p))
                = None)))
  \/ (exists e,
        fst (Jni.initializeNative eng sp pcb j_cancel_token p) = Throws e
        /\ validation_throws eng sp = Some e
        /\ snd (Jni.initializeNative eng sp pcb j_cancel_token p)
           = Jni.mkPeer (Jni.nativeHandle p) (KLlama_new :: Jni.orphans p)
                        (Jni.jtrace p) (Jni.jpolls p)).
Proof.
  unfold Jni.initializeNative.
  destruct (initialize_new_object eng sp pcb (Some Jni.base_flag)
              (Jni.jtrace p) (Jni.jpolls p))
    as [[Hs Hok]|[(r & Hs & He & Hk & Hu & _)|(e & Hs & Ht & Hw)]];
    destruct (initialize eng sp pcb (Some Jni.base_flag)
                (mkWorld KLlama_new (Jni.jtrace p) (Jni.jpolls p))) as [o w];
    simpl in *; subst o.
  - left. exists (Success tt). simpl.
    split; [reflexivity|]. split; [discriminate|]. split; [reflexivity|]. left.
    split; [reflexivity|].
    destruct (initialize_succeeded_ready eng sp _ _ Hok) as [Hready Hp].
    split; [exists (self w); auto|].
    destruct Hok as (mh & ch & _ & _ & _ & _ & _ & added & Ht & _ & Hrel).
    exists added. split; assumption.
  - left. exists r. rewrite isError_isSuccess in He.
    destruct (isSuccess r) eqn:Hsucc; [discriminate He|].
    rewrite (destroy_uninitialized w Hu). simpl.
    split; [reflexivity|]. split.
    + unfold initialize_errors in Hk. simpl in Hk. intuition congruence.
    + split; [reflexivity|]. right. split; [|reflexivity].
      rewrite isError_isSuccess, Hsucc. reflexivity.
  - right. exists e. subst w. simpl. repeat split. exact Ht.
Qed.

(** On [demo_engine]: a second [initializeNative], this time with a
    model file that does not exist, fails with [ModelNotFound] and leaves
    the peer without a session; the first session, still initialized and
    still holding its model, is the one orphan. *)
Example failed_initializeNative_loses_the_session :
  returned_error (fst (Jni.initializeNative demo_engine missing_params false None demo_peer))
  = Some KLlamaError.ModelNotFound
  /\ Jni.nativeHandle (snd (Jni.initializeNative demo_engine missing_params false None
                                                 demo_peer)) = None
  /\ map (fun k => (initialized k, is_null (model k)))
         (Jni.orphans (snd (Jni.initializeNative demo_engine missing_params false None
                                                 demo_peer)))
     = [(true, false)].
Proof. split; [|split]; vm_compute; reflexivity. Qed.

Lemma freeMemory_initialized_trace (w : World) :
  initialized (self w) = true ->
  exists added,
    trace (snd (freeMemory w)) = (trace w ++ added)%list
    /\ count is_backend_free added = 1%nat
    /\ filter acquires added = [].
Proof.
  open_world w. intros ->.
  handle_cases; simpl; eexists;
    (split; [rewrite <- ?app_assoc; reflexivity|]); split; reflexivity.
Qed.

Lemma destroy_initialized (w : World) :
  initialized (self w) = true -> destroy w = (tt, snd (freeMemory w)).
Proof.
  intros Hi. unfold destroy. run. rewrite Hi. simpl.
  destruct (freeMemory w). reflexivity.
Qed.

(** X26.  The native [freeMemory] tears the session down.  On every
    peer produced by native calls that has a session, deleting the object
    runs [KLlama::freeMemory] (the destructor finds it initialized): the
    calls made are those of [freeMemory] on that session, with exactly one
    [llama_backend_free] and no acquiring call, and the handle becomes
    null; a second native [freeMemory] changes nothing. *)
Theorem native_freeMemory_tears_down (eng : Engine) (p : Jni.Peer) :
  Jni.reachable eng p ->
  Jni.nativeHandle (Jni.freeMemory p) = None
  /\ Jni.freeMemory (Jni.freeMemory p) = Jni.freeMemory p
  /\ Jni.orphans (Jni.freeMemory p) = Jni.orphans p
  /\ (forall k, Jni.nativeHandle p = Some k ->
        Jni.jtrace (Jni.freeMemory p)
        = trace (snd (freeMemory (mkWorld k (Jni.jtrace p) (Jni.jpolls p))))
        /\ exists added,
             Jni.jtrace (Jni.freeMemory p) = (Jni.jtrace p ++ added)%list
             /\ count is_backend_free added = 1%nat
             /\ filter acquires added = []).
Proof.
  intros Hr. pose proof (native_handle_ready eng p Hr) as Hready.
  destruct (Jni.nativeHandle p) as [k|] eqn:Hh.
  - destruct (Hready k eq_refl) as (Hi & _).
    assert (Hf : Jni.freeMemory p
                 = Jni.mkPeer None (Jni.orphans p)
                     (trace (snd (freeMemory (mkWorld k (Jni.jtrace p) (Jni.jpolls p)))))
                     (polls (snd (freeMemory (mkWorld k (Jni.jtrace p) (Jni.jpolls p)))))).
    { unfold Jni.freeMemory. rewrite Hh, destroy_initialized by exact Hi. reflexivity. }
    rewrite Hf. simpl.
    split; [reflexivity|]. split; [reflexivity|]. split; [reflexivity|].
    intros k' [= <-]. split; [reflexivity|].
    apply (freeMemory_initialized_trace (mkWorld k (Jni.jtrace p) (Jni.jpolls p)) Hi).
  - assert (Hf : Jni.freeMemory p = p) by (unfold Jni.freeMemory; rewrite Hh; reflexivity).
    rewrite !Hf. split; [exact Hh|]. split; [reflexivity|]. split; [reflexivity|].
    discriminate.
Qed.

Lemma native_freeMemory_tears_down_witness :
  Jni.nativeHandle (Jni.freeMemory demo_peer) = None
  /\ Jni.freeMemory (Jni.freeMemory demo_peer) = Jni.freeMemory demo_peer
  /\ Jni.orphans (Jni.freeMemory demo_peer) = Jni.orphans demo_peer
  /\ (forall k, Jni.nativeHandle demo_peer = Some k ->
        Jni.jtrace (Jni.freeMemory demo_peer)
        = trace (snd (freeMemory (mkWorld k (Jni.jtrace demo_peer) (Jni.jpolls demo_peer))))
        /\ exists added,
             Jni.jtrace (Jni.freeMemory demo_peer) = (Jni.jtrace demo_peer ++ added)%list
             /\ count is_backend_free added = 1%nat
             /\ filter acquires added = []).
Proof.
  apply (native_freeMemory_tears_down demo_engine demo_peer).
  apply reachable_after_initializeNative, Jni.reachable_new.
Defined.

(** ** Generation: when a session can generate again *)

Lemma hoare_of_preserves {A} (J : KLlama -> Prop) (m : M A) :
  preserves J m -> hoare (fun w => J (self w)) m (fun _ w' => J (self w')).
Proof. intros H w Hw. apply H, Hw. Qed.

Lemma hoare_post {A} (P : World -> Prop) (m : M A) (Q Q' : A -> World -> Prop) :
  hoare P m Q -> (forall a w, Q a w -> Q' a w) -> hoare P m Q'.
Proof. intros H HQ w Hw. apply HQ, H, Hw. Qed.

Ltac idle_side :=
  let k := fresh "k" in
  let H := fresh "H" in
  intros k H;
  first [ exact H | discriminate | destruct (sampler k); exact H ].

Ltac idle_step :=
  first
    [ apply preserves_ret
    | apply preserves_get
    | apply preserves_emit
    | apply preserves_poll
    | apply preserves_create_bitmaps
    | apply preserves_modify; idle_side
    | match goal with
      | |- preserves _ (if ?c then _ else _) => destruct c
      | |- preserves _ (match ?x with _ => _ end) => destruct x
      | |- preserves _ (let _ := _ in _) => cbv zeta
      | |- preserves _ (when _ _) => unfold when
      | |- preserves _ (report _ _) => unfold report, when
      end
    | apply preserves_bind; [|intros ?] ].

Lemma generation_loop_stays_busy
    (eng : Engine) (sp : SamplingParams.t) (tcb : TokenCallback) (pcb : ProgressCallback)
    (tok : option CancellationToken) (maxT : Z) (fuel : nat) (v : LoopVars) :
  preserves not_idle (generation_loop eng fuel sp tcb pcb tok maxT v).
Proof.
  revert v. induction fuel as [|fuel IH]; intros v; simpl;
    repeat first [apply IH | idle_step].
Qed.

Lemma hoare_same_checkInitialized (w0 : World) :
  hoare (fun w => w = w0) checkInitialized (fun _ w => w = w0).
Proof.
  intros w ->. unfold checkInitialized. run.
  destruct (initialized (self w0)); reflexivity.
Qed.

Lemma hoare_same_get {A} (w0 : World) (f : KLlama -> A) :
  hoare (fun w => w = w0) (get f) (fun _ w => w = w0).
Proof. intros w ->. reflexivity. Qed.

(** [configureSampler] from the world [w0]: it fails and leaves the
    world as it was, or fails because the engine hands out no sampler
    chain, or succeeds. *)
Lemma hoare_same_configureSampler (eng : Engine) (sp : SamplingParams.t) (w0 : World) :
  hoare (fun w => w = w0) (configureSampler eng sp)
        (fun a w => (isError a = true /\ (w = w0 \/ no_sampler_chain eng a))
                    \/ isError a = false).
Proof.
  intros w ->.
  destruct (SamplingParams_validate_kinds sp) as [Hs|[msg Hs]].
  - destruct (llama_sampler_chain_init eng) eqn:Hc.
    + rewrite (configureSampler_run eng sp w0 Hs Hc). right. reflexivity.
    + rewrite (configureSampler_without_chain eng sp w0 Hs Hc). left.
      split; [reflexivity|]. right. repeat split. exact Hc.
  - unfold configureSampler. cbv zeta. rewrite Hs. simpl.
    left. split; [reflexivity | left; reflexivity].
Qed.

Ltac same_leaf :=
  apply hoare_ret;
  let w := fresh "w" in
  let H := fresh "H" in
  intros w H; left; exact H.

Lemma prepare_generation_unchanged_or_busy
    (eng : Engine) (conversation : list MultimodalMessage) (sp : SamplingParams.t)
    (pcb : ProgressCallback) (tok : option CancellationToken) (w0 : World) :
  hoare (fun w => w = w0) (prepare_generation eng conversation sp pcb tok)
        (answer_unchanged_or_busy eng w0).
Proof.
  unfold prepare_generation.
  eapply hoare_bind; [apply hoare_same_checkInitialized|]. intros initCheck.
  destruct (isError initCheck); [same_leaf|].
  eapply hoare_bind; [apply hoare_same_get|]. intros st.
  match goal with |- hoare _ (if ?c then _ else _) _ => destruct c end; [same_leaf|].
  match goal with |- hoare _ (if ?c then _ else _) _ => destruct c end; [same_leaf|].
  cbv zeta.
  destruct (validate_images (extractAllImages conversation)) as [[e msg]|]; [same_leaf|].
  eapply hoare_bind; [apply hoare_same_get|]. intros vc.
  match goal with |- hoare _ (if ?c then _ else _) _ => destruct c end; [same_leaf|].
  eapply hoare_bind; [apply hoare_same_configureSampler|]. intros samplerResult.
  destruct (isError samplerResult) eqn:E.
  - apply hoare_ret. intros w [[_ [->|He]]|Hf];
      [left; reflexivity | right; right; exact He | congruence].
  - eapply hoare_bind with (R := fun _ w => not_idle (self w)).
    + intros w _. discriminate.
    + intros _. eapply hoare_post.
      * apply hoare_of_preserves. repeat idle_step.
      * intros [a|] w H; simpl; [right; left; exact H | exact I].
Qed.

Lemma generateResponseInternal_unchanged_or_busy
    (eng : Engine) (fuel : nat) (conversation : list MultimodalMessage)
    (sp : SamplingParams.t) (tcb : TokenCallback) (pcb : ProgressCallback)
    (tok : option CancellationToken) (w0 : World) :
  hoare (fun w => w = w0) (generateResponseInternal eng fuel conversation sp tcb pcb tok)
        (answer_unchanged_or_busy eng w0).
Proof.
  unfold generateResponseInternal.
  eapply hoare_bind; [apply prepare_generation_unchanged_or_busy|].
  intros [[past0|e msg]|].
  - eapply hoare_bind with (R := fun _ w => not_idle (self w)).
    + intros w _. discriminate.
    + intros _. eapply hoare_post.
      * apply hoare_of_preserves.
        repeat first [apply generation_loop_stays_busy | idle_step].
      * intros [r|] w H; simpl; [right; left; exact H | exact I].
  - apply hoare_ret. intros w H. exact H.
  - apply hoare_ret. intros w H. exact I.
Qed.

(** X27.  When a session can generate again.  After a generation that
    returned, one of three things holds: nothing at all has changed (the
    call was rejected by a check, before anything was touched); or the
    generation state is no longer [Idle], so that the session will refuse
    every further generation (this is where an exception caught by the
    handler of the call ends: [UnknownError] with the state [Error]); or
    the engine gave no sampler chain and the call failed with
    [SamplingFailed] and the text of that failure. *)
Theorem generation_leaves_session_unchanged_or_busy
    (eng : Engine) (fuel : nat) (conversation : list MultimodalMessage)
    (sp : SamplingParams.t) (tcb : TokenCallback) (pcb : ProgressCallback)
    (tok : option CancellationToken) (w : World) (r : KLlamaResult string) :
  fst (generateResponseInternal eng fuel conversation sp tcb pcb tok w) = Some r ->
  snd (generateResponseInternal eng fuel conversation sp tcb pcb tok w) = w
  \/ generationState
       (self (snd (generateResponseInternal eng fuel conversation sp tcb pcb tok w)))
     <> GenerationState.Idle
  \/ (llama_sampler_chain_init eng = false
      /\ r = Failure KLlamaError.SamplingFailed "Failed to create sampler chain").
Proof.
  intros Hr.
  pose proof (generateResponseInternal_unchanged_or_busy eng fuel conversation sp
                tcb pcb tok w w eq_refl) as H.
  rewrite Hr in H.
  destruct H as [H|[H|[Hc [He Hm]]]]; [left; exact H | right; left; exact H|].
  right. right. split; [exact Hc|].
  destruct r as [v|e msg]; simpl in He, Hm; [discriminate|]. subst. reflexivity.
Qed.

Lemma generation_leaves_session_unchanged_or_busy_witness :
  snd (generateResponseInternal chainless_engine 8 hello SamplingParams.default
                                true false None demo_ready) = demo_ready
  \/ generationState
       (self (snd (generateResponseInternal chainless_engine 8 hello SamplingParams.default
                                            true false None demo_ready)))
     <> GenerationState.Idle
  \/ (llama_sampler_chain_init chainless_engine = false
      /\ (Failure KLlamaError.SamplingFailed "Failed to create sampler chain"
          : KLlamaResult string)
         = Failure KLlamaError.SamplingFailed "Failed to create sampler chain").
Proof.
  apply (generation_leaves_session_unchanged_or_busy chainless_engine 8 hello
           SamplingParams.default true false None demo_ready
           (Failure KLlamaError.SamplingFailed "Failed to create sampler chain")).
  reflexivity.
Defined.

(** The handler of [generateResponseInternal] at work: on a vocabulary
    with a piece of 40 bytes [tokenToString] throws on the first token,
    nothing is streamed, and the call answers [UnknownError] with the text
    of the exception and leaves the state [Error]. *)
Example generation_with_long_piece_is_unknown_error :
  fst (generateResponseInternal long_piece_engine 8 hello SamplingParams.default
                                true false None demo_ready)
    = Some (Failure KLlamaError.UnknownError "basic_string::_M_create")
  /\ generationState
       (self (snd (generateResponseInternal long_piece_engine 8 hello
                                            SamplingParams.default true false None
                                            demo_ready)))
     = GenerationState.Error
  /\ tokens_delivered
       (trace (snd (generateResponseInternal long_piece_engine 8 hello
                                             SamplingParams.default true false None
                                             demo_ready)))
     = [].
Proof. repeat split; vm_compute; reflexivity. Qed.
